(** * Ctrl-Q: task import, task export and circular-chain reporting

    A shallow embedding of the parts of Ctrl-Q that read a task definition
    file ([src/lib/cmd/qseow/importtask.js]), write the task table or task
    tree ([src/lib/cmd/qseow/gettask.js]) and report circular task chains
    ([src/lib/cmd/qseow/vistask.js]), with the properties of the
    specification that concern them, and of the part that deletes master
    dimensions ([src/lib/cmd/qseow/deletedim.js]).

    The first part of the file holds the definitions, the second part the
    lemmas and theorems of the specification, the third part further
    properties of the code. *)

From Stdlib Require Import ZArith List String Ascii Bool Lia.
From Stdlib Require Import Sorted.
From Stdlib Require DecimalString.
Import ListNotations.

Local Open Scope string_scope.
Local Open Scope list_scope.
Local Open Scope Z_scope.

(* ===================================================================== *)
(** * Part I: definitions                                                 *)
(* ===================================================================== *)

(** ** JavaScript values and the built-ins the code relies on *)

Module Js.

(** Primitive values.  Numbers are modelled by integers ([PNum]) plus
    [PNaN]; fractions and infinities are outside the model.  These are
    the values a cell of a parsed CSV file or spreadsheet can hold.

    A string is modelled by the bytes of its UTF-8 encoding: the strings
    of the program are the strings of the model that are well-formed
    UTF-8.  Equality of strings is the equality of their bytes; white
    space and the order of strings are defined below on the bytes so that
    they are those of ECMAScript, which works on UTF-16 code units. *)
Inductive prim : Type :=
| PUndefined
| PNull
| PBool (b : bool)
| PNum (n : Z)
| PNaN
| PStr (s : string).

(** Values with arrays and objects, as used for the nodes of a task tree.
    An object is the list of its own enumerable properties in insertion
    order, which is the order [for ... in] visits them in. *)
#[warnings="-register-all"]
Inductive value : Type :=
| VPrim (p : prim)
| VArr (elems : list value)
| VObj (props : list (string * value)).

(** White space and line terminators of ECMAScript, which [trim]
    removes and [parseInt] and [Number] skip, by the bytes of their UTF-8
    encoding.  Of one byte: TAB, LF, VT, FF, CR and the space. *)
Definition isWhiteSpace (c : ascii) : bool :=
  let n := nat_of_ascii c in
  ((9 <=? n)%nat && (n <=? 13)%nat) || (n =? 32)%nat.

Definition isByte (c : ascii) (n : nat) : bool := (nat_of_ascii c =? n)%nat.

(** Of two bytes: the no-break space U+00A0. *)
Definition isWhiteSpace2 (c1 c2 : ascii) : bool :=
  isByte c1 194 && isByte c2 160.

(** Of three bytes: U+1680, U+2000 to U+200A, U+2028, U+2029, U+202F,
    U+205F, U+3000 and U+FEFF. *)
Definition isWhiteSpace3 (c1 c2 c3 : ascii) : bool :=
  (isByte c1 225 && isByte c2 154 && isByte c3 128)
  || (isByte c1 226 && isByte c2 128
      && (((128 <=? nat_of_ascii c3)%nat && (nat_of_ascii c3 <=? 138)%nat)
          || isByte c3 168 || isByte c3 169 || isByte c3 175))
  || (isByte c1 226 && isByte c2 129 && isByte c3 159)
  || (isByte c1 227 && isByte c2 128 && isByte c3 128)
  || (isByte c1 239 && isByte c2 187 && isByte c3 191).

Definition isDigit (c : ascii) : bool :=
  let n := nat_of_ascii c in
  (48 <=? n)%nat && (n <=? 57)%nat.

Definition digitValue (c : ascii) : Z := Z.of_nat (nat_of_ascii c - 48).

(** [String.prototype.trimStart]: the white space characters at the
    start of the string are dropped. *)
Fixpoint trimStart (s : string) : string :=
  match s with
  | String c1 r1 =>
      if isWhiteSpace c1 then trimStart r1
      else
        match r1 with
        | String c2 r2 =>
            if isWhiteSpace2 c1 c2 then trimStart r2
            else
              match r2 with
              | String c3 r3 =>
                  if isWhiteSpace3 c1 c2 c3 then trimStart r3 else s
              | EmptyString => s
              end
        | EmptyString => s
        end
  | EmptyString => EmptyString
  end.

(** [String.prototype.trimEnd]: the string is cut where what follows is
    white space only. *)
Fixpoint trimEnd (s : string) : string :=
  match s with
  | String c r =>
      match trimStart s with
      | EmptyString => EmptyString
      | _ => String c (trimEnd r)
      end
  | EmptyString => EmptyString
  end.

(** [String.prototype.trim] *)
Definition trim (s : string) : string := trimEnd (trimStart s).

(** Value of the longest prefix of decimal digits, most significant
    digit first. *)
Fixpoint parseDigits (acc : Z) (s : string) : Z :=
  match s with
  | String c r => if isDigit c then parseDigits (10 * acc + digitValue c) r else acc
  | EmptyString => acc
  end.

Definition startsWithDigit (s : string) : bool :=
  match s with
  | String c _ => isDigit c
  | EmptyString => false
  end.

(** The number that a numeral denotes is rounded to the nearest double,
    ties to even: an integer below 2^53 in absolute value is itself, a
    larger one keeps its 53 leading bits.  (Numerals of more than 308
    digits, which read as an infinity, are outside the model.) *)
Definition toDouble (n : Z) : Z :=
  let a := Z.abs n in
  if a <? 2 ^ 53 then n
  else
    let k := Z.log2 a - 52 in
    let q := Z.shiftr a k in
    let r := a - Z.shiftl q k in
    let half := Z.shiftl 1 (k - 1) in
    let q' := if (half <? r) || ((r =? half) && Z.odd q) then q + 1 else q in
    Z.sgn n * Z.shiftl q' k.

(** [parseInt(s, 10)] on a string: leading white space is skipped, one
    sign is read, then the longest run of digits; no digit gives NaN. *)
Definition parseIntStr (s : string) : prim :=
  match trimStart s with
  | String "-" r =>
      if startsWithDigit r then PNum (toDouble (- parseDigits 0 r)) else PNaN
  | String "+" r =>
      if startsWithDigit r then PNum (toDouble (parseDigits 0 r)) else PNaN
  | t => if startsWithDigit t then PNum (toDouble (parseDigits 0 t)) else PNaN
  end.

(** [parseInt(v, 10)] on any primitive: the argument is first converted
    to a string; an integer (below 10^21, where the exponent notation
    starts) prints as its own decimal numeral, and "undefined", "null",
    "true", "false" and "NaN" hold no digit. *)
Definition parseInt (v : prim) : prim :=
  match v with
  | PStr s => parseIntStr s
  | PNum n => PNum n
  | _ => PNaN
  end.

Fixpoint allDigits (s : string) : bool :=
  match s with
  | String c r => isDigit c && allDigits r
  | EmptyString => true
  end.

(** [Number(s)] restricted to integer numerals: the trimmed string is
    empty (0) or an optionally signed run of digits; anything else is
    NaN here ([None]). *)
Definition stringToNumber (s : string) : option Z :=
  match trim s with
  | EmptyString => Some 0
  | String "-" r =>
      if startsWithDigit r && allDigits r
      then Some (toDouble (- parseDigits 0 r)) else None
  | String "+" r =>
      if startsWithDigit r && allDigits r
      then Some (toDouble (parseDigits 0 r)) else None
  | t => if allDigits t then Some (toDouble (parseDigits 0 t)) else None
  end.

(** [ToNumber]; [None] stands for NaN. *)
Definition toNumber (v : prim) : option Z :=
  match v with
  | PUndefined => None
  | PNull => Some 0
  | PBool true => Some 1
  | PBool false => Some 0
  | PNum n => Some n
  | PNaN => None
  | PStr s => stringToNumber s
  end.

(** The order of strings is the order of their UTF-16 code units.  On
    the bytes of UTF-8 it is the order of the bytes, but for one case: a
    character from U+E000 to U+FFFF, whose first byte is EE or EF, comes
    after the characters above U+FFFF, whose first byte is F0 to F4 and
    which UTF-16 writes with surrogates from D800 on.  The bytes EE and
    EF are therefore ranked above all others. *)
Definition codeUnitRank (c : ascii) : ascii :=
  if isByte c 238 then ascii_of_nat 254
  else if isByte c 239 then ascii_of_nat 255
  else c.

Fixpoint codeUnitKey (s : string) : string :=
  match s with
  | String c r => String (codeUnitRank c) (codeUnitKey r)
  | EmptyString => EmptyString
  end.

(** [a < b] and [a <= b] on two strings. *)
Definition ltStr (a b : string) : bool :=
  String.ltb (codeUnitKey a) (codeUnitKey b).

Definition leStr (a b : string) : bool :=
  String.leb (codeUnitKey a) (codeUnitKey b).

(** [a <= b]: two strings are compared as strings, otherwise both sides
    are converted to numbers and a NaN on either side gives false. *)
Definition le (a b : prim) : bool :=
  match a, b with
  | PStr s, PStr t => leStr s t
  | _, _ =>
      match toNumber a, toNumber b with
      | Some x, Some y => x <=? y
      | _, _ => false
      end
  end.

(** [a > b] *)
Definition gt (a b : prim) : bool :=
  match a, b with
  | PStr s, PStr t => ltStr t s
  | _, _ =>
      match toNumber a, toNumber b with
      | Some x, Some y => y <? x
      | _, _ => false
      end
  end.

(** [a >= b] *)
Definition ge (a b : prim) : bool := le b a.

(** [a === b] on primitives; NaN differs from itself. *)
Definition strictEq (a b : prim) : bool :=
  match a, b with
  | PUndefined, PUndefined => true
  | PNull, PNull => true
  | PBool x, PBool y => Bool.eqb x y
  | PNum x, PNum y => x =? y
  | PStr s, PStr t => String.eqb s t
  | _, _ => false
  end.

(** [arr[i]] for an array of primitives: undefined outside the array,
    also for a negative index. *)
Definition index (arr : list prim) (i : Z) : prim :=
  if i <? 0 then PUndefined else nth (Z.to_nat i) arr PUndefined.

(** [arr.findIndex(p)]: the first position whose element satisfies [p],
    or -1. *)
Fixpoint findIndex {A : Type} (p : A -> bool) (arr : list A) : Z :=
  match arr with
  | [] => -1
  | x :: r => if p x then 0 else
                let i := findIndex p r in
                if i <? 0 then -1 else i + 1
  end.

(** [arr.filter((element, index, self) => ...)], the callback receiving
    the position of the element and the whole array. *)
Fixpoint filterFrom {A : Type} (f : A -> Z -> list A -> bool)
         (self : list A) (index : Z) (rest : list A) : list A :=
  match rest with
  | [] => []
  | x :: r =>
      if f x index self
      then x :: filterFrom f self (index + 1) r
      else filterFrom f self (index + 1) r
  end.

Definition filterIndexed {A : Type} (f : A -> Z -> list A -> bool)
           (arr : list A) : list A :=
  filterFrom f arr 0 arr.

(** [typeof v === 'object']: arrays, objects and null. *)
Definition typeofObject (v : value) : bool :=
  match v with
  | VPrim PNull => true
  | VPrim _ => false
  | VArr _ => true
  | VObj _ => true
  end.

(** Whether a primitive is truthy. *)
Definition truthy (v : prim) : bool :=
  match v with
  | PUndefined | PNull | PNaN => false
  | PBool b => b
  | PNum n => negb (n =? 0)
  | PStr s => negb (String.eqb s "")
  end.

(** [ToString], as a template literal applies it; an integer of 10^21
    or more, which prints with an exponent, is outside the model. *)
Definition toString (v : prim) : string :=
  match v with
  | PUndefined => "undefined"
  | PNull => "null"
  | PBool true => "true"
  | PBool false => "false"
  | PNum n => DecimalString.NilZero.string_of_int (Z.to_int n)
  | PNaN => "NaN"
  | PStr s => s
  end.

(** [arr.sort(compare)], the sort being stable: an element is put before
    the first element of the sorted rest that it does not come after.
    This is the result of [Array.prototype.sort] when [compare] is a
    consistent comparator; for others the order is left to the engine and
    is outside the model. *)
Fixpoint insertSorted {A : Type} (compare : A -> A -> Z) (x : A)
         (sorted : list A) : list A :=
  match sorted with
  | [] => [x]
  | y :: r => if compare x y <=? 0 then x :: sorted
              else y :: insertSorted compare x r
  end.

Definition sort {A : Type} (compare : A -> A -> Z) (arr : list A) : list A :=
  fold_right (insertSorted compare) [] arr.

(** A text between double quotes, as the log entries show a name. *)
Definition quoted (s : string) : string :=
  String (ascii_of_nat 34) (String.append s (String (ascii_of_nat 34) "")).

End Js.

(** ** How a run of the program ends, and what it does on the way *)

Module Proc.

(** A computation returns a value, ends the process ([process.exit]) or
    throws an exception that travels to the nearest [catch]. *)
Inductive outcome (A : Type) : Type :=
| Return (a : A)
| Exit (code : Z)
| Throw (err : string).

Arguments Return {A} a.
Arguments Exit {A} code.
Arguments Throw {A} err.

Definition bind {A B : Type} (c : outcome A) (k : A -> outcome B) : outcome B :=
  match c with
  | Return a => k a
  | Exit code => Exit code
  | Throw err => Throw err
  end.

(** A computation that also leaves a trace of events of type [E], the
    oldest event first. *)
Definition traced (E A : Type) : Type := list E -> outcome A * list E.

Definition ret {E A : Type} (a : A) : traced E A := fun tr => (Return a, tr).

Definition bindT {E A B : Type} (c : traced E A) (k : A -> traced E B)
  : traced E B :=
  fun tr =>
    match c tr with
    | (Return a, tr') => k a tr'
    | (Exit code, tr') => (Exit code, tr')
    | (Throw err, tr') => (Throw err, tr')
    end.

Definition emit {E : Type} (e : E) : traced E unit :=
  fun tr => (Return tt, tr ++ [e]).

(** A call that leaves no event in the trace; its outcome is given. *)
Definition call {E A : Type} (c : outcome A) : traced E A := fun tr => (c, tr).

(** A call of a collaborator: the call is the event [e] of the trace, and
    its result is given. *)
Definition invoke {E A : Type} (e : E) (c : outcome A) : traced E A :=
  fun tr => (c, tr ++ [e]).

(** A call whose return is an event too. *)
Definition invokeThen {E A : Type} (e : E) (returned : A -> E) (c : outcome A)
  : traced E A :=
  fun tr =>
    match c with
    | Return a => (Return a, tr ++ [e; returned a])
    | Exit code => (Exit code, tr ++ [e])
    | Throw err => (Throw err, tr ++ [e])
    end.

(** A call whose result depends on the run so far, the call included. *)
Definition invokeAt {E A : Type} (e : E) (c : list E -> outcome A)
  : traced E A :=
  fun tr => (c (tr ++ [e]), tr ++ [e]).

Definition exit {E A : Type} (code : Z) : traced E A := fun tr => (Exit code, tr).

Definition throw {E A : Type} (err : string) : traced E A :=
  fun tr => (Throw err, tr).

(** [try { body } catch (err) { handler }]: only exceptions are caught,
    the end of the process is not. *)
Definition tryCatch {E A : Type} (body : traced E A)
           (handler : string -> traced E A) : traced E A :=
  fun tr =>
    match body tr with
    | (Throw err, tr') => handler err tr'
    | r => r
    end.

(** The run of a computation from the empty trace. *)
Definition run {E A : Type} (c : traced E A) : outcome A * list E := c [].

End Proc.

Declare Scope proc_scope.
Delimit Scope proc_scope with proc.
Notation "x <- c ;; k" := (Proc.bind c (fun x => k))
  (at level 61, c at next level, right associativity) : proc_scope.
Notation "x <~ c ;; k" := (Proc.bindT c (fun x => k))
  (at level 61, c at next level, right associativity) : proc_scope.
Notation "c ;;; k" := (Proc.bindT c (fun _ => k))
  (at level 61, right associativity) : proc_scope.

(** ** Helpers of the repository that the task import calls *)

Module Globals.

(** Modelled from the spec: [isNumeric] of [globals.js], whose code is
    not part of this development.  Section 4.4 gives the integer columns
    the type "integer, or the empty string for absent", and the import
    code tests the empty string apart from [isNumeric]; the model
    therefore accepts the strings that read as an integer numeral, white
    space around the numeral allowed, and no empty or blank string. *)
Definition isNumeric (str : string) : bool :=
  match Js.stringToNumber str with
  | Some _ => negb (String.eqb (Js.trim str) "")
  | None => false
  end.

End Globals.

Module Lookups.

(** A logical column of the task definition file: its header text and
    its position in the header row. *)
Record Column : Type := { name : string; pos : Z }.

(** The columns that [importtask.js] reads from the result of
    [getTaskColumnPosFromHeaderRow]. *)
Record ColHeaders : Type := {
  taskCounter : Column;
  taskEnabled : Column;
  taskSessionTimeout : Column;
  taskMaxRetries : Column;
  isPartialReload : Column;
  isManuallyTriggered : Column;
  eventCounter : Column;
  eventEnabled : Column;
  timeConstraintSeconds : Column;
  timeConstraintMinutes : Column;
  timeConstraintHours : Column;
  timeConstraintDays : Column;
  ruleCounter : Column
}.

Definition column (headerRow : list Js.prim) (n : string) : Column :=
  {| name := n;
     pos := Js.findIndex (fun cell => Js.strictEq cell (Js.PStr n)) headerRow |}.

(** Modelled from the spec: [getTaskColumnPosFromHeaderRow] of
    [util/qseow/lookups.js], whose code is not part of this development.
    The logical columns are those of the task-import grammar (section 6);
    each header text is spelled as the README's table of mandatory
    columns spells it, which is also what the exporter writes; a column
    whose text is not in the header row has position -1. *)
Definition getTaskColumnPosFromHeaderRow (headerRow : list Js.prim)
  : ColHeaders :=
  {| taskCounter := column headerRow "Task counter";
     taskEnabled := column headerRow "Task enabled";
     taskSessionTimeout := column headerRow "Task timeout";
     taskMaxRetries := column headerRow "Task retries";
     isPartialReload := column headerRow "Partial reload";
     isManuallyTriggered := column headerRow "Manually triggered";
     eventCounter := column headerRow "Event counter";
     eventEnabled := column headerRow "Event enabled";
     timeConstraintSeconds := column headerRow "Time contstraint seconds";
     timeConstraintMinutes := column headerRow "Time contstraint minutes";
     timeConstraintHours := column headerRow "Time contstraint hours";
     timeConstraintDays := column headerRow "Time contstraint days";
     ruleCounter := column headerRow "Rule counter" |}.

End Lookups.

(** ** The [csv-parse] library, as [importtask.js] configures it *)

Module CsvParse.
Import Proc.
Local Open Scope proc_scope.

(** The [context] argument of the [cast] callback. *)
Module Context.
Record t : Type := { lines : Z; column : Z }.
End Context.

(** The [info] object delivered with a record ([info: true]). *)
Module Info.
Record t : Type := { lines : Z }.
End Info.

Record Row : Type := { info : Info.t; record : list Js.prim }.

Definition LF : ascii := ascii_of_nat 10.
Definition comma : ascii := ascii_of_nat 44.


(** The pieces of [s] between the occurrences of [sep]; there is always
    at least one piece. *)
Fixpoint split (sep : ascii) (s : string) : list string :=
  match s with
  | EmptyString => [EmptyString]
  | String c r =>
      if Ascii.eqb c sep then EmptyString :: split sep r
      else match split sep r with
           | f :: fs => String c f :: fs
           | [] => [String c EmptyString]
           end
  end.

(** Without a [cast] option every field stays the string it is. *)
Definition noCast (value : string) (context : Context.t) : outcome Js.prim :=
  Return (Js.PStr value).

(** The fields of one line go through [cast] from left to right. *)
Fixpoint castFields (cast : string -> Context.t -> outcome Js.prim)
         (line col : Z) (fields : list string) : outcome (list Js.prim) :=
  match fields with
  | [] => Return []
  | f :: r =>
      v <- cast f {| Context.lines := line; Context.column := col |} ;;
      vs <- castFields cast line (col + 1) r ;;
      Return (v :: vs)
  end.

(** The library is not part of the repository; this is its behaviour
    on a [plain] text, with the comma as field delimiter and the options
    [info: true] and [skip_empty_lines: true].  For other texts (quoted
    fields, carriage returns) the records of the library are not those
    of this definition, and the properties that depend on the records
    are stated for plain texts.  The counter [lines] starts at 1 and counts
    every line of the input, whether the line is kept or skipped, so a
    record carries the number of the line it stands on.  An empty line
    yields no record.  A record whose number of fields differs from that
    of the first record is an error, which the consuming loop receives as
    an exception. *)
Fixpoint parseLines (cast : string -> Context.t -> outcome Js.prim)
         (line : Z) (expected : option nat) (input : list string)
  : outcome (list Row) :=
  match input with
  | [] => Return []
  | l :: rest =>
      if String.eqb l "" then parseLines cast (line + 1) expected rest
      else
        fields <- castFields cast line 0 (split comma l) ;;
        match expected with
        | Some n =>
            if Nat.eqb (List.length fields) n then
              rows <- parseLines cast (line + 1) expected rest ;;
              Return ({| info := {| Info.lines := line |}; record := fields |} :: rows)
            else Throw "CSV_RECORD_INCONSISTENT_FIELDS_LENGTH"
        | None =>
            rows <- parseLines cast (line + 1) (Some (List.length fields)) rest ;;
            Return ({| info := {| Info.lines := line |}; record := fields |} :: rows)
        end
  end.

(** [fs.createReadStream(fileName).pipe(parse({...}))], read to its end;
    [text] is the content of the file. *)
Definition parse (cast : string -> Context.t -> outcome Js.prim)
           (text : string) : outcome (list Row) :=
  parseLines cast 1 None (split LF text).

End CsvParse.

(** ** Task import ([importtask.js]) *)

Module ImportTask.
Import Proc Lookups.
Local Open Scope proc_scope.

Record Options : Type := {
  fileName : string;
  fileType : string;
  sheetName : string;
  limitImportCount : Js.prim;
  importApp : bool;
  importAppSheetName : string
}.

(** One sheet of a workbook as [xlsx.parse] returns it, which is also the
    shape built for a CSV file. *)
Record Sheet : Type := { name : string; data : list (list Js.prim) }.

Section Parser.

(** [isNumeric] and [getTaskColumnPosFromHeaderRow] are imported from
    [globals.js] and [util/qseow/lookups.js]; the definitions take them
    as parameters. *)
Variable isNumeric : string -> bool.
Variable getTaskColumnPosFromHeaderRow : list Js.prim -> ColHeaders.

(** [getHeaders]: the loop over the parser's records. *)
Fixpoint headerRecords (parser : list CsvParse.Row)
         (records : list (list Js.prim)) : list (list Js.prim) :=
  match parser with
  | [] => records
  | record :: rest =>
      if CsvParse.Info.lines (CsvParse.info record) =? 1
      then headerRecords rest (records ++ [CsvParse.record record])
      else headerRecords rest records
  end.

Definition getHeaders (text : string) : outcome (list (list Js.prim)) :=
  parser <- CsvParse.parse CsvParse.noCast text ;;
  Return (headerRecords parser []).

(** The blocks of the [cast] callback.  [cast] receives strings only,
    so the test [typeof value !== 'string'] of every block is false
    and is not written.  A block gives [None] when control leaves it
    without [return] and goes on to the next [if]. *)

(** "Task counter": an integer. *)
Definition castTaskCounter (value : string) : option (outcome Js.prim) :=
  if negb (isNumeric value) then Some (Exit 1)
  else Some (Return (Js.parseIntStr value)).

(** "Task enabled", "Partial reload", "Manually triggered" and
    "Event enabled": 0, 1 or empty. *)
Definition castBoolean (value : string) : option (outcome Js.prim) :=
  if negb (String.eqb value "0" || String.eqb value "1"
           || String.eqb (Js.trim value) "")
  then Some (Exit 1)
  else if String.eqb value "1" then Some (Return (Js.PBool true))
  else if String.eqb value "0" || String.eqb (Js.trim value) ""
       then Some (Return (Js.PBool false))
  else None.

(** "Task timeout", "Event counter" and "Rule counter": an integer
    greater than 0, or empty. *)
Definition castPositive (value : string) : option (outcome Js.prim) :=
  if ((0 <? Z.of_nat (String.length (Js.trim value))) && negb (isNumeric value))
     || negb (Js.gt (Js.parseIntStr value) (Js.PNum 0)
              || String.eqb (Js.trim value) "")
  then Some (Exit 1)
  else if String.eqb (Js.trim value) "" then Some (Return (Js.PStr ""))
  else Some (Return (Js.parseIntStr value)).

(** "Task retries" and the four "Time contstraint" columns: an integer
    equal to or greater than 0, or empty. *)
Definition castNonNegative (value : string) : option (outcome Js.prim) :=
  if ((0 <? Z.of_nat (String.length (Js.trim value))) && negb (isNumeric value))
     || negb (Js.ge (Js.parseIntStr value) (Js.PNum 0)
              || String.eqb (Js.trim value) "")
  then Some (Exit 1)
  else if String.eqb (Js.trim value) "" then Some (Return (Js.PStr ""))
  else Some (Return (Js.parseIntStr value)).

(** The blocks in the order of the source, each with the position its
    [if (context.column === ...)] compares with. *)
Definition castBlocks (colHeaders : ColHeaders)
  : list (Z * (string -> option (outcome Js.prim))) :=
  [ (pos (taskCounter colHeaders), castTaskCounter);
    (pos (taskEnabled colHeaders), castBoolean);
    (pos (taskSessionTimeout colHeaders), castPositive);
    (pos (taskMaxRetries colHeaders), castNonNegative);
    (pos (isPartialReload colHeaders), castBoolean);
    (pos (isManuallyTriggered colHeaders), castBoolean);
    (pos (eventCounter colHeaders), castPositive);
    (pos (eventEnabled colHeaders), castBoolean);
    (pos (timeConstraintSeconds colHeaders), castNonNegative);
    (pos (timeConstraintMinutes colHeaders), castNonNegative);
    (pos (timeConstraintHours colHeaders), castNonNegative);
    (pos (timeConstraintDays colHeaders), castNonNegative);
    (pos (ruleCounter colHeaders), castPositive) ].

(** The chain of [if]s: the first block whose position is the column
    of the cell and that returns or exits decides; a cell of no
    listed column is returned as it is. *)
Fixpoint runBlocks (blocks : list (Z * (string -> option (outcome Js.prim))))
         (column : Z) (value : string) : outcome Js.prim :=
  match blocks with
  | [] => Return (Js.PStr value)
  | (p, block) :: rest =>
      if column =? p then
        match block value with
        | Some result => result
        | None => runBlocks rest column value
        end
      else runBlocks rest column value
  end.

(** The [cast] callback of [processCsvFile]. *)
Definition cast (colHeaders : ColHeaders) (value : string)
           (context : CsvParse.Context.t) : outcome Js.prim :=
  if CsvParse.Context.lines context =? 1 then Return (Js.PStr value)
  else runBlocks (castBlocks colHeaders) (CsvParse.Context.column context) value.

(** The loop of [processCsvFile] over the parser's records. *)
Fixpoint keptRecords (options : Options) (colHeaders : ColHeaders)
         (parser : list CsvParse.Row) (records : list (list Js.prim))
  : list (list Js.prim) :=
  match parser with
  | [] => records
  | record :: rest =>
      if CsvParse.Info.lines (CsvParse.info record) =? 1 then
        keptRecords options colHeaders rest (records ++ [CsvParse.record record])
      else if Js.gt (Js.parseInt (limitImportCount options)) (Js.PNum 0) then
        if Js.le (Js.index (CsvParse.record record) (pos (taskCounter colHeaders)))
                 (Js.parseInt (limitImportCount options))
        then keptRecords options colHeaders rest (records ++ [CsvParse.record record])
        else keptRecords options colHeaders rest records
      else keptRecords options colHeaders rest (records ++ [CsvParse.record record])
  end.

(** [processCsvFile]; [text] is the content of [options.fileName].
    When [getHeaders] found no record, [headers[0]] is undefined and
    the [for ... of] over it throws a TypeError. *)
Definition processCsvFile (options : Options) (text : string)
  : outcome (list (list Js.prim)) :=
  headers <- getHeaders text ;;
  match headers with
  | [] => Throw "TypeError: headers[0] is not iterable"
  | headerRow :: _ =>
      let colHeaders := getTaskColumnPosFromHeaderRow headerRow in
      parser <- CsvParse.parse (cast colHeaders) text ;;
      Return (keptRecords options colHeaders parser [])
  end.

(** The filter of the Excel branch ([limitedTasks], lines 366-378). *)
Definition limitedTasks (options : Options) (colHeaders : ColHeaders)
           (rows : list (list Js.prim)) : list (list Js.prim) :=
  filter
    (fun task =>
       if Js.strictEq (Js.index task (pos (taskCounter colHeaders)))
                      (Js.PStr (Lookups.name (taskCounter colHeaders)))
       then true
       else if Js.le (Js.index task (pos (taskCounter colHeaders)))
                     (Js.parseInt (limitImportCount options))
       then true
       else false)
    rows.

(** Lines 360-383: the limit applied to the sheet that was found.
    [tasksFromFile.data[0]] of a sheet without rows is undefined and
    cannot be searched for column names. *)
Definition limitSheet (options : Options) (tasksFromFile : Sheet)
  : outcome Sheet :=
  if Js.gt (Js.parseInt (limitImportCount options)) (Js.PNum 0) then
    match data tasksFromFile with
    | [] => Throw "TypeError: header row is undefined"
    | headerRow :: _ =>
        let colHeaders := getTaskColumnPosFromHeaderRow headerRow in
        Return {| name := name tasksFromFile;
                  data := limitedTasks options colHeaders (data tasksFromFile) |}
    end
  else Return tasksFromFile.

End Parser.

(** *** The collaborators of [importTaskFromFile] *)

Definition Tags : Type := list string.
Definition CustomProperties : Type := list string.
(** The uploaded apps: App counter and the id of the new app. *)
Definition ImportedApps : Type := list (Z * string).
(** The tasks that were created. *)
Definition TaskList : Type := list string.

(** The results of the calls that leave the module; each may return,
    throw or end the process.  [readFile] is the content that the read
    stream of [processCsvFile] delivers, or the error of the stream.
    [getTaskModelFromFile] gives [None] for a result that is not
    truthy. *)
Record World : Type := {
  getTagsFromQseow : Options -> outcome Tags;
  getCustomPropertiesFromQseow : Options -> outcome CustomProperties;
  verifyFileSystemExists : string -> outcome bool;
  readFile : string -> outcome string;
  xlsxParse : string -> outcome (list Sheet);
  qlikSenseAppsInit : Options -> outcome unit;
  importAppsFromFiles :
    option Sheet -> Tags -> CustomProperties -> outcome ImportedApps;
  qlikSenseTasksInit : Options -> option ImportedApps -> outcome unit;
  getTaskModelFromFile :
    option Sheet -> Tags -> CustomProperties -> Options -> outcome (option TaskList)
}.

(** What a run leaves behind, in the order in which it happens: the
    entries that [logger.info] and [logger.error] write, and the calls
    that leave the module.  [AppImportStarted] is the call of
    [importAppsFromFiles] and [AppImportDone] its return; [TasksInit] is
    the call of [qlikSenseTasks.init] and [TaskModelStarted] the call of
    [getTaskModelFromFile].  Entries of the levels verbose and debug are
    not recorded. *)
Inductive Event : Type :=
| LogInfo (message : string)
| LogError (message : string)
| TagsRequested
| CustomPropertiesRequested
| FileChecked (fileName : string)
| FileRead (fileName : string)
| WorkbookRead (fileName : string)
| AppsInit
| AppImportStarted (appsFromFile : option Sheet)
| AppImportDone (importedApps : ImportedApps)
| TasksInit (importedApps : option ImportedApps)
| TaskModelStarted (tasksFromFile : option Sheet).

(** What [importTaskFromFile] resolves to: the task list, [false], or
    nothing after the [catch]. *)
Inductive Result : Type :=
| TaskListResult (taskList : TaskList)
| FalseResult
| UndefinedResult.

(** Modelled from the spec: [catchLog] of [util/log.js], whose code is
    not part of this development.  Section 7 has every failure surfaced
    to the user, and where the commands call [catchLog] they go on with
    [process.exit(1)] or [return false] ([deletedim.js], [gettask.js]):
    it writes the error to the log and returns. *)
Definition catchLog (context err : string) : traced Event unit :=
  emit (LogError (String.append context (String.append ": " err))).

Definition findSheet (sheetName : string) (workSheetsFromFile : list Sheet)
  : option Sheet :=
  find (fun item => String.eqb (name item) sheetName) workSheetsFromFile.

Definition cantFindSheet (sheetName fileName : string) : string :=
  String.append "EXCEL IMPORT: Can't find sheet "
    (String.append sheetName (String.append " in file " fileName)).

(** Line 310. *)
Definition importStartMessage (options : Options) : string :=
  String.append "Import tasks from definitions in file "
                (Js.quoted (fileName options)).

(** Line 318. *)
Definition customPropertiesMessage (cpExisting : CustomProperties) : string :=
  String.append "Successfully retrieved "
    (String.append (Js.toString (Js.PNum (Z.of_nat (List.length cpExisting))))
                   " custom properties from QSEoW").

(** Line 323. *)
Definition missingFileMessage (options : Options) : string :=
  String.append "Missing task file "
                (String.append (Js.quoted (fileName options)) ". Aborting").

(** Lines 381-382: [tasksFromFile.data] is emptied and filled again in
    place, so the workbook holds the limited sheet where [find] met the
    task sheet. *)
Fixpoint limitedInPlace (sheetName : string) (limited : Sheet)
         (workSheetsFromFile : list Sheet) : list Sheet :=
  match workSheetsFromFile with
  | [] => []
  | item :: rest =>
      if String.eqb (name item) sheetName then limited :: rest
      else item :: limitedInPlace sheetName limited rest
  end.

Section Importer.
Variable isNumeric : string -> bool.
Variable getTaskColumnPosFromHeaderRow : list Js.prim -> ColHeaders.
Variable world : World.

(** Lines 332-392: the definitions are loaded from the source file.
    [processCsvFile] opens the file once for the header and once for the
    records; the file is taken not to change in between, and the two
    reads are one event. *)
Definition loadDefinitions (options : Options)
  : traced Event (option Sheet * option Sheet) :=
  if String.eqb (fileType options) "csv" then
    text <~ invoke (FileRead (fileName options))
                   (readFile world (fileName options)) ;;
    tmpTasksFromFile <~
      call (processCsvFile isNumeric getTaskColumnPosFromHeaderRow options
                           text) ;;
    ret (Some {| name := "Ctrl-Q task import from CSV";
                 data := tmpTasksFromFile |}, None)
  else if String.eqb (fileType options) "excel" then
    workSheetsFromFile <~ invoke (WorkbookRead (fileName options))
                                 (xlsxParse world (fileName options)) ;;
    match findSheet (sheetName options) workSheetsFromFile with
    | None => throw (cantFindSheet (sheetName options) (fileName options))
    | Some tasksFromFile =>
        limited <~ call (limitSheet getTaskColumnPosFromHeaderRow
                                    options tasksFromFile) ;;
        if importApp options then
          match findSheet (importAppSheetName options)
                          (limitedInPlace (sheetName options) limited
                                          workSheetsFromFile) with
          | None => throw (cantFindSheet (importAppSheetName options)
                                         (fileName options))
          | Some appsFromFile => ret (Some limited, Some appsFromFile)
          end
        else ret (Some limited, None)
    end
  else ret (None, None).

(** Lines 395-404: apps are imported before the tasks. *)
Definition importApps (options : Options) (appsFromFile : option Sheet)
           (tagsExisting : Tags) (cpExisting : CustomProperties)
  : traced Event (option ImportedApps) :=
  if importApp options then
    invoke AppsInit (qlikSenseAppsInit world options) ;;;
    importedApps <~
      invokeThen (AppImportStarted appsFromFile) AppImportDone
        (importAppsFromFiles world appsFromFile tagsExisting cpExisting) ;;
    ret (Some importedApps)
  else ret None.

Definition importTaskFromFile (options : Options) : traced Event Result :=
  tryCatch
    (emit (LogInfo (importStartMessage options)) ;;;
     tagsExisting <~ invoke TagsRequested (getTagsFromQseow world options) ;;
     cpExisting <~ invoke CustomPropertiesRequested
                          (getCustomPropertiesFromQseow world options) ;;
     emit (LogInfo (customPropertiesMessage cpExisting)) ;;;
     taskFileExists <~ invoke (FileChecked (fileName options))
                              (verifyFileSystemExists world (fileName options)) ;;
     (if negb taskFileExists
      then emit (LogError (missingFileMessage options)) ;;; exit 1
      else ret tt) ;;;
     loaded <~ loadDefinitions options ;;
     importedApps <~ importApps options (snd loaded) tagsExisting cpExisting ;;
     invoke (TasksInit importedApps)
            (qlikSenseTasksInit world options importedApps) ;;;
     taskList <~
       invoke (TaskModelStarted (fst loaded))
              (getTaskModelFromFile world (fst loaded) tagsExisting cpExisting
                                    options) ;;
     match taskList with
     | Some tasks => ret (TaskListResult tasks)
     | None => ret FalseResult
     end)
    (fun err => catchLog "IMPORT TASK 2" err ;;; ret UndefinedResult).

End Importer.

(** *** Vocabulary of the properties *)

(** The entries and calls of a run up to the test for the task file,
    when the tags and the custom properties [cps] have been retrieved. *)
Definition preamble (options : Options) (cps : CustomProperties) : list Event :=
  [ LogInfo (importStartMessage options);
    TagsRequested;
    CustomPropertiesRequested;
    LogInfo (customPropertiesMessage cps);
    FileChecked (fileName options) ].

(** The calls of the task object, which creates the tasks. *)
Definition isTaskCall (e : Event) : bool :=
  match e with
  | TasksInit _ | TaskModelStarted _ => true
  | _ => false
  end.

(** Positions of the columns whose block is [castBoolean], and of the
    columns whose block reads an integer. *)
Definition booleanColumns (colHeaders : ColHeaders) : list Z :=
  [ pos (taskEnabled colHeaders); pos (isPartialReload colHeaders);
    pos (isManuallyTriggered colHeaders); pos (eventEnabled colHeaders) ].

Definition integerColumns (colHeaders : ColHeaders) : list Z :=
  [ pos (taskCounter colHeaders); pos (taskSessionTimeout colHeaders);
    pos (taskMaxRetries colHeaders); pos (eventCounter colHeaders);
    pos (timeConstraintSeconds colHeaders);
    pos (timeConstraintMinutes colHeaders);
    pos (timeConstraintHours colHeaders);
    pos (timeConstraintDays colHeaders); pos (ruleCounter colHeaders) ].




(** Positions of the columns whose block is [castNonNegative], and of
    the columns whose block is [castPositive]. *)
Definition nonNegativeColumns (colHeaders : ColHeaders) : list Z :=
  [ pos (taskMaxRetries colHeaders);
    pos (timeConstraintSeconds colHeaders);
    pos (timeConstraintMinutes colHeaders);
    pos (timeConstraintHours colHeaders);
    pos (timeConstraintDays colHeaders) ].

Definition positiveColumns (colHeaders : ColHeaders) : list Z :=
  [ pos (taskSessionTimeout colHeaders); pos (eventCounter colHeaders);
    pos (ruleCounter colHeaders) ].

(** The values [cast] can return for a cell [value]. *)
Definition castValue (value : string) (v : Js.prim) : Prop :=
  v = Js.PStr value \/ v = Js.PStr "" \/ v = Js.PBool true
  \/ v = Js.PBool false \/ v = Js.parseIntStr value.



End ImportTask.

(** ** Task export ([gettask.js]) *)

Module GetTask.
Import Proc.
Local Open Scope proc_scope.

(** *** [cleanupTaskTree] *)

(** The [for (const prop in element)] loop over the properties of an
    object; [cleanup] is the recursive call.  [None] is a TypeError. *)
Definition forIn (cleanup : Js.value -> option Js.value)
  : list (string * Js.value) -> option (list (string * Js.value)) :=
  fix loop (props : list (string * Js.value)) :=
    match props with
    | [] => Some []
    | (prop, v) :: more =>
        if negb (String.eqb prop "text") && negb (String.eqb prop "children")
        then loop more
        else if Js.typeofObject v then
          match cleanup v with
          | Some v' => option_map (cons (prop, v')) (loop more)
          | None => None
          end
        else option_map (cons (prop, v)) (loop more)
    end.

(** The callback of [taskTree.forEach].  The properties [for ... in]
    finds on an array are its indices, which are all deleted and leave
    holes that read as undefined; on a string they are the positions of
    its characters, which cannot be deleted in a module (strict mode);
    other primitives have none. *)
Definition cleanupElement (cleanup : Js.value -> option Js.value)
           (element : Js.value) : option Js.value :=
  match element with
  | Js.VObj props => option_map Js.VObj (forIn cleanup props)
  | Js.VArr items =>
      Some (Js.VArr (map (fun _ => Js.VPrim Js.PUndefined) items))
  | Js.VPrim (Js.PStr s) => if String.eqb s "" then Some element else None
  | Js.VPrim _ => Some element
  end.

Definition forEach (callback : Js.value -> option Js.value)
  : list Js.value -> option (list Js.value) :=
  fix loop (elems : list Js.value) :=
    match elems with
    | [] => Some []
    | element :: rest =>
        match callback element with
        | Some element' => option_map (cons element') (loop rest)
        | None => None
        end
    end.

(** [cleanupTaskTree(taskTree)] changes the tree in place; the function
    gives the tree after the call.  Only an array has [forEach]: on null
    or on a plain object the call is a TypeError ([None]). *)
Fixpoint cleanupTaskTree (taskTree : Js.value) : option Js.value :=
  match taskTree with
  | Js.VArr elems =>
      option_map Js.VArr (forEach (cleanupElement cleanupTaskTree) elems)
  | _ => None
  end.

(** [P] holds of every element of a list. *)
Definition all {A : Type} (P : A -> Prop) : list A -> Prop :=
  fix all (l : list A) : Prop :=
    match l with
    | [] => True
    | x :: r => P x /\ all r
    end.

(** Every object of [v], at every depth, has no property other than
    'text' and 'children'. *)
Fixpoint onlyTextAndChildren (v : Js.value) : Prop :=
  match v with
  | Js.VPrim _ => True
  | Js.VArr elems => all onlyTextAndChildren elems
  | Js.VObj props =>
      all (fun kv => (fst kv = "text" \/ fst kv = "children")
                     /\ onlyTextAndChildren (snd kv)) props
  end.

(** What a task tree holds under 'text' and 'children': a primitive
    other than null, or an array that is again a task tree. *)
Definition propShape (shape : Js.value -> Prop) (kv : string * Js.value)
  : Prop :=
  fst kv = "text" \/ fst kv = "children" ->
  match snd kv with
  | Js.VPrim p => p <> Js.PNull
  | Js.VArr _ => shape (snd kv)
  | Js.VObj _ => False
  end.

(** A task tree as [parseTree] builds it: an array of node objects; the
    properties of a node other than 'text' and 'children' are
    arbitrary. *)
Fixpoint taskTreeShape (v : Js.value) : Prop :=
  match v with
  | Js.VArr elems =>
      all (fun element =>
             match element with
             | Js.VObj props => all (propShape taskTreeShape) props
             | _ => False
             end) elems
  | _ => False
  end.

(** The texts of the nodes of a task tree in the order of the tree: what
    each node holds under 'text', a node before the nodes under its
    'children'. *)
Fixpoint nodeTexts (v : Js.value) : list Js.prim :=
  match v with
  | Js.VArr elems =>
      flat_map
        (fun element =>
           match element with
           | Js.VObj props =>
               flat_map
                 (fun kv =>
                    if String.eqb (fst kv) "text" then
                      match snd kv with
                      | Js.VPrim p => [p]
                      | _ => []
                      end
                    else if String.eqb (fst kv) "children" then nodeTexts (snd kv)
                    else [])
                 props
           | _ => []
           end)
        elems
  | _ => []
  end.

(** *** The header row of the task table ([parseTable], lines 536-600) *)

(** [options.tableDetails]: [true], the empty string, an array of block
    names, or something else (not given). *)
Inductive TableDetails : Type :=
| DetailsTrue
| DetailsEmpty
| DetailsList (blocks : list string)
| DetailsOther.

Record ColumnBlockShow : Type := {
  common : bool;
  lastexecution : bool;
  tag : bool;
  customproperty : bool;
  schematrigger : bool;
  compositetrigger : bool
}.

Definition showBlock (tableDetails : TableDetails) (block : string) : bool :=
  match tableDetails with
  | DetailsTrue => true
  | DetailsEmpty => true
  | DetailsList blocks => existsb (fun item => String.eqb item block) blocks
  | DetailsOther => false
  end.

Definition columnBlockShow (tableDetails : TableDetails) : ColumnBlockShow :=
  {| common := showBlock tableDetails "common";
     lastexecution := showBlock tableDetails "lastexecution";
     tag := showBlock tableDetails "tag";
     customproperty := showBlock tableDetails "customproperty";
     schematrigger := showBlock tableDetails "schematrigger";
     compositetrigger := showBlock tableDetails "compositetrigger" |}.

Definition headerRow (show : ColumnBlockShow) : list string :=
  ["Task counter"; "Task type"]
  ++ (if common show then
        ["Task name"; "Task id"; "Task enabled"; "Task timeout";
         "Task retries"; "App id"; "Partial reload"; "Manually triggered";
         "Ext program path"; "Ext program parameters"]
      else [])
  ++ (if lastexecution show then
        ["Task status"; "Task started"; "Task ended"; "Task duration";
         "Task executedon node"]
      else [])
  ++ (if tag show then ["Tags"] else [])
  ++ (if customproperty show then ["Custom properties"] else [])
  ++ (if schematrigger show || compositetrigger show then
        ["Event counter"; "Event type"; "Event name"; "Event enabled";
         "Event created date"; "Event modified date"; "Event modified by"]
      else [])
  ++ (if schematrigger show then
        ["Schema increment option"; "Schema increment description";
         "Daylight savings time"; "Schema start"; "Schema expiration";
         "Schema filter description"; "Schema time zone"]
      else [])
  ++ (if compositetrigger show then
        ["Time contstraint seconds"; "Time contstraint minutes";
         "Time contstraint hours"; "Time contstraint days";
         "Rule counter"; "Rule state"; "Rule task name"; "Rule task id"]
      else []).

(** *** The output of the task tree ([parseTree], lines 840-893) *)

Record Options : Type := {
  outputDest : string;
  outputFileFormat : string;
  outputFileName : string;
  outputFileOverwrite : bool
}.

Record World : Type := {
  verifyFileSystemExists : string -> outcome bool;
  yesno : outcome bool;
  writeFile : string -> Js.value -> outcome unit
}.

(** What a run leaves behind: the entries that [logger.error] writes
    ([SubTreeFailed] is the entry of lines 785 and 831, which names the
    task whose sub tree is missing), the tree shown on screen, the
    question put to the user and the call of [Fs.writeFile].  The other
    entries of the log are not recorded. *)
Inductive Event : Type :=
| LogError (message : string)
| SubTreeFailed
| ShowTree (taskTree : Js.value)
| Asked
| WriteFile (fileName : string) (tree : Js.value).

(** Line 861. *)
Definition formatNotSupported (options : Options) : string :=
  String.append "Output file format "
    (String.append (Js.quoted (outputFileFormat options))
                   " not supported for task trees. Exiting.").

Section Tree.
Variable world : World.

(** Lines 871-888: an existing file is replaced only with consent. *)
Definition confirmOverwrite (options : Options) : traced Event unit :=
  fileExists <~ call (verifyFileSystemExists world (outputFileName options)) ;;
  if negb fileExists then ret tt
  else if negb (outputFileOverwrite options) then
    ok <~ invoke Asked (yesno world) ;;
    if negb ok then exit 1 else ret tt
  else ret tt.

(** [parseTree].  The construction of [taskTree] (lines 678-838) calls
    into the task model ([class_alltasks.js]); it is
    represented by its result [built], which is [None] when a sub tree
    cannot be obtained and the function returns false before it looks
    at the destination (lines 784-787 and 830-833).  The event
    [WriteFile] carries the tree that [JSON.stringify] serialises. *)
Definition parseTree (options : Options) (built : option (list Js.value))
  : traced Event bool :=
  match built with
  | None => emit SubTreeFailed ;;; ret false
  | Some taskTree =>
      if String.eqb (outputDest options) "screen" then
        emit (ShowTree (Js.VArr taskTree)) ;;; ret true
      else if String.eqb (outputDest options) "file" then
        buffer <~
          (if String.eqb (outputFileFormat options) "json" then
             match cleanupTaskTree (Js.VArr taskTree) with
             | Some cleaned => ret cleaned
             | None => throw "TypeError"
             end
           else
             emit (LogError (formatNotSupported options)) ;;;
             exit 1) ;;
        confirmOverwrite options ;;;
        invoke (WriteFile (outputFileName options) buffer)
               (writeFile world (outputFileName options) buffer) ;;;
        ret true
      else ret false
  end.

End Tree.

End GetTask.

(** ** The task table ([gettask.js], [compareTable] and [parseTable]) *)

Module TaskTable.
Import Proc GetTask.
Local Open Scope proc_scope.

(** A task as a trigger or a rule refers to it: [name] and [id]. *)
Record TaskRef : Type := { refName : Js.prim; refId : Js.prim }.

(** A task of [qlikSenseTasks.taskNetwork.tasks]; [schemaPath] is
    [task.completeTaskObject.schemaPath], [taskTags] holds the names of
    the tags, and [taskCustomProperties] the name of the definition and
    the value of each custom property. *)
Record Task : Type := {
  schemaPath : Js.prim;
  taskName : Js.prim;
  taskId : Js.prim;
  taskEnabled : Js.prim;
  taskSessionTimeout : Js.prim;
  taskMaxRetries : Js.prim;
  appId : Js.prim;
  isPartialReload : Js.prim;
  isManuallyTriggered : Js.prim;
  path : Js.prim;
  parameters : Js.prim;
  taskLastStatus : Js.prim;
  taskLastExecutionStartTimestamp : Js.prim;
  taskLastExecutionStopTimestamp : Js.prim;
  taskLastExecutionDuration : Js.prim;
  taskLastExecutionExecutingNodeName : Js.prim;
  taskTags : list string;
  taskCustomProperties : list (string * string)
}.

(** The [schemaEvent] of an entry of [schemaEventList], as the
    repository service delivers it; [schemaFilterDescription0] is the
    first entry of its [schemaFilterDescription]. *)
Module SchemaEvent.
Record t : Type := {
  reloadTask : option TaskRef;
  externalProgramTask : option TaskRef;
  eventType : Js.prim;
  name : Js.prim;
  enabled : Js.prim;
  createdDate : Js.prim;
  modifiedDate : Js.prim;
  modifiedByUserName : Js.prim;
  incrementOption : Js.prim;
  incrementDescription : Js.prim;
  daylightSavingTime : Js.prim;
  startDate : Js.prim;
  expirationDate : Js.prim;
  schemaFilterDescription0 : Js.prim;
  timeZone : Js.prim
}.
End SchemaEvent.

(** A rule of a composite event; it refers to a reload task, to an
    external program task, or to neither. *)
Module CompositeRule.
Record t : Type := {
  ruleState : Js.prim;
  reloadTask : option TaskRef;
  externalProgramTask : option TaskRef
}.
End CompositeRule.

(** The [compositeEvent] of an entry of [compositeEventList]; [seconds]
    to [days] are the fields of its [timeConstraint]. *)
Module CompositeEvent.
Record t : Type := {
  reloadTask : option TaskRef;
  externalProgramTask : option TaskRef;
  eventType : Js.prim;
  name : Js.prim;
  enabled : Js.prim;
  createdDate : Js.prim;
  modifiedDate : Js.prim;
  modifiedByUserName : Js.prim;
  seconds : Js.prim;
  minutes : Js.prim;
  hours : Js.prim;
  days : Js.prim;
  compositeRules : list CompositeRule.t
}.
End CompositeEvent.

(** [options.taskType] is undefined or a list of task types. *)
Record Options : Type := {
  tableDetails : TableDetails;
  taskType : option (list string);
  outputDest : string;
  outputFileFormat : string;
  outputFileName : string;
  outputFileOverwrite : bool
}.

(** *** [compareTable] *)

(** The string that [compareTable] builds of a task. *)
Definition sortKey (a : Task) : string :=
  String.append (Js.toString (schemaPath a))
                (String.append "|" (Js.toString (taskName a))).

Definition compareTable (a b : Task) : Z :=
  if Js.ltStr (sortKey a) (sortKey b) then -1
  else if Js.ltStr (sortKey b) (sortKey a) then 1
  else 0.

(** *** The rows of the table ([parseTable], lines 220-533) *)

(** [Array(n).fill('')] *)
Definition blank (n : nat) : list Js.prim := repeat (Js.PStr "") n.

(** [options.taskType?.find((item) => item === taskType)], as a
    condition. *)
Definition wanted (options : Options) (type : string) : bool :=
  match taskType options with
  | Some types => existsb (fun item => String.eqb item type) types
  | None => false
  end.

(** The condition of line 221. *)
Definition selected (options : Options) (task : Task) : bool :=
  (wanted options "reload"
   && Js.strictEq (schemaPath task) (Js.PStr "ReloadTask"))
  || (wanted options "ext-program"
      && Js.strictEq (schemaPath task) (Js.PStr "ExternalProgramTask")).

(** Lines 229-245: the status with its icon. *)
Definition taskStatus (task : Task) : string :=
  let status := taskLastStatus task in
  if Js.truthy status then
    if Js.strictEq status (Js.PStr "FinishedSuccess")
    then String.append "✅ " (Js.toString status)
    else if Js.strictEq status (Js.PStr "FinishedFail")
    then String.append "❌ " (Js.toString status)
    else if Js.strictEq status (Js.PStr "Skipped")
    then String.append "🚫 " (Js.toString status)
    else if Js.strictEq status (Js.PStr "Aborted")
    then String.append "🛑 " (Js.toString status)
    else if Js.strictEq status (Js.PStr "Never started")
    then String.append "💤 " (Js.toString status)
    else String.append "❔ " (Js.toString status)
  else "".

(** [v ? v : ''] *)
Definition orEmpty (v : Js.prim) : Js.prim :=
  if Js.truthy v then v else Js.PStr "".

(** [options.tableDetails === true || options.tableDetails === ''] *)
Definition completeDetails (options : Options) : bool :=
  match tableDetails options with
  | DetailsTrue | DetailsEmpty => true
  | _ => false
  end.

(** Lines 247-311: the row of a task. *)
Definition taskRow (options : Options) (show : ColumnBlockShow)
           (taskCount : Z) (task : Task) : list Js.prim :=
  (if Js.strictEq (schemaPath task) (Js.PStr "ReloadTask")
   then [Js.PNum taskCount; Js.PStr "Reload"]
   else if Js.strictEq (schemaPath task) (Js.PStr "ExternalProgramTask")
   then [Js.PNum taskCount; Js.PStr "External program"]
   else [])
  ++ (if common show then
        [ taskName task; taskId task; taskEnabled task;
          taskSessionTimeout task; taskMaxRetries task;
          orEmpty (appId task); orEmpty (isPartialReload task);
          orEmpty (isManuallyTriggered task); orEmpty (path task);
          orEmpty (parameters task) ]
      else [])
  ++ (if lastexecution show then
        [ Js.PStr (taskStatus task);
          taskLastExecutionStartTimestamp task;
          taskLastExecutionStopTimestamp task;
          taskLastExecutionDuration task;
          taskLastExecutionExecutingNodeName task ]
      else [])
  ++ (if tag show then [Js.PStr (String.concat " / " (taskTags task))] else [])
  ++ (if customproperty show then
        [Js.PStr (String.concat " / "
                    (map (fun item => String.append (fst item)
                                        (String.append "=" (snd item)))
                         (taskCustomProperties task)))]
      else [])
  ++ (if completeDetails options || schematrigger show || compositetrigger show
      then blank 7 else [])
  ++ (if schematrigger show then blank 7 else [])
  ++ (if compositetrigger show then blank 8 else []).

(** [item.schemaEvent?.reloadTask?.id] *)
Definition optId (task : option TaskRef) : Js.prim :=
  match task with
  | Some ref => refId ref
  | None => Js.PUndefined
  end.

(** Lines 317-336 *)
Definition schemaEventsForThisTask (schemaEventList : list SchemaEvent.t)
           (task : Task) : list SchemaEvent.t :=
  filter (fun item =>
            if Js.strictEq (optId (SchemaEvent.reloadTask item)) (taskId task)
            then true
            else if Js.strictEq (optId (SchemaEvent.externalProgramTask item))
                                (taskId task)
            then true
            else false)
         schemaEventList.

Definition compositeEventsForThisTask
           (compositeEventList : list CompositeEvent.t) (task : Task)
  : list CompositeEvent.t :=
  filter (fun item =>
            if Js.strictEq (optId (CompositeEvent.reloadTask item)) (taskId task)
            then true
            else if Js.strictEq (optId (CompositeEvent.externalProgramTask item))
                                (taskId task)
            then true
            else false)
         compositeEventList.

(** The cells below the columns of the task, empty in the rows of its
    events and rules. *)
Definition emptyTaskColumns (show : ColumnBlockShow) : list Js.prim :=
  (if common show then blank 10 else [])
  ++ (if lastexecution show then blank 5 else [])
  ++ (if tag show then blank 1 else [])
  ++ (if customproperty show then blank 1 else []).

Section Rows.

(** The maps [mapEventType], [mapIncrementOption],
    [mapDaylightSavingTime] and [mapRuleState] of [lookups.js], read with
    [get]. *)
Variables mapEventType mapIncrementOption mapDaylightSavingTime mapRuleState
  : Js.prim -> Js.prim.

(** Lines 341-389 *)
Definition schemaEventRow (show : ColumnBlockShow) (taskCount eventCount : Z)
           (event : SchemaEvent.t) : list Js.prim :=
  [Js.PNum taskCount; Js.PStr ""]
  ++ emptyTaskColumns show
  ++ [Js.PNum eventCount; mapEventType (SchemaEvent.eventType event)]
  ++ [ SchemaEvent.name event; SchemaEvent.enabled event;
       SchemaEvent.createdDate event; SchemaEvent.modifiedDate event;
       SchemaEvent.modifiedByUserName event;
       mapIncrementOption (SchemaEvent.incrementOption event);
       SchemaEvent.incrementDescription event;
       mapDaylightSavingTime (SchemaEvent.daylightSavingTime event);
       SchemaEvent.startDate event; SchemaEvent.expirationDate event;
       SchemaEvent.schemaFilterDescription0 event; SchemaEvent.timeZone event ]
  ++ (if compositetrigger show then blank 8 else []).

(** Lines 340-392: the rows of the schema events and the event counter
    after them. *)
Fixpoint schemaEventRows (show : ColumnBlockShow) (taskCount eventCount : Z)
         (events : list SchemaEvent.t) : list (list Js.prim) * Z :=
  match events with
  | [] => ([], eventCount)
  | event :: rest =>
      let (rows, eventCount') :=
        schemaEventRows show taskCount (eventCount + 1) rest in
      (schemaEventRow show taskCount eventCount event :: rows, eventCount')
  end.

(** Lines 398-455 *)
Definition compositeEventRow (show : ColumnBlockShow) (taskCount eventCount : Z)
           (event : CompositeEvent.t) : list Js.prim :=
  [Js.PNum taskCount; Js.PStr ""]
  ++ emptyTaskColumns show
  ++ [Js.PNum eventCount; mapEventType (CompositeEvent.eventType event)]
  ++ (if compositetrigger show then
        [ CompositeEvent.name event; CompositeEvent.enabled event;
          CompositeEvent.createdDate event; CompositeEvent.modifiedDate event;
          CompositeEvent.modifiedByUserName event ]
      else [])
  ++ (if schematrigger show then blank 7 else [])
  ++ (if compositetrigger show then
        [ CompositeEvent.seconds event; CompositeEvent.minutes event;
          CompositeEvent.hours event; CompositeEvent.days event;
          Js.PStr ""; Js.PStr ""; Js.PStr ""; Js.PStr "" ]
      else []).

(** Lines 461-520.  [tmpRow] is assigned in one of two branches; for a
    rule of neither branch it still holds what was assigned before. *)
Definition ruleRow (show : ColumnBlockShow) (taskCount eventCount ruleCount : Z)
           (rule : CompositeRule.t) : list Js.prim :=
  let general :=
    [ Js.PNum eventCount; Js.PStr ""; Js.PStr ""; Js.PStr ""; Js.PStr "";
      Js.PStr ""; Js.PStr "" ] in
  let tmpRow := if schematrigger show then blank 7 else general in
  [Js.PNum taskCount; Js.PStr ""]
  ++ emptyTaskColumns show
  ++ general
  ++ (if schematrigger show then blank 7 else [])
  ++ match CompositeRule.reloadTask rule with
     | Some reloadTask =>
         [ Js.PStr ""; Js.PStr ""; Js.PStr ""; Js.PStr ""; Js.PNum ruleCount;
           mapRuleState (CompositeRule.ruleState rule);
           refName reloadTask; refId reloadTask ]
     | None =>
         match CompositeRule.externalProgramTask rule with
         | Some externalProgramTask =>
             [ Js.PStr ""; Js.PStr ""; Js.PStr ""; Js.PStr ""; Js.PNum ruleCount;
               mapRuleState (CompositeRule.ruleState rule);
               refName externalProgramTask; refId externalProgramTask ]
         | None => tmpRow
         end
     end.

(** Lines 458-523 *)
Fixpoint ruleRows (show : ColumnBlockShow) (taskCount eventCount ruleCount : Z)
         (rules : list CompositeRule.t) : list (list Js.prim) :=
  match rules with
  | [] => []
  | rule :: rest =>
      ruleRow show taskCount eventCount ruleCount rule
      :: ruleRows show taskCount eventCount (ruleCount + 1) rest
  end.

(** Lines 397-526 *)
Fixpoint compositeEventRows (show : ColumnBlockShow) (taskCount eventCount : Z)
         (events : list CompositeEvent.t) : list (list Js.prim) :=
  match events with
  | [] => []
  | event :: rest =>
      compositeEventRow show taskCount eventCount event
      :: ruleRows show taskCount eventCount 1 (CompositeEvent.compositeRules event)
      ++ compositeEventRows show taskCount (eventCount + 1) rest
  end.

(** Lines 220-533: the loop over the tasks. *)
Fixpoint taskRows (options : Options) (show : ColumnBlockShow)
         (schemaEventList : list SchemaEvent.t)
         (compositeEventList : list CompositeEvent.t)
         (tasks : list Task) (taskCount : Z) : list (list Js.prim) :=
  match tasks with
  | [] => []
  | task :: rest =>
      if selected options task then
        let (schemaRows, eventCount) :=
          if schematrigger show
          then schemaEventRows show taskCount 1
                               (schemaEventsForThisTask schemaEventList task)
          else ([], 1) in
        let compositeRows :=
          if compositetrigger show
          then compositeEventRows show taskCount eventCount
                 (compositeEventsForThisTask compositeEventList task)
          else [] in
        taskRow options show taskCount task :: schemaRows ++ compositeRows
        ++ taskRows options show schemaEventList compositeEventList rest
                    (taskCount + 1)
      else
        taskRows options show schemaEventList compositeEventList rest taskCount
  end.

(** Lines 180-607: the table with its header row, as it is shown or
    written. *)
Definition taskTable (options : Options) (tasks : list Task)
           (schemaEventList : list SchemaEvent.t)
           (compositeEventList : list CompositeEvent.t)
  : list (list Js.prim) :=
  let show := columnBlockShow (tableDetails options) in
  map Js.PStr (headerRow show)
  :: taskRows options show schemaEventList compositeEventList
              (Js.sort compareTable tasks) 1.

(** *** The output of the table ([parseTable], lines 609-657) *)

(** [item.replace('\n', ' ')]: the first line feed becomes a space. *)
Fixpoint replaceNewline (item : string) : string :=
  match item with
  | EmptyString => EmptyString
  | String c rest =>
      if Ascii.eqb c CsvParse.LF then String " " rest
      else String c (replaceNewline rest)
  end.

Definition replaceNewlineInCell (item : Js.prim) : Js.prim :=
  match item with
  | Js.PStr s => Js.PStr (replaceNewline s)
  | _ => item
  end.

(** What is handed to [Fs.writeFile]: the workbook, the CSV text or the
    JSON text of a table. *)
Inductive Buffer : Type :=
| Excel (data : list (list Js.prim))
| Csv (data : list (list Js.prim))
| Json (data : list (list Js.prim)).

Record World : Type := {
  verifyFileSystemExists : string -> outcome bool;
  yesno : outcome bool;
  writeFile : string -> option Buffer -> outcome unit
}.

Inductive Event : Type :=
| ShowTable (data : list (list Js.prim))
| Asked
| WriteFile (fileName : string) (buffer : option Buffer).

Variable world : World.

(** Lines 617-633; a format other than the three leaves [buffer]
    undefined. *)
Definition tableBuffer (options : Options) (table : list (list Js.prim))
  : option Buffer :=
  let withoutNewlines :=
    match table with
    | [] => []
    | header :: rows => map replaceNewlineInCell header :: rows
    end in
  if String.eqb (outputFileFormat options) "excel" then Some (Excel table)
  else if String.eqb (outputFileFormat options) "csv" then Some (Csv withoutNewlines)
  else if String.eqb (outputFileFormat options) "json" then Some (Json withoutNewlines)
  else None.

Definition parseTable (options : Options) (tasks : list Task)
           (schemaEventList : list SchemaEvent.t)
           (compositeEventList : list CompositeEvent.t)
  : traced Event bool :=
  let table := taskTable options tasks schemaEventList compositeEventList in
  if String.eqb (outputDest options) "screen" then
    emit (ShowTable table) ;;; ret true
  else if String.eqb (outputDest options) "file" then
    let buffer := tableBuffer options table in
    fileExists <~ call (verifyFileSystemExists world (outputFileName options)) ;;
    (if negb fileExists then ret tt
     else if negb (outputFileOverwrite options) then
       ok <~ invoke Asked (yesno world) ;;
       if negb ok then exit 1 else ret tt
     else ret tt) ;;;
    invoke (WriteFile (outputFileName options) buffer)
           (writeFile world (outputFileName options) buffer) ;;;
    ret true
  else ret false.

End Rows.

(** *** Vocabulary of the properties *)

(** The rows of a list of tasks, numbered from [taskCount]. *)
Fixpoint numbered (options : Options) (show : ColumnBlockShow) (taskCount : Z)
         (tasks : list Task) : list (list Js.prim) :=
  match tasks with
  | [] => []
  | task :: rest =>
      taskRow options show taskCount task
      :: numbered options show (taskCount + 1) rest
  end.

(** [row[1] === type], the test of the tallies of line 604. *)
Definition hasType (type : string) (row : list Js.prim) : bool :=
  Js.strictEq (Js.index row 1) (Js.PStr type).

(** A row of a task, as opposed to the rows of its events and rules. *)
Definition isTaskRow (row : list Js.prim) : bool :=
  hasType "Reload" row || hasType "External program" row.

(** A rule that refers to a reload task or to an external program
    task. *)
Definition refersToTask (rule : CompositeRule.t) : Prop :=
  CompositeRule.reloadTask rule <> None
  \/ CompositeRule.externalProgramTask rule <> None.

(** The numbers from [start] on, [n] of them. *)
Fixpoint countFrom (start : Z) (n : nat) : list Z :=
  match n with
  | O => []
  | S m => start :: countFrom (start + 1) m
  end.

End TaskTable.

(** ** Circular task chains ([vistask.js]) *)

Module VisTask.

Record Task : Type := { id : string; taskName : string }.

(** One detected circular chain, as [findCircularTaskChains] reports it. *)
Record Chain : Type := { fromTask : Task; toTask : Task }.

(** The test of the de-duplication filter ([vistask.js], line 623). *)
Definition sameChain (chain c : Chain) : bool :=
  String.eqb (id (fromTask c)) (id (fromTask chain))
  && String.eqb (id (toTask c)) (id (toTask chain)).

(** [circularTaskChains.filter((chain, index, self) =>
      self.findIndex((c) => ...) === index)] *)
Definition deduplicatedCircularTaskChain (circularTaskChains : list Chain)
  : list Chain :=
  Js.filterIndexed
    (fun chain index self => Js.findIndex (sameChain chain) self =? index)
    circularTaskChains.

(** Ordered and unordered endpoint identity of a chain. *)
Definition endpoints (c : Chain) : string * string :=
  (id (fromTask c), id (toTask c)).

Definition sameUnorderedEndpoints (c d : Chain) : Prop :=
  endpoints c = endpoints d
  \/ endpoints c = (snd (endpoints d), fst (endpoints d)).

(** Two chains over the same two tasks, in opposite directions. *)
Definition taskA : Task := {| id := "task-a"; taskName := "A" |}.
Definition taskB : Task := {| id := "task-b"; taskName := "B" |}.
Definition chainAB : Chain := {| fromTask := taskA; toTask := taskB |}.
Definition chainBA : Chain := {| fromTask := taskB; toTask := taskA |}.

(** A trigger relation that occurs more than once, as
    [findCircularTaskChains] reports it; a node of the task network
    carries an id like a task. *)
Record DuplicateEdge : Type := {
  parentNode : Task;
  downstreamNode : Task;
  ruleState : Js.prim;
  duplicateEdgeCount : Z
}.

(** The test of the second de-duplication filter ([vistask.js], lines
    645-648). *)
Definition sameEdge (edge e : DuplicateEdge) : bool :=
  String.eqb (id (parentNode e)) (id (parentNode edge))
  && String.eqb (id (downstreamNode e)) (id (downstreamNode edge))
  && Js.strictEq (ruleState e) (ruleState edge).

(** [duplicateEdges.filter((edge, index, self) =>
      self.findIndex((e) => ...) === index)] *)
Definition deduplicatedDuplicateEdges (duplicateEdges : list DuplicateEdge)
  : list DuplicateEdge :=
  Js.filterIndexed
    (fun edge index self => Js.findIndex (sameEdge edge) self =? index)
    duplicateEdges.

(** What the filter compares of an edge. *)
Definition edgeKey (e : DuplicateEdge) : string * string * Js.prim :=
  (id (parentNode e), id (downstreamNode e), ruleState e).

End VisTask.

(** ** Deleting master dimensions ([deletedim.js]) *)

Module DeleteDim.
Import Proc.
Local Open Scope proc_scope.

(** An entry of [dimObj.qDimensionList.qItems]: [item.qInfo.qId] and
    [item.qMeta.title]. *)
Record Item : Type := { qId : string; title : string }.

(** [options.masterItem] is undefined or the list of names or ids given
    on the command line; [options.dryRun] is undefined, false or true. *)
Record Options : Type := {
  host : string;
  appId : string;
  deleteAll : bool;
  masterItem : option (list string);
  idType : string;
  dryRun : option bool
}.

(** What a run leaves behind, in the order in which it happens: the
    entries of the log at the levels info, warn and error, and the calls
    of [app.destroyDimension].  Entries of the levels verbose and debug
    are not recorded. *)
Inductive Event : Type :=
| LogInfo (message : string)
| LogError (message : string)
| WarnNotFound (masterItem : string)
| WarnNoMatch
| DestroyDimension (qId : string)
| FailedDeleting (item : Item)
| Deleted (item : Item)
| DryRun (item : Item)
| ErrorClosingSession
| ErrorDestroyingSessionObject.

(** The calls to the engine.  The answer to [app.destroyDimension] may
    depend on what has happened before, so it is given the events of the
    run so far. *)
Record World : Type := {
  createSession : outcome unit;
  addTrafficLogging : outcome unit;
  openSession : outcome unit;
  engineVersion : outcome unit;
  openDoc : string -> outcome unit;
  getDimensionList : outcome (list Item);
  destroyDimension : list Event -> string -> outcome bool;
  destroySessionObject : outcome bool;
  closeSession : outcome bool
}.

(** Modelled from the spec: [catchLog] of [util/log.js], as in the task
    import: it writes the error to the log and returns. *)
Definition catchLog (context err : string) : traced Event unit :=
  emit (LogError (String.append context (String.append ": " err))).

(** Lines 93-112: the loop over [options.masterItem]. *)
Fixpoint selectLoop (options : Options) (qItems : list Item)
         (masterItems : list string) (deleteMasterItems : list Item)
  : traced Event (list Item) :=
  match masterItems with
  | [] => ret deleteMasterItems
  | masterItem :: rest =>
      if String.eqb (idType options) "name" then
        let items := filter (fun item => String.eqb (title item) masterItem) qItems in
        if 0 <? Z.of_nat (List.length items)
        then selectLoop options qItems rest (deleteMasterItems ++ items)
        else emit (WarnNotFound masterItem) ;;;
             selectLoop options qItems rest deleteMasterItems
      else if String.eqb (idType options) "id" then
        let items := filter (fun item => String.eqb (qId item) masterItem) qItems in
        if 0 <? Z.of_nat (List.length items)
        then selectLoop options qItems rest (deleteMasterItems ++ items)
        else emit (WarnNotFound masterItem) ;;;
             selectLoop options qItems rest deleteMasterItems
      else throw "Invalid --id-type value"
  end.

(** Lines 85-113: the list of the dimensions that should be deleted. *)
Definition selectItems (options : Options) (qItems : list Item)
  : traced Event (list Item) :=
  match deleteAll options, masterItem options with
  | true, _ | false, None => ret ([] ++ qItems)
  | false, Some masterItems => selectLoop options qItems masterItems []
  end.

Section Delete.
Variable world : World.

(** Lines 121-137: the loop over [deleteMasterItems].  The running count
    in the message of a deletion is a variable of the module; it is the
    number of [Deleted] events of all runs so far and is not carried
    here. *)
Fixpoint deleteLoop (options : Options) (deleteMasterItems : list Item)
  : traced Event unit :=
  match deleteMasterItems with
  | [] => ret tt
  | item :: rest =>
      (match dryRun options with
       | None | Some false =>
           res <~ invokeAt (DestroyDimension (qId item))
                           (fun tr => destroyDimension world tr (qId item)) ;;
           if negb res then emit (FailedDeleting item) else emit (Deleted item)
       | Some true => emit (DryRun item)
       end) ;;;
      deleteLoop options rest
  end.

(** Lines 85-139: the dimensions are selected and deleted. *)
Definition deleteSelected (options : Options) (qItems : list Item)
  : traced Event unit :=
  deleteMasterItems <~ selectItems options qItems ;;
  if Z.of_nat (List.length deleteMasterItems) =? 0
  then emit WarnNoMatch
  else deleteLoop options deleteMasterItems.

Definition deleteMasterDimension (options : Options) : traced Event unit :=
  tryCatch
    (emit (LogInfo "Delete master dimensions") ;;;
     tryCatch (call (createSession world))
       (fun err =>
          catchLog (String.append "Error creating session to server " (host options)) err ;;;
          exit 1) ;;;
     call (addTrafficLogging world) ;;;
     tryCatch (call (openSession world))
       (fun err =>
          catchLog (String.append "Error opening session to server " (host options)) err ;;;
          exit 1) ;;;
     tryCatch (call (engineVersion world))
       (fun err =>
          catchLog (String.append "Error getting engine version from server "
                                  (host options)) err ;;;
          exit 1) ;;;
     call (openDoc world (appId options)) ;;;
     qItems <~ call (getDimensionList world) ;;
     deleteSelected options qItems ;;;
     destroyed <~ call (destroySessionObject world) ;;
     if destroyed then
       closed <~ call (closeSession world) ;;
       if closed then ret tt else emit ErrorClosingSession
     else emit ErrorDestroyingSessionObject)
    (fun err => catchLog "Error in deleteMasterDimension" err).

End Delete.

(** *** Vocabulary of the properties *)

(** The ids for which [app.destroyDimension] was called, in the order of
    the calls. *)
Definition destroyedIds (trace : list Event) : list string :=
  flat_map (fun e => match e with DestroyDimension i => [i] | _ => [] end) trace.

(** The dimensions of the app that a list of names, or of ids, asks for:
    for each entry of the list in turn, the dimensions it matches, in the
    order of the app. *)
Definition requestedItems (byName : bool) (masterItems : list string)
           (qItems : list Item) : list Item :=
  flat_map
    (fun masterItem =>
       filter (fun item =>
                 String.eqb (if byName then title item else qId item) masterItem)
              qItems)
    masterItems.

(** The dimensions that a run is to delete: all dimensions of the app,
    or the requested ones, by name when [options.idType] is 'name'. *)
Definition selection (options : Options) (qItems : list Item) : list Item :=
  match deleteAll options, masterItem options with
  | true, _ | false, None => qItems
  | false, Some masterItems =>
      requestedItems (String.eqb (idType options) "name") masterItems qItems
  end.

End DeleteDim.

(** ** Example data *)

Module Examples.
Import Proc.

Definition newline : string := String CsvParse.LF "".

(** A task definition file with two tasks; the first task has a second
    row. *)
Definition csvText : string :=
  String.concat newline
    [ "Task counter,Task type,Task enabled,Task timeout";
      "1,Reload,1,10";
      "1,,,";
      "2,Reload,0,";
      "" ].

(** The same file after an empty first line. *)
Definition csvTextAfterEmptyLine : string := String.append newline csvText.

Definition csvHeaderRow : list Js.prim :=
  map Js.PStr ["Task counter"; "Task type"; "Task enabled"; "Task timeout"].

Definition csvColHeaders : Lookups.ColHeaders :=
  Lookups.getTaskColumnPosFromHeaderRow csvHeaderRow.

(** The rows that the import keeps of [csvText] with a limit of 1. *)
Definition csvKeptWithLimit1 : list (list Js.prim) :=
  [ csvHeaderRow;
    [Js.PNum 1; Js.PStr "Reload"; Js.PBool true; Js.PNum 10];
    [Js.PNum 1; Js.PStr ""; Js.PBool false; Js.PStr ""] ].

(** A task definition file whose task has a timeout of 0. *)
Definition csvTextTimeoutZero : string :=
  String.concat newline
    [ "Task counter,Task type,Task enabled,Task timeout";
      "1,Reload,1,0" ].

(** The header row that [parseTable] writes when all details are
    requested. *)
Definition exportedHeaderRow : list Js.prim :=
  map Js.PStr (GetTask.headerRow (GetTask.columnBlockShow GetTask.DetailsTrue)).

(** The task sheet of a workbook, with the same content. *)
Definition taskSheet : ImportTask.Sheet :=
  {| ImportTask.name := "Tasks";
     ImportTask.data :=
       [ csvHeaderRow;
         [Js.PNum 1; Js.PStr "Reload"; Js.PNum 1; Js.PNum 10];
         [Js.PNum 1];
         [Js.PNum 2; Js.PStr "Reload"; Js.PNum 0] ] |}.

Definition appSheet : ImportTask.Sheet :=
  {| ImportTask.name := "Apps";
     ImportTask.data :=
       [ map Js.PStr ["App counter"; "App name"; "QVF name"];
         [Js.PNum 1; Js.PStr "A1"; Js.PStr "a1.qvf"] ] |}.

Definition csvOptions (limit : string) : ImportTask.Options :=
  {| ImportTask.fileName := "tasks.csv";
     ImportTask.fileType := "csv";
     ImportTask.sheetName := "";
     ImportTask.limitImportCount := Js.PStr limit;
     ImportTask.importApp := false;
     ImportTask.importAppSheetName := "" |}.

Definition excelOptions (sheetName : string) (importApp : bool)
  : ImportTask.Options :=
  {| ImportTask.fileName := "tasks.xlsx";
     ImportTask.fileType := "excel";
     ImportTask.sheetName := sheetName;
     ImportTask.limitImportCount := Js.PNum 0;
     ImportTask.importApp := importApp;
     ImportTask.importAppSheetName := "Apps" |}.

(** A server and a file system on which every call succeeds; the
    workbook holds the task sheet and the app sheet. *)
Definition world : ImportTask.World :=
  {| ImportTask.getTagsFromQseow := fun _ => Return ["tag1"];
     ImportTask.getCustomPropertiesFromQseow := fun _ => Return [];
     ImportTask.verifyFileSystemExists := fun _ => Return true;
     ImportTask.readFile := fun _ => Proc.Return csvText;
     ImportTask.xlsxParse := fun _ => Return [taskSheet; appSheet];
     ImportTask.qlikSenseAppsInit := fun _ => Return tt;
     ImportTask.importAppsFromFiles := fun _ _ _ => Return [(1, "app-guid-1")];
     ImportTask.qlikSenseTasksInit := fun _ _ => Return tt;
     ImportTask.getTaskModelFromFile :=
       fun _ _ _ _ => Return (Some ["task-guid-1"; "task-guid-2"]) |}.

(** A task tree with the label node of the scheduled tasks, one task
    below it and one unscheduled task. *)
Definition taskTree : list Js.value :=
  [ Js.VObj
      [ ("text", Js.VPrim (Js.PStr "--==| Scheduled tasks |==--"));
        ("children",
         Js.VArr
           [ Js.VObj
               [ ("id", Js.VPrim (Js.PStr "task-guid-1"));
                 ("text", Js.VPrim (Js.PStr "Task 1"));
                 ("children", Js.VArr []);
                 ("isTopLevelNode", Js.VPrim (Js.PBool true));
                 ("isScheduled", Js.VPrim (Js.PBool true)) ] ]);
        ("isTreeLabel", Js.VPrim (Js.PBool true)) ];
    Js.VObj
      [ ("taskId", Js.VPrim (Js.PStr "task-guid-2"));
        ("text", Js.VPrim (Js.PStr "Task 2"));
        ("completeTaskObject", Js.VObj [("name", Js.VPrim (Js.PStr "Task 2"))]);
        ("isScheduled", Js.VPrim (Js.PBool false)) ] ].

Definition treeOptions (format : string) : GetTask.Options :=
  {| GetTask.outputDest := "file";
     GetTask.outputFileFormat := format;
     GetTask.outputFileName := "tree.out";
     GetTask.outputFileOverwrite := false |}.

(** A file system without the output file. *)
Definition treeWorld : GetTask.World :=
  {| GetTask.verifyFileSystemExists := fun _ => Return false;
     GetTask.yesno := Return true;
     GetTask.writeFile := fun _ _ => Return tt |}.

End Examples.

(** ** More example data *)

Module MoreExamples.
Import Proc.

(** The positions of the columns in the header row that [parseTable]
    writes when all details are requested. *)
Definition exportedColHeaders : Lookups.ColHeaders :=
  Lookups.getTaskColumnPosFromHeaderRow Examples.exportedHeaderRow.






(** A workbook that holds the task sheet and no app sheet. *)
Definition worldWithoutAppSheet : ImportTask.World :=
  {| ImportTask.getTagsFromQseow := fun _ => Return ["tag1"];
     ImportTask.getCustomPropertiesFromQseow := fun _ => Return [];
     ImportTask.verifyFileSystemExists := fun _ => Return true;
     ImportTask.readFile := fun _ => Proc.Return Examples.csvText;
     ImportTask.xlsxParse := fun _ => Return [Examples.taskSheet];
     ImportTask.qlikSenseAppsInit := fun _ => Return tt;
     ImportTask.importAppsFromFiles := fun _ _ _ => Return [(1, "app-guid-1")];
     ImportTask.qlikSenseTasksInit := fun _ _ => Return tt;
     ImportTask.getTaskModelFromFile :=
       fun _ _ _ _ => Return (Some ["task-guid-1"; "task-guid-2"]) |}.


(** A request to import the apps and the tasks of a CSV file. *)
Definition csvOptionsWithApps : ImportTask.Options :=
  {| ImportTask.fileName := "tasks.csv";
     ImportTask.fileType := "csv";
     ImportTask.sheetName := "";
     ImportTask.limitImportCount := Js.PNum 0;
     ImportTask.importApp := true;
     ImportTask.importAppSheetName := "Apps" |}.

(** Three detected duplicate triggers, the first and the third of the
    same kind. *)
Definition duplicateEdges : list VisTask.DuplicateEdge :=
  [ {| VisTask.parentNode := VisTask.taskA;
       VisTask.downstreamNode := VisTask.taskB;
       VisTask.ruleState := Js.PNum 1;
       VisTask.duplicateEdgeCount := 2 |};
    {| VisTask.parentNode := VisTask.taskA;
       VisTask.downstreamNode := VisTask.taskB;
       VisTask.ruleState := Js.PNum 2;
       VisTask.duplicateEdgeCount := 2 |};
    {| VisTask.parentNode := VisTask.taskA;
       VisTask.downstreamNode := VisTask.taskB;
       VisTask.ruleState := Js.PNum 1;
       VisTask.duplicateEdgeCount := 2 |} ].

(** A file system with the output file, and a user who agrees to
    replace it. *)
Definition treeWorldWithFile : GetTask.World :=
  {| GetTask.verifyFileSystemExists := fun _ => Return true;
     GetTask.yesno := Return true;
     GetTask.writeFile := fun _ _ => Return tt |}.

(** An app with three master dimensions, two of them of the same
    name. *)
Definition dimensions : list DeleteDim.Item :=
  [ {| DeleteDim.qId := "dim-1"; DeleteDim.title := "Country" |};
    {| DeleteDim.qId := "dim-2"; DeleteDim.title := "Year" |};
    {| DeleteDim.qId := "dim-3"; DeleteDim.title := "Country" |} ].

(** An engine that answers every call; a dimension is destroyed with
    success once. *)
Definition engine : DeleteDim.World :=
  {| DeleteDim.createSession := Return tt;
     DeleteDim.addTrafficLogging := Return tt;
     DeleteDim.openSession := Return tt;
     DeleteDim.engineVersion := Return tt;
     DeleteDim.openDoc := fun _ => Return tt;
     DeleteDim.getDimensionList := Return dimensions;
     DeleteDim.destroyDimension :=
       fun tr qId =>
         Return (Nat.eqb (List.length
                            (filter (String.eqb qId) (DeleteDim.destroyedIds tr)))
                         1);
     DeleteDim.destroySessionObject := Return true;
     DeleteDim.closeSession := Return true |}.

(** The request to delete the dimensions of the given names, or ids. *)
Definition deleteOptions (idType : string) (masterItems : list string)
           (dryRun : option bool) : DeleteDim.Options :=
  {| DeleteDim.host := "sense.example.com";
     DeleteDim.appId := "app-guid-1";
     DeleteDim.deleteAll := false;
     DeleteDim.masterItem := Some masterItems;
     DeleteDim.idType := idType;
     DeleteDim.dryRun := dryRun |}.

(** A reload task and an external program task; the reload task has a
    schema event and a composite event whose rule waits for the external
    program task. *)
Definition reloadTask1 : TaskTable.Task :=
  {| TaskTable.schemaPath := Js.PStr "ReloadTask";
     TaskTable.taskName := Js.PStr "Load sales";
     TaskTable.taskId := Js.PStr "task-guid-1";
     TaskTable.taskEnabled := Js.PBool true;
     TaskTable.taskSessionTimeout := Js.PNum 1440;
     TaskTable.taskMaxRetries := Js.PNum 0;
     TaskTable.appId := Js.PStr "app-guid-1";
     TaskTable.isPartialReload := Js.PBool false;
     TaskTable.isManuallyTriggered := Js.PBool false;
     TaskTable.path := Js.PUndefined;
     TaskTable.parameters := Js.PUndefined;
     TaskTable.taskLastStatus := Js.PStr "FinishedSuccess";
     TaskTable.taskLastExecutionStartTimestamp := Js.PStr "2024-01-01 06:00";
     TaskTable.taskLastExecutionStopTimestamp := Js.PStr "2024-01-01 06:05";
     TaskTable.taskLastExecutionDuration := Js.PStr "00:05:00";
     TaskTable.taskLastExecutionExecutingNodeName := Js.PStr "node1";
     TaskTable.taskTags := ["sales"; "daily"];
     TaskTable.taskCustomProperties := [("Department", "Sales")] |}.

Definition externalTask1 : TaskTable.Task :=
  {| TaskTable.schemaPath := Js.PStr "ExternalProgramTask";
     TaskTable.taskName := Js.PStr "Fetch files";
     TaskTable.taskId := Js.PStr "task-guid-2";
     TaskTable.taskEnabled := Js.PBool true;
     TaskTable.taskSessionTimeout := Js.PNum 60;
     TaskTable.taskMaxRetries := Js.PNum 1;
     TaskTable.appId := Js.PUndefined;
     TaskTable.isPartialReload := Js.PUndefined;
     TaskTable.isManuallyTriggered := Js.PBool false;
     TaskTable.path := Js.PStr "fetch.cmd";
     TaskTable.parameters := Js.PStr "";
     TaskTable.taskLastStatus := Js.PUndefined;
     TaskTable.taskLastExecutionStartTimestamp := Js.PStr "";
     TaskTable.taskLastExecutionStopTimestamp := Js.PStr "";
     TaskTable.taskLastExecutionDuration := Js.PStr "";
     TaskTable.taskLastExecutionExecutingNodeName := Js.PStr "";
     TaskTable.taskTags := [];
     TaskTable.taskCustomProperties := [] |}.

Definition exportedTasks : list TaskTable.Task := [reloadTask1; externalTask1].

Definition refTo (task : TaskTable.Task) : TaskTable.TaskRef :=
  {| TaskTable.refName := TaskTable.taskName task;
     TaskTable.refId := TaskTable.taskId task |}.

Definition schemaEvents : list TaskTable.SchemaEvent.t :=
  [ {| TaskTable.SchemaEvent.reloadTask := Some (refTo reloadTask1);
       TaskTable.SchemaEvent.externalProgramTask := None;
       TaskTable.SchemaEvent.eventType := Js.PNum 0;
       TaskTable.SchemaEvent.name := Js.PStr "Daily";
       TaskTable.SchemaEvent.enabled := Js.PBool true;
       TaskTable.SchemaEvent.createdDate := Js.PStr "2024-01-01";
       TaskTable.SchemaEvent.modifiedDate := Js.PStr "2024-01-01";
       TaskTable.SchemaEvent.modifiedByUserName := Js.PStr "LAB\admin";
       TaskTable.SchemaEvent.incrementOption := Js.PNum 2;
       TaskTable.SchemaEvent.incrementDescription := Js.PStr "0 0 1 0";
       TaskTable.SchemaEvent.daylightSavingTime := Js.PNum 0;
       TaskTable.SchemaEvent.startDate := Js.PStr "2024-01-01T06:00:00";
       TaskTable.SchemaEvent.expirationDate := Js.PStr "9999-01-01T00:00:00";
       TaskTable.SchemaEvent.schemaFilterDescription0 := Js.PStr "* * - * * * * *";
       TaskTable.SchemaEvent.timeZone := Js.PStr "Europe/Stockholm" |} ].

Definition compositeEvents : list TaskTable.CompositeEvent.t :=
  [ {| TaskTable.CompositeEvent.reloadTask := Some (refTo reloadTask1);
       TaskTable.CompositeEvent.externalProgramTask := None;
       TaskTable.CompositeEvent.eventType := Js.PNum 1;
       TaskTable.CompositeEvent.name := Js.PStr "After fetch";
       TaskTable.CompositeEvent.enabled := Js.PBool true;
       TaskTable.CompositeEvent.createdDate := Js.PStr "2024-01-01";
       TaskTable.CompositeEvent.modifiedDate := Js.PStr "2024-01-01";
       TaskTable.CompositeEvent.modifiedByUserName := Js.PStr "LAB\admin";
       TaskTable.CompositeEvent.seconds := Js.PNum 0;
       TaskTable.CompositeEvent.minutes := Js.PNum 360;
       TaskTable.CompositeEvent.hours := Js.PNum 0;
       TaskTable.CompositeEvent.days := Js.PNum 0;
       TaskTable.CompositeEvent.compositeRules :=
         [ {| TaskTable.CompositeRule.ruleState := Js.PNum 1;
              TaskTable.CompositeRule.reloadTask := None;
              TaskTable.CompositeRule.externalProgramTask :=
                Some (refTo externalTask1) |} ] |} ].

(** The request for the complete table of both task types as a CSV
    file. *)
Definition tableOptions : TaskTable.Options :=
  {| TaskTable.tableDetails := GetTask.DetailsTrue;
     TaskTable.taskType := Some ["reload"; "ext-program"];
     TaskTable.outputDest := "file";
     TaskTable.outputFileFormat := "csv";
     TaskTable.outputFileName := "tasks.csv";
     TaskTable.outputFileOverwrite := false |}.

(** The maps of [lookups.js] are stood in for by a map that gives the
    key itself. *)
Definition lookupMap (key : Js.prim) : Js.prim := key.

(** A file system with the output file, and a user who agrees to
    replace it. *)
Definition tableWorldWithFile : TaskTable.World :=
  {| TaskTable.verifyFileSystemExists := fun _ => Return true;
     TaskTable.yesno := Return true;
     TaskTable.writeFile := fun _ _ => Return tt |}.

End MoreExamples.

(* ===================================================================== *)
(** * Part II: properties                                                 *)
(* ===================================================================== *)

(** ** Type coercion of the cells of a CSV file *)

Section Coercion.
Import Proc Lookups ImportTask.

Variable isNumeric : string -> bool.

Lemma castBoolean_result (value : string) :
  castBoolean value
  = Some (if String.eqb value "1" then Return (Js.PBool true)
          else if String.eqb value "0" || String.eqb (Js.trim value) ""
               then Return (Js.PBool false)
          else Exit 1).
Proof.
  unfold castBoolean.
  destruct (String.eqb value "1") eqn:E1;
    destruct (String.eqb value "0") eqn:E0;
    destruct (String.eqb (Js.trim value) "") eqn:Et; reflexivity.
Qed.

Lemma castPositive_result (value : string) :
  castPositive isNumeric value
  = Some (if String.eqb (Js.trim value) "" then Return (Js.PStr "")
          else if isNumeric value && Js.gt (Js.parseIntStr value) (Js.PNum 0)
               then Return (Js.parseIntStr value)
          else Exit 1).
Proof.
  unfold castPositive.
  destruct (String.eqb_spec (Js.trim value) "") as [E|E].
  - rewrite E. cbn. rewrite orb_true_r. reflexivity.
  - assert (L : (0 <? Z.of_nat (String.length (Js.trim value))) = true).
    { apply Z.ltb_lt. destruct (Js.trim value); [congruence|cbn; lia]. }
    rewrite L.
    destruct (isNumeric value), (Js.gt (Js.parseIntStr value) (Js.PNum 0));
      reflexivity.
Qed.

(** The chain of [if]s when the column of the cell is a boolean column
    and no integer column. *)
Lemma runBlocks_boolean (colHeaders : ColHeaders) (column : Z) (value : string) :
  In column (booleanColumns colHeaders) ->
  ~ In column (integerColumns colHeaders) ->
  runBlocks (castBlocks isNumeric colHeaders) column value
  = if String.eqb value "1" then Return (Js.PBool true)
    else if String.eqb value "0" || String.eqb (Js.trim value) ""
         then Return (Js.PBool false)
    else Exit 1.
Proof.
  intros Hb Hi.
  assert (Hf : forall p, In p (integerColumns colHeaders) -> (column =? p) = false).
  { intros p Hp. apply Z.eqb_neq. intros ->. contradiction. }
  unfold castBlocks. cbn [runBlocks].
  rewrite !castBoolean_result.
  rewrite (Hf (pos (taskCounter colHeaders))) by (cbn; tauto).
  rewrite (Hf (pos (taskSessionTimeout colHeaders))) by (cbn; tauto).
  rewrite (Hf (pos (taskMaxRetries colHeaders))) by (cbn; tauto).
  rewrite (Hf (pos (eventCounter colHeaders))) by (cbn; tauto).
  rewrite (Hf (pos (timeConstraintSeconds colHeaders))) by (cbn; tauto).
  rewrite (Hf (pos (timeConstraintMinutes colHeaders))) by (cbn; tauto).
  rewrite (Hf (pos (timeConstraintHours colHeaders))) by (cbn; tauto).
  rewrite (Hf (pos (timeConstraintDays colHeaders))) by (cbn; tauto).
  rewrite (Hf (pos (ruleCounter colHeaders))) by (cbn; tauto).
  destruct Hb as [<-|[<-|[<-|[<-|[]]]]]; rewrite ?Z.eqb_refl;
    repeat match goal with
           | |- context [?a =? ?b] => destruct (a =? b)
           end; reflexivity.
Qed.

(** *** Positions found by name *)

(** Two different header texts are not found at the same position. *)
Lemma column_positions_differ (headerRow : list Js.prim) (n1 n2 : string) :
  n1 <> n2 ->
  0 <= pos (Lookups.column headerRow n1) ->
  pos (Lookups.column headerRow n1) <> pos (Lookups.column headerRow n2).
Proof.
  intros Hn. unfold Lookups.column. cbn [pos].
  induction headerRow as [|cell r IH]; cbn [Js.findIndex]; [lia|].
  set (i1 := Js.findIndex (fun c => Js.strictEq c (Js.PStr n1)) r) in *.
  set (i2 := Js.findIndex (fun c => Js.strictEq c (Js.PStr n2)) r) in *.
  destruct (Js.strictEq cell (Js.PStr n1)) eqn:E1;
    destruct (Js.strictEq cell (Js.PStr n2)) eqn:E2.
  - destruct cell; try discriminate. cbn in E1, E2.
    apply String.eqb_eq in E1, E2. congruence.
  - intros _. destruct (i2 <? 0) eqn:L; [lia|]. apply Z.ltb_ge in L. lia.
  - destruct (i1 <? 0) eqn:L; [lia|]. apply Z.ltb_ge in L. lia.
  - destruct (Z.ltb_spec i1 0); [lia|]. intros _.
    destruct (Z.ltb_spec i2 0); [lia|]. specialize (IH ltac:(lia)). lia.
Qed.

(** With the modelled lookup, a boolean column that is present in the
    header row stands at the position of no integer column. *)
Lemma found_boolean_column_is_no_integer_column
      (headerRow : list Js.prim) (column : Z) :
  0 <= column ->
  In column (booleanColumns (Lookups.getTaskColumnPosFromHeaderRow headerRow)) ->
  ~ In column (integerColumns (Lookups.getTaskColumnPosFromHeaderRow headerRow)).
Proof.
  intros Hc Hb Hi.
  assert (H : forall n1 n2, n1 <> n2 ->
                            pos (Lookups.column headerRow n1) = column ->
                            pos (Lookups.column headerRow n2) = column -> False).
  { intros n1 n2 Hn H1 H2.
    apply (column_positions_differ headerRow n1 n2 Hn); lia. }
  unfold booleanColumns, integerColumns, Lookups.getTaskColumnPosFromHeaderRow in Hb, Hi.
  cbn [In taskCounter taskEnabled taskSessionTimeout taskMaxRetries
          isPartialReload isManuallyTriggered eventCounter eventEnabled
          timeConstraintSeconds timeConstraintMinutes timeConstraintHours
          timeConstraintDays ruleCounter] in Hb, Hi.
  repeat (destruct Hb as [Hb|Hb]; [|]); try contradiction;
    repeat (destruct Hi as [Hi|Hi]; [|]); try contradiction;
    (eapply H; [|exact Hb|exact Hi]; discriminate).
Qed.

(** C5: a cell of a boolean column below the header row is coerced to
    true exactly when it is the string "1", to false exactly when it is
    "0" or trims to the empty string, and any other cell ends the
    process with exit code 1. *)
Theorem boolean_cell_coercion
        (colHeaders : ColHeaders) (value : string)
        (context : CsvParse.Context.t) :
  CsvParse.Context.lines context <> 1 ->
  In (CsvParse.Context.column context) (booleanColumns colHeaders) ->
  ~ In (CsvParse.Context.column context) (integerColumns colHeaders) ->
  (cast isNumeric colHeaders value context = Return (Js.PBool true)
   <-> value = "1")
  /\ (cast isNumeric colHeaders value context = Return (Js.PBool false)
      <-> value = "0" \/ Js.trim value = "")
  /\ (value <> "1" -> value <> "0" -> Js.trim value <> "" ->
      cast isNumeric colHeaders value context = Exit 1).
Proof.
  intros Hl Hb Hi. unfold cast.
  destruct (Z.eqb_spec (CsvParse.Context.lines context) 1) as [|_]; [contradiction|].
  rewrite (runBlocks_boolean _ _ _ Hb Hi).
  destruct (String.eqb_spec value "1") as [E1|E1].
  - subst value. split; [split; reflexivity|]. split; [split|].
    + discriminate.
    + intros [H|H]; [discriminate | vm_compute in H; discriminate].
    + intros H. now elim H.
  - destruct (String.eqb_spec value "0") as [E0|E0]; cbn [orb].
    + split; [split; [discriminate | intros; contradiction]|].
      split; [split; [intros _; now left | reflexivity]|].
      intros _ H. contradiction.
    + destruct (String.eqb_spec (Js.trim value) "") as [Et|Et].
      * split; [split; [discriminate | intros; contradiction]|].
        split; [split; [intros _; now right | reflexivity]|].
        intros _ _ H. contradiction.
      * split; [split; [discriminate | intros; contradiction]|].
        split; [split; [discriminate | intros [H|H]; contradiction]|].
        reflexivity.
Qed.

(** *** Facts about [trim] and [parseInt] *)

(** Where [trimStart] stops there is no white space to drop. *)
Lemma trimStart_twice (s : string) :
  Js.trimStart (Js.trimStart s) = Js.trimStart s.
Proof.
  assert (H : forall n s, (String.length s <= n)%nat ->
                          Js.trimStart (Js.trimStart s) = Js.trimStart s).
  { induction n as [|n IH]; intros t Hn.
    - destruct t; [reflexivity|cbn in Hn; lia].
    - destruct t as [|c1 r1]; [reflexivity|]. cbn [Js.trimStart].
      destruct (Js.isWhiteSpace c1) eqn:E1; [apply IH; cbn in Hn; lia|].
      destruct r1 as [|c2 r2]; [cbn [Js.trimStart]; now rewrite E1|].
      destruct (Js.isWhiteSpace2 c1 c2) eqn:E2; [apply IH; cbn in Hn; lia|].
      destruct r2 as [|c3 r3]; [cbn [Js.trimStart]; now rewrite E1, E2|].
      destruct (Js.isWhiteSpace3 c1 c2 c3) eqn:E3; [apply IH; cbn in Hn; lia|].
      cbn [Js.trimStart]. now rewrite E1, E2, E3. }
  exact (H _ s (le_n _)).
Qed.

(** A string that does not consist of white space does not trim to the
    empty string. *)
Lemma trim_nonempty (s : string) : Js.trimStart s <> "" -> Js.trim s <> "".
Proof.
  unfold Js.trim. intros H.
  destruct (Js.trimStart s) as [|c r] eqn:E; [congruence|].
  cbn [Js.trimEnd]. rewrite <- E, trimStart_twice, E. discriminate.
Qed.

Lemma parseIntStr_cases (value : string) :
  Js.parseIntStr value = Js.PNaN \/ exists n, Js.parseIntStr value = Js.PNum n.
Proof.
  unfold Js.parseIntStr.
  destruct (Js.trimStart value) as [|c r]; [now left|].
  destruct c as [[] [] [] [] [] [] [] []];
    match goal with
    | |- context [if ?b then _ else _] => destruct b
    end; eauto.
Qed.

(** A string in which [parseInt] finds a number is not blank. *)
Lemma parseIntStr_number_not_blank (value : string) (n : Z) :
  Js.parseIntStr value = Js.PNum n -> Js.trim value <> "".
Proof.
  intros H. apply trim_nonempty. unfold Js.parseIntStr in H.
  destruct (Js.trimStart value); discriminate.
Qed.

(** The chain of [if]s at the column "Task timeout". *)
Lemma cast_task_timeout (colHeaders : ColHeaders) (value : string)
      (context : CsvParse.Context.t) :
  CsvParse.Context.lines context <> 1 ->
  CsvParse.Context.column context = pos (taskSessionTimeout colHeaders) ->
  CsvParse.Context.column context <> pos (taskCounter colHeaders) ->
  CsvParse.Context.column context <> pos (taskEnabled colHeaders) ->
  cast isNumeric colHeaders value context
  = if String.eqb (Js.trim value) "" then Return (Js.PStr "")
    else if isNumeric value && Js.gt (Js.parseIntStr value) (Js.PNum 0)
         then Return (Js.parseIntStr value)
    else Exit 1.
Proof.
  intros Hl Hc H1 H2. unfold cast, castBlocks. cbn [runBlocks].
  destruct (Z.eqb_spec (CsvParse.Context.lines context) 1); [contradiction|].
  destruct (Z.eqb_spec (CsvParse.Context.column context)
                       (pos (taskCounter colHeaders))); [contradiction|].
  destruct (Z.eqb_spec (CsvParse.Context.column context)
                       (pos (taskEnabled colHeaders))); [contradiction|].
  destruct (Z.eqb_spec (CsvParse.Context.column context)
                       (pos (taskSessionTimeout colHeaders))); [|contradiction].
  rewrite castPositive_result. reflexivity.
Qed.

(** C7, as amended: in a CSV file a cell of the column "Task timeout"
    below the header row is accepted when it is blank, and then stays
    empty, or when it is numeric with an integer value greater than 0; a
    cell holding 0 is rejected and ends the import with exit code 1.
    The rows of a sheet are not checked: the limit hands on rows of the
    sheet as they are and never ends the process. *)
Theorem task_timeout_coercion
        (colHeaders : ColHeaders) (value : string)
        (context : CsvParse.Context.t) :
  CsvParse.Context.lines context <> 1 ->
  CsvParse.Context.column context = pos (taskSessionTimeout colHeaders) ->
  CsvParse.Context.column context <> pos (taskCounter colHeaders) ->
  CsvParse.Context.column context <> pos (taskEnabled colHeaders) ->
  (value = "0" -> cast isNumeric colHeaders value context = Exit 1)
  /\ (forall v, cast isNumeric colHeaders value context = Return v ->
                (v = Js.PStr "" /\ Js.trim value = "")
                \/ (exists n, v = Js.PNum n /\ 0 < n /\ isNumeric value = true))
  /\ (Js.trim value = "" ->
      cast isNumeric colHeaders value context = Return (Js.PStr ""))
  /\ (forall n, isNumeric value = true -> Js.parseIntStr value = Js.PNum n ->
                0 < n ->
                cast isNumeric colHeaders value context = Return (Js.PNum n))
  /\ (forall getTaskColumnPosFromHeaderRow options tasksFromFile,
         match limitSheet getTaskColumnPosFromHeaderRow options tasksFromFile with
         | Return limited => incl (data limited) (data tasksFromFile)
         | Exit _ => False
         | Throw _ => True
         end).
Proof.
  intros Hl Hc H1 H2. rewrite (cast_task_timeout _ _ _ Hl Hc H1 H2).
  split; [|split; [|split; [|split]]].
  5:{ intros getTaskColumnPosFromHeaderRow options tasksFromFile.
      unfold limitSheet.
      destruct (Js.gt _ _); [|apply incl_refl].
      destruct (data tasksFromFile) as [|headerRow rows]; [exact I|].
      cbn [data]. unfold limitedTasks. intros row Hin.
      apply filter_In in Hin. tauto. }
  - intros ->. cbn. rewrite andb_false_r. reflexivity.
  - intros v. destruct (String.eqb_spec (Js.trim value) "") as [Et|Et].
    + intros Hv. inversion Hv. left. split; [reflexivity|assumption].
    + destruct (isNumeric value) eqn:En; cbn [andb]; [|discriminate].
      destruct (parseIntStr_cases value) as [Ep|[n Ep]]; rewrite Ep; cbn;
        [discriminate|].
      destruct (Z.ltb_spec 0 n) as [Hn|Hn]; [|discriminate].
      intros Hv. inversion Hv. right. exists n. repeat split; assumption.
  - intros Et. rewrite Et. reflexivity.
  - intros n En Ep Hn.
    destruct (String.eqb_spec (Js.trim value) "") as [Et|Et].
    + exfalso. exact (parseIntStr_number_not_blank _ _ Ep Et).
    + rewrite En, Ep. cbn. destruct (Z.ltb_spec 0 n); [reflexivity|lia].
Qed.

End Coercion.

(** ** Reading a CSV file: header row and import limit *)

Section CsvFile.
Import Proc Lookups ImportTask.

Variable isNumeric : string -> bool.
Variable getTaskColumnPosFromHeaderRow : list Js.prim -> ColHeaders.

Lemma bind_Return {A B} (c : outcome A) (k : A -> outcome B) (b : B) :
  Proc.bind c k = Return b -> exists a, c = Return a /\ k a = Return b.
Proof.
  destruct c; cbn; intros H; try discriminate. eauto.
Qed.

Lemma split_cons (sep : ascii) (s : string) :
  exists first rest, CsvParse.split sep s = first :: rest.
Proof.
  destruct s as [|c r]; cbn; [eauto|].
  destruct (Ascii.eqb c sep); [eauto|].
  destruct (CsvParse.split sep r); eauto.
Qed.

Lemma castFields_noCast (line col : Z) (fields : list string) :
  CsvParse.castFields CsvParse.noCast line col fields
  = Return (map Js.PStr fields).
Proof.
  revert col. induction fields as [|f r IH]; intros col; cbn; [reflexivity|].
  rewrite IH. reflexivity.
Qed.


(** Records carry the number of their line: nothing parsed from line
    [line] on has a smaller number. *)
Lemma parseLines_lines (cast : string -> CsvParse.Context.t -> outcome Js.prim)
      (input : list string) (line : Z) (expected : option nat)
      (rows : list CsvParse.Row) :
  CsvParse.parseLines cast line expected input = Return rows ->
  Forall (fun r => line <= CsvParse.Info.lines (CsvParse.info r)) rows.
Proof.
  revert line expected rows.
  induction input as [|l rest IH]; intros line expected rows; cbn [CsvParse.parseLines].
  - intros H. inversion H. constructor.
  - destruct (String.eqb l "").
    + intros H. apply IH in H. eapply Forall_impl; [|exact H]. cbn. intros; lia.
    + intros H. apply bind_Return in H. destruct H as [fields [_ H]].
      assert (G : forall e, (rows' <- CsvParse.parseLines cast (line + 1) e rest ;;
                             Return ({| CsvParse.info := {| CsvParse.Info.lines := line |};
                                        CsvParse.record := fields |} :: rows'))%proc
                            = Return rows ->
                            Forall (fun r => line <= CsvParse.Info.lines (CsvParse.info r)) rows).
      { intros e He. apply bind_Return in He. destruct He as [rows' [Hr He]].
        inversion He. constructor; [cbn; lia|].
        apply IH in Hr. eapply Forall_impl; [|exact Hr]. cbn. intros; lia. }
      destruct expected as [n|]; [|exact (G _ H)].
      destruct (Nat.eqb (List.length fields) n); [exact (G _ H)|discriminate].
Qed.

(** What the parser returns is decided by the first line: an empty one
    gives records of later lines only, another one gives the record of
    line 1 followed by records of later lines. *)
Lemma parse_first_line (cast : string -> CsvParse.Context.t -> outcome Js.prim)
      (text first : string) (rest : list string) (rows : list CsvParse.Row) :
  CsvParse.split CsvParse.LF text = first :: rest ->
  CsvParse.parse cast text = Return rows ->
  (first = "" /\ Forall (fun r => 2 <= CsvParse.Info.lines (CsvParse.info r)) rows)
  \/ (first <> "" /\
      exists fields later,
        CsvParse.castFields cast 1 0 (CsvParse.split CsvParse.comma first)
        = Return fields
        /\ rows = {| CsvParse.info := {| CsvParse.Info.lines := 1 |};
                     CsvParse.record := fields |} :: later
        /\ Forall (fun r => 2 <= CsvParse.Info.lines (CsvParse.info r)) later).
Proof.
  intros Hs. unfold CsvParse.parse. rewrite Hs. cbn [CsvParse.parseLines].
  destruct (String.eqb_spec first "") as [E|E].
  - intros H. left. split; [assumption|].
    apply parseLines_lines in H. exact H.
  - intros H. right. split; [assumption|].
    apply bind_Return in H. destruct H as [fields [Hf H]].
    apply bind_Return in H. destruct H as [later [Hl H]].
    inversion H. exists fields, later. repeat split; [assumption|].
    apply parseLines_lines in Hl. exact Hl.
Qed.

Lemma headerRecords_filter (parser : list CsvParse.Row) (records : list (list Js.prim)) :
  headerRecords parser records
  = records ++ map CsvParse.record
                   (filter (fun r => CsvParse.Info.lines (CsvParse.info r) =? 1) parser).
Proof.
  revert records. induction parser as [|r rest IH]; intros records; cbn.
  - now rewrite app_nil_r.
  - destruct (CsvParse.Info.lines (CsvParse.info r) =? 1); rewrite IH; cbn;
      [rewrite <- app_assoc|]; reflexivity.
Qed.

Lemma filter_later_lines (later : list CsvParse.Row) :
  Forall (fun r => 2 <= CsvParse.Info.lines (CsvParse.info r)) later ->
  filter (fun r => CsvParse.Info.lines (CsvParse.info r) =? 1) later = [].
Proof.
  induction 1 as [|r l Hr _ IH]; cbn; [reflexivity|].
  destruct (Z.eqb_spec (CsvParse.Info.lines (CsvParse.info r)) 1); [lia|assumption].
Qed.

(** [getHeaders] finds the fields of line 1, or nothing when line 1 is
    empty. *)
Lemma getHeaders_first_line (text first : string) (rest : list string)
      (headers : list (list Js.prim)) :
  CsvParse.split CsvParse.LF text = first :: rest ->
  getHeaders text = Return headers ->
  headers = if String.eqb first "" then []
            else [map Js.PStr (CsvParse.split CsvParse.comma first)].
Proof.
  intros Hs H. unfold getHeaders in H.
  apply bind_Return in H. destruct H as [rows [Hp H]]. inversion H as [Hh].
  rewrite headerRecords_filter. cbn [app].
  destruct (parse_first_line _ _ _ _ _ Hs Hp)
    as [[E Hl]|[E (fields & later & Hf & -> & Hl)]].
  - subst first. cbn. now rewrite (filter_later_lines _ Hl).
  - destruct (String.eqb_spec first ""); [contradiction|].
    rewrite castFields_noCast in Hf. inversion Hf.
    cbn. now rewrite (filter_later_lines _ Hl).
Qed.





(** The loop of [processCsvFile] is a filter over the records. *)
Lemma keptRecords_filter (options : Options) (colHeaders : ColHeaders)
      (parser : list CsvParse.Row) (records : list (list Js.prim)) :
  keptRecords options colHeaders parser records
  = records
    ++ map CsvParse.record
         (filter
            (fun r =>
               if CsvParse.Info.lines (CsvParse.info r) =? 1 then true
               else if Js.gt (Js.parseInt (limitImportCount options)) (Js.PNum 0)
                    then Js.le (Js.index (CsvParse.record r)
                                         (pos (taskCounter colHeaders)))
                               (Js.parseInt (limitImportCount options))
               else true)
            parser).
Proof.
  revert records. induction parser as [|r rest IH]; intros records;
    cbn [keptRecords filter].
  - now rewrite app_nil_r.
  - destruct (CsvParse.Info.lines (CsvParse.info r) =? 1).
    + rewrite IH. cbn. now rewrite <- app_assoc.
    + destruct (Js.gt (Js.parseInt (limitImportCount options)) (Js.PNum 0)).
      * destruct (Js.le _ _); rewrite IH; cbn; [now rewrite <- app_assoc|reflexivity].
      * rewrite IH. cbn. now rewrite <- app_assoc.
Qed.





End CsvFile.

(** ** The run of [importTaskFromFile] *)

Section ImportRun.
Import Proc Lookups ImportTask.

Variable isNumeric : string -> bool.
Variable getTaskColumnPosFromHeaderRow : list Js.prim -> ColHeaders.
Variable world : World.

(** A workbook without the requested task sheet: the exception is
    caught, written to the log, and the function returns undefined.
    No task is created, and [process.exit] is not called. *)
Lemma missing_sheet_run (options : Options)
      (tags : Tags) (cps : CustomProperties) (sheets : list Sheet) :
  fileType options = "excel" ->
  getTagsFromQseow world options = Return tags ->
  getCustomPropertiesFromQseow world options = Return cps ->
  verifyFileSystemExists world (fileName options) = Return true ->
  xlsxParse world (fileName options) = Return sheets ->
  findSheet (sheetName options) sheets = None ->
  run (importTaskFromFile isNumeric getTaskColumnPosFromHeaderRow world options)
  = (Return UndefinedResult,
     preamble options cps
     ++ [WorkbookRead (fileName options);
         LogError (String.append "IMPORT TASK 2: "
                     (cantFindSheet (sheetName options) (fileName options)))]).
Proof.
  intros Hft Ht Hc Hv Hx Hf.
  unfold run, importTaskFromFile, loadDefinitions, catchLog.
  unfold tryCatch, bindT, call, invoke, invokeThen, emit, ret, exit, throw.
  rewrite Ht, Hc, Hv, Hft. cbn. rewrite Hx, Hf. reflexivity.
Qed.


(** C8: when apps are to be imported, in every run that makes a call of
    the task object the calls follow each other in this order:
    [importAppsFromFiles] is called and returns the mapping from App
    counter to app id; then the task object is initialised with that
    mapping; and [getTaskModelFromFile], when it is called, is called
    next.  Before the call of [importAppsFromFiles] no call of the task
    object is made. *)
Theorem apps_imported_before_tasks
        (options : Options) (result : outcome Result) (trace : list Event)
        (e : Event) :
  importApp options = true ->
  run (importTaskFromFile isNumeric getTaskColumnPosFromHeaderRow world options)
  = (result, trace) ->
  In e trace ->
  isTaskCall e = true ->
  exists before appsFromFile tags cps importedApps later,
    importAppsFromFiles world appsFromFile tags cps = Return importedApps
    /\ trace = before
               ++ [ AppImportStarted appsFromFile;
                    AppImportDone importedApps;
                    TasksInit (Some importedApps) ] ++ later
    /\ existsb isTaskCall before = false
    /\ (forall tasksFromFile,
           In (TaskModelStarted tasksFromFile) trace ->
           exists later', later = TaskModelStarted tasksFromFile :: later').
Proof.
  intros Hia Hrun Hin He.
  unfold run, importTaskFromFile, loadDefinitions, importApps, catchLog in Hrun.
  unfold tryCatch, bindT, call, invoke, invokeThen, emit, ret, exit, throw in Hrun.
  rewrite Hia in Hrun. cbn [app] in Hrun.
  repeat match type of Hrun with
         | context [match ?x with _ => _ end] =>
             lazymatch x with
             | context [match _ with _ => _ end] => fail
             | _ => destruct x eqn:?
             end; cbn [app fst snd negb] in Hrun
         end;
    inversion Hrun; subst; clear Hrun;
    cbn [In] in Hin;
    repeat (destruct Hin as [Hin|Hin]; [subst e; try discriminate He|]);
    try contradiction;
    (first [ eexists [_; _; _; _; _; _; _], _, _, _, _, _;
             split; [eassumption|]; split; [reflexivity|]
           | eexists [_; _; _; _; _; _], _, _, _, _, _;
             split; [eassumption|]; split; [reflexivity|] ]);
    (split; [reflexivity|]);
    intros tasksFromFile Ht; cbn [In] in Ht;
    repeat (destruct Ht as [Ht|Ht]; [try discriminate Ht|]);
    try contradiction;
    inversion Ht; subst; eexists; reflexivity.
Qed.

End ImportRun.

(** ** The task tree written to a file *)

Section TaskTree.
Import Proc GetTask.

(** Induction over values, with the hypothesis available for every
    element of an array and every property value of an object. *)
Lemma value_induction (P : Js.value -> Prop) :
  (forall p, P (Js.VPrim p)) ->
  (forall elems, Forall P elems -> P (Js.VArr elems)) ->
  (forall props, Forall (fun kv => P (snd kv)) props -> P (Js.VObj props)) ->
  forall v, P v.
Proof.
  intros HP HA HO. fix IH 1. intros [p|elems|props].
  - apply HP.
  - apply HA. revert elems. fix IHl 1. intros [|x r].
    + constructor.
    + constructor; [apply IH | apply IHl].
  - apply HO. revert props. fix IHl 1. intros [|[k x] r].
    + constructor.
    + constructor; [apply IH | apply IHl].
Qed.

Lemma all_Forall {A} (P : A -> Prop) (l : list A) : all P l <-> Forall P l.
Proof.
  induction l as [|x r IH]; cbn.
  - split; constructor.
  - rewrite IH. split.
    + intros [Hx Hr]. now constructor.
    + intros H. inversion H. now split.
Qed.

Lemma forEach_all {Q : Js.value -> Prop} (f : Js.value -> option Js.value)
      (l l' : list Js.value) :
  Forall (fun x => forall x', f x = Some x' -> Q x') l ->
  forEach f l = Some l' -> all Q l'.
Proof.
  intros H. revert l'. induction H as [|x r Hx _ IH]; intros l'; cbn.
  - intros E. inversion E. exact I.
  - destruct (f x) as [x'|] eqn:Ex; [|discriminate].
    destruct (forEach f r) as [r'|]; [|discriminate].
    cbn. intros E. inversion E. cbn. split; [now apply Hx | now apply IH].
Qed.

Lemma forIn_clean (props props' : list (string * Js.value)) :
  Forall (fun kv => forall v', cleanupTaskTree (snd kv) = Some v' ->
                               onlyTextAndChildren v') props ->
  forIn cleanupTaskTree props = Some props' ->
  all (fun kv => (fst kv = "text" \/ fst kv = "children")
                 /\ onlyTextAndChildren (snd kv)) props'.
Proof.
  intros H. revert props'.
  induction H as [|[prop v] more Hv _ IH]; intros props'; cbn [forIn].
  - intros E. inversion E. exact I.
  - destruct (String.eqb_spec prop "text") as [Et|Et];
      destruct (String.eqb_spec prop "children") as [Ec|Ec]; cbn [negb andb];
      try (assert (Hk : prop = "text" \/ prop = "children") by tauto);
      [ | | | now apply IH ].
    all: destruct (Js.typeofObject v) eqn:Ety.
    all: try (destruct (cleanupTaskTree v) as [v'|] eqn:Ecl; [|discriminate]).
    all: destruct (forIn cleanupTaskTree more) as [more'|]; [|discriminate].
    all: cbn; intros E; inversion E; cbn; split; [split; [exact Hk|]|now apply IH].
    all: try (now apply Hv).
    all: destruct v as [p| |]; try discriminate; exact I.
Qed.

(** Whatever [cleanupTaskTree] returns is clean, and so is what its
    [forEach] callback returns. *)
Lemma cleanup_clean (v : Js.value) :
  (forall v', cleanupTaskTree v = Some v' -> onlyTextAndChildren v')
  /\ (forall v', cleanupElement cleanupTaskTree v = Some v' ->
                 onlyTextAndChildren v').
Proof.
  induction v as [p|elems IH|props IH] using value_induction.
  - split; [discriminate|].
    intros v'. cbn. destruct p; try (intros E; inversion E; exact I).
    destruct (String.eqb s ""); [|discriminate]. intros E. inversion E. exact I.
  - split.
    + intros v'. cbn [cleanupTaskTree].
      destruct (forEach (cleanupElement cleanupTaskTree) elems) as [l'|] eqn:E;
        [|discriminate].
      cbn. intros E'. inversion E'. cbn.
      apply (forEach_all _ _ _ (Q := onlyTextAndChildren)) in E; [assumption|].
      eapply Forall_impl; [|exact IH]. cbn. intros x [_ Hx]. exact Hx.
    + intros v'. cbn. intros E. inversion E. cbn. clear.
      induction elems as [|x r IHr]; cbn; [exact I|split; [exact I|exact IHr]].
  - split; [discriminate|].
    intros v'. cbn [cleanupElement].
    destruct (forIn cleanupTaskTree props) as [props'|] eqn:E; [|discriminate].
    cbn. intros E'. inversion E'. cbn.
    apply forIn_clean in E; [assumption|].
    eapply Forall_impl; [|exact IH]. cbn. intros kv [Hkv _]. exact Hkv.
Qed.

Lemma forEach_total (f : Js.value -> option Js.value) (l : list Js.value) :
  Forall (fun x => exists x', f x = Some x') l ->
  exists l', forEach f l = Some l'.
Proof.
  induction 1 as [|x r [x' Hx] _ [r' Hr]]; cbn; [eauto|].
  rewrite Hx, Hr. cbn. eauto.
Qed.

Lemma forIn_total (props : list (string * Js.value)) :
  Forall (fun kv => taskTreeShape (snd kv) ->
                    exists v', cleanupTaskTree (snd kv) = Some v') props ->
  all (propShape taskTreeShape) props ->
  exists props', forIn cleanupTaskTree props = Some props'.
Proof.
  induction 1 as [|[prop v] more Hv _ IH]; cbn [forIn all]; [eauto|].
  intros [Hshape Hmore]. destruct (IH Hmore) as [more' Hm].
  destruct (String.eqb_spec prop "text") as [Et|Et];
    destruct (String.eqb_spec prop "children") as [Ec|Ec]; cbn [negb andb];
    try (assert (Hk : prop = "text" \/ prop = "children") by tauto);
    [ | | | eauto ].
  all: unfold propShape in Hshape; cbn [fst snd] in Hshape, Hv;
    specialize (Hshape Hk).
  all: destruct v as [p|elems|obj]; cbn [Js.typeofObject]; [ | |contradiction].
  all: try (destruct (Hv Hshape) as [v' ->]; rewrite Hm; cbn; eauto).
  all: destruct p; try congruence; rewrite Hm; cbn; eauto.
Qed.

(** [cleanupTaskTree] succeeds on a task tree; the second part carries
    the statement to the property values of a node. *)
Lemma cleanup_total_nodes (v : Js.value) :
  (taskTreeShape v -> exists v', cleanupTaskTree v = Some v')
  /\ match v with
     | Js.VObj props =>
         Forall (fun kv => taskTreeShape (snd kv) ->
                           exists v', cleanupTaskTree (snd kv) = Some v') props
     | _ => True
     end.
Proof.
  induction v as [p|elems IH|props IH] using value_induction;
    cbn [taskTreeShape].
  - split; [contradiction|exact I].
  - split; [|exact I].
    intros Hshape. cbn [cleanupTaskTree].
    destruct (forEach_total (cleanupElement cleanupTaskTree) elems) as [l' ->];
      [|cbn; eauto].
    apply all_Forall in Hshape. revert IH Hshape.
    induction elems as [|x r IHr]; intros IH Hshape; [constructor|].
    inversion Hshape as [|? ? Hx Hr]. inversion IH as [|? ? [_ Px] Pr]. subst.
    constructor; [|now apply IHr].
    destruct x as [p|items|props]; [contradiction|contradiction|].
    cbn [cleanupElement].
    destruct (forIn_total props Px Hx) as [props' ->]. cbn. eauto.
  - split; [contradiction|].
    eapply Forall_impl; [|exact IH]. cbn. intros kv [Hkv _]. exact Hkv.
Qed.

(** C10: after [cleanupTaskTree], every node of a task tree, at every
    depth, holds no property other than 'text' and 'children'; the call
    succeeds on every task tree. *)
Theorem cleanup_leaves_text_and_children (taskTree : Js.value) :
  taskTreeShape taskTree ->
  exists cleaned,
    cleanupTaskTree taskTree = Some cleaned /\ onlyTextAndChildren cleaned.
Proof.
  intros Hshape.
  destruct (proj1 (cleanup_total_nodes taskTree) Hshape) as [cleaned Hc].
  exists cleaned. split; [assumption|].
  exact (proj1 (cleanup_clean taskTree) cleaned Hc).
Qed.

Variable world : World.

(** What [parseTree] writes to a file has been cleaned. *)
Lemma tree_written_is_clean (options : Options) (built : option (list Js.value))
      (result : outcome bool) (trace : list Event)
      (fileName : string) (tree : Js.value) :
  run (parseTree world options built) = (result, trace) ->
  In (WriteFile fileName tree) trace ->
  onlyTextAndChildren tree.
Proof.
  intros Hrun Hin.
  unfold run, parseTree, confirmOverwrite in Hrun.
  unfold bindT, call, invoke, invokeThen, emit, ret, exit, throw in Hrun.
  repeat match type of Hrun with
         | context [match ?x with _ => _ end] =>
             lazymatch x with
             | context [match _ with _ => _ end] => fail
             | _ => destruct x eqn:?
             end; cbn [app fst snd negb] in Hrun
         end;
    inversion Hrun; subst; clear Hrun;
    cbn [In] in Hin;
    repeat (destruct Hin as [Hin|Hin]; try discriminate Hin);
    try contradiction;
    inversion Hin; subst;
    match goal with
    | H : cleanupTaskTree _ = Some _ |- _ =>
        exact (proj1 (cleanup_clean _) _ H)
    end.
Qed.

(** C9, as amended: when the task tree has been built, with output
    destination 'file' the tree is written only when the file format is
    'json'; with any other file format the process ends with exit code 1
    and nothing is written. *)
Theorem tree_to_file_needs_json
        (options : Options) (taskTree : list Js.value)
        (result : outcome bool) (trace : list Event) :
  outputDest options = "file" ->
  run (parseTree world options (Some taskTree)) = (result, trace) ->
  ((exists fileName tree, In (WriteFile fileName tree) trace) ->
   outputFileFormat options = "json")
  /\ (outputFileFormat options <> "json" ->
      result = Exit 1
      /\ forall fileName tree, ~ In (WriteFile fileName tree) trace).
Proof.
  intros Hd Hrun.
  destruct (String.eqb_spec (outputFileFormat options) "json") as [Ej|Ej].
  - split; [intros _; assumption | intros H; contradiction].
  - assert (Hr : result = Exit 1 /\ trace = [LogError (formatNotSupported options)]).
    { unfold run, parseTree in Hrun. rewrite Hd in Hrun. cbn in Hrun.
      destruct (String.eqb_spec (outputFileFormat options) "json");
        [contradiction|].
      unfold bindT, emit, exit in Hrun. cbn in Hrun.
      inversion Hrun. split; reflexivity. }
    destruct Hr as [-> ->]. split.
    + intros (f & t & [H|[]]). discriminate.
    + intros _. split; [reflexivity|].
      intros f t [H|[]]. discriminate.
Qed.

End TaskTree.

(** ** Circular task chains *)

Section CircularChains.
Import VisTask.

Lemma findIndex_nonneg_or_none {A} (p : A -> bool) (l : list A) :
  Js.findIndex p l = -1 \/ 0 <= Js.findIndex p l < Z.of_nat (List.length l).
Proof.
  induction l as [|x r IH]; simpl; [now left|].
  destruct (p x); [right; lia|].
  destruct IH as [IH|IH].
  - rewrite IH. now left.
  - destruct (Js.findIndex p r <? 0) eqn:E; [lia|]. right. lia.
Qed.

(** In [pre ++ x :: suf] the first element satisfying [p] is at position
    [length pre] exactly when [p x] holds and nothing in [pre] does. *)
Lemma findIndex_app_here {A} (p : A -> bool) (pre suf : list A) (x : A) :
  p x = true ->
  (Js.findIndex p (pre ++ x :: suf) =? Z.of_nat (List.length pre))
  = negb (existsb p pre).
Proof.
  intros Hx. induction pre as [|y pre IH].
  - simpl. rewrite Hx. reflexivity.
  - cbn [app Js.findIndex existsb List.length].
    rewrite Nat2Z.inj_succ.
    destruct (p y) eqn:Hy; cbn [orb negb].
    + apply Z.eqb_neq. lia.
    + rewrite <- IH.
      destruct (findIndex_nonneg_or_none p (pre ++ x :: suf)) as [E|E].
      * rewrite E. cbn [Z.ltb Z.compare].
        destruct (Z.eqb_spec (-1) (Z.of_nat (List.length pre))); [lia|].
        apply Z.eqb_neq. lia.
      * destruct (Js.findIndex p (pre ++ x :: suf) <? 0) eqn:F; [lia|].
        destruct (Z.eqb_spec (Js.findIndex p (pre ++ x :: suf))
                             (Z.of_nat (List.length pre)));
          [apply Z.eqb_eq|apply Z.eqb_neq]; lia.
Qed.

Lemma sameChain_endpoints (chain c : Chain) :
  sameChain chain c = true <-> endpoints c = endpoints chain.
Proof.
  unfold sameChain, endpoints. rewrite andb_true_iff, !String.eqb_eq.
  split; [intros [-> ->]; reflexivity | intros H; inversion H; auto].
Qed.

Lemma existsb_sameChain (chain : Chain) (pre : list Chain) :
  existsb (sameChain chain) pre = true
  <-> In (endpoints chain) (map endpoints pre).
Proof.
  rewrite existsb_exists, in_map_iff. split.
  - intros [c [Hin Hc]]. exists c. split; [now apply sameChain_endpoints|assumption].
  - intros [c [Hc Hin]]. exists c. split; [assumption|now apply sameChain_endpoints].
Qed.

(** The filter, started after a prefix [pre] that has been examined:
    it keeps the chains whose ordered endpoints occur neither in [pre]
    nor earlier in [rest], and the kept chains cover [rest]. *)
Lemma dedup_from_spec (rest pre : list Chain) :
  let kept :=
    Js.filterFrom
      (fun chain index self => Js.findIndex (sameChain chain) self =? index)
      (pre ++ rest) (Z.of_nat (List.length pre)) rest in
  NoDup (map endpoints kept)
  /\ (forall c, In c kept ->
                In c rest /\ ~ In (endpoints c) (map endpoints pre))
  /\ (forall c, In c rest ->
                In (endpoints c) (map endpoints pre)
                \/ In (endpoints c) (map endpoints kept)).
Proof.
  revert pre. induction rest as [|x r IH]; intros pre; cbn zeta.
  - simpl. repeat split; [constructor|contradiction|contradiction|contradiction].
  - cbn [Js.filterFrom].
    rewrite findIndex_app_here
      by (apply sameChain_endpoints; reflexivity).
    specialize (IH (pre ++ [x])). cbn zeta in IH.
    rewrite <- app_assoc in IH. cbn [app] in IH.
    rewrite length_app in IH. cbn [List.length] in IH.
    replace (Z.of_nat (List.length pre + 1)) with (Z.of_nat (List.length pre) + 1) in IH by lia.
    destruct IH as (Hnd & Hin & Hcov).
    assert (Hpre : forall k, In k (map endpoints (pre ++ [x]))
                             <-> In k (map endpoints pre) \/ k = endpoints x).
    { intros k. rewrite map_app, in_app_iff. simpl. intuition. }
    destruct (existsb (sameChain x) pre) eqn:Hex; cbn [negb].
    + apply existsb_sameChain in Hex. repeat split.
      * assumption.
      * right. now apply Hin.
      * intros Hc. apply (Hin c H). apply Hpre. now left.
      * intros c [<-|Hc]; [now left|].
        destruct (Hcov c Hc) as [Hc'|Hc']; [|now right].
        apply Hpre in Hc'. destruct Hc' as [Hc'|Hc']; [now left|].
        left. now rewrite Hc'.
    + assert (Hnew : ~ In (endpoints x) (map endpoints pre)).
      { intros Hc. apply existsb_sameChain in Hc. congruence. }
      repeat split.
      * cbn [map]. constructor; [|assumption].
        intros Hc. apply in_map_iff in Hc. destruct Hc as [c [Hk Hc]].
        apply (Hin c Hc). apply Hpre. right. assumption.
      * destruct H as [<-|Hc]; [now left|]. right. now apply Hin.
      * destruct H as [<-|Hc]; [assumption|].
        intros Hk. apply (Hin c Hc). apply Hpre. now left.
      * intros c [<-|Hc]; [right; now left|].
        destruct (Hcov c Hc) as [Hc'|Hc']; [|right; now right].
        apply Hpre in Hc'. destruct Hc' as [Hc'|Hc']; [now left|].
        right. left. now rewrite Hc'.
Qed.

(** C3, as amended: the reported list holds at most one chain per
    ordered pair (fromTask.id, toTask.id); every reported chain was
    detected, and every detected chain has a reported chain with the
    same ordered endpoints. *)
Theorem dedup_circular_chains_by_ordered_endpoints
        (circularTaskChains : list Chain) :
  let reported := deduplicatedCircularTaskChain circularTaskChains in
  NoDup (map endpoints reported)
  /\ incl reported circularTaskChains
  /\ (forall c, In c circularTaskChains ->
                In (endpoints c) (map endpoints reported)).
Proof.
  cbn zeta. unfold deduplicatedCircularTaskChain, Js.filterIndexed.
  destruct (dedup_from_spec circularTaskChains []) as (Hnd & Hin & Hcov).
  cbn [app List.length Z.of_nat map] in *.
  split; [assumption|]. split.
  - intros c Hc. now apply Hin.
  - intros c Hc. destruct (Hcov c Hc) as [[]|H]. assumption.
Qed.

(** C3, as stated, fails: the chains A -> B and B -> A have the same
    unordered endpoints and are both reported. *)
Lemma circular_pair_reported_in_both_directions :
  deduplicatedCircularTaskChain [chainAB; chainBA] = [chainAB; chainBA]
  /\ sameUnorderedEndpoints chainAB chainBA.
Proof.
  split; [reflexivity | right; reflexivity].
Qed.

End CircularChains.

(** ** The properties on the example data *)

Section OnExamples.
Import Proc Lookups ImportTask.



(** C5 on a cell "1" of the column "Task enabled" of the example file. *)
Lemma boolean_cell_coercion_witness :
  let context := {| CsvParse.Context.lines := 2; CsvParse.Context.column := 2 |} in
  (cast Globals.isNumeric Examples.csvColHeaders "1" context
   = Return (Js.PBool true) <-> "1" = "1")
  /\ (cast Globals.isNumeric Examples.csvColHeaders "1" context
      = Return (Js.PBool false) <-> "1" = "0" \/ Js.trim "1" = "")
  /\ ("1" <> "1" -> "1" <> "0" -> Js.trim "1" <> "" ->
      cast Globals.isNumeric Examples.csvColHeaders "1" context = Exit 1).
Proof.
  apply (boolean_cell_coercion Globals.isNumeric Examples.csvColHeaders "1"
           {| CsvParse.Context.lines := 2; CsvParse.Context.column := 2 |}).
  - discriminate.
  - left. reflexivity.
  - vm_compute. intuition discriminate.
Defined.

(** C7, as amended, on a cell "10" of the column "Task timeout". *)
Lemma task_timeout_coercion_witness :
  let context := {| CsvParse.Context.lines := 2; CsvParse.Context.column := 3 |} in
  ("10" = "0" -> cast Globals.isNumeric Examples.csvColHeaders "10" context = Exit 1)
  /\ (forall v, cast Globals.isNumeric Examples.csvColHeaders "10" context = Return v ->
                (v = Js.PStr "" /\ Js.trim "10" = "")
                \/ (exists n, v = Js.PNum n /\ 0 < n /\ Globals.isNumeric "10" = true))
  /\ (Js.trim "10" = "" ->
      cast Globals.isNumeric Examples.csvColHeaders "10" context = Return (Js.PStr ""))
  /\ (forall n, Globals.isNumeric "10" = true -> Js.parseIntStr "10" = Js.PNum n ->
                0 < n ->
                cast Globals.isNumeric Examples.csvColHeaders "10" context
                = Return (Js.PNum n))
  /\ (forall getTaskColumnPosFromHeaderRow options tasksFromFile,
         match limitSheet getTaskColumnPosFromHeaderRow options tasksFromFile with
         | Return limited => incl (data limited) (data tasksFromFile)
         | Exit _ => False
         | Throw _ => True
         end).
Proof.
  apply (task_timeout_coercion Globals.isNumeric Examples.csvColHeaders "10"
           {| CsvParse.Context.lines := 2; CsvParse.Context.column := 3 |}).
  - discriminate.
  - reflexivity.
  - discriminate.
  - discriminate.
Defined.

(** C7, as stated, fails: a "Task timeout" of 0 is not accepted; the
    cell, and with it the import of the file, ends the process with exit
    code 1. *)
Lemma task_timeout_zero_is_rejected :
  cast Globals.isNumeric Examples.csvColHeaders "0"
       {| CsvParse.Context.lines := 2; CsvParse.Context.column := 3 |}
  = Exit 1
  /\ processCsvFile Globals.isNumeric Lookups.getTaskColumnPosFromHeaderRow
                    (Examples.csvOptions "0") Examples.csvTextTimeoutZero
     = Exit 1.
Proof.
  split; reflexivity.
Qed.



(** C2 on a workbook that has no sheet of the requested name: the run
    stops when the workbook has been read, before any app is imported
    and any task is created, but it ends by returning undefined after
    the exception has been written to the log as its one entry at level
    error; the process is not ended with an exit code. *)
Theorem missing_sheet_ends_without_exit_code :
  run (importTaskFromFile Globals.isNumeric Lookups.getTaskColumnPosFromHeaderRow
                          Examples.world
                          (Examples.excelOptions "No such sheet" false))
  = (Return UndefinedResult,
     [LogInfo (String.append "Import tasks from definitions in file "
                             (Js.quoted "tasks.xlsx"));
      TagsRequested;
      CustomPropertiesRequested;
      LogInfo "Successfully retrieved 0 custom properties from QSEoW";
      FileChecked "tasks.xlsx";
      WorkbookRead "tasks.xlsx";
      LogError "IMPORT TASK 2: EXCEL IMPORT: Can't find sheet No such sheet in file tasks.xlsx"]).
Proof.
  etransitivity.
  - apply missing_sheet_run with (tags := ["tag1"]) (cps := [])
                                 (sheets := [Examples.taskSheet; Examples.appSheet]);
      reflexivity.
  - reflexivity.
Qed.

(** C8 on a run that imports the apps and the tasks of the example
    workbook. *)
Lemma apps_imported_before_tasks_witness :
  exists before appsFromFile tags cps importedApps later,
    importAppsFromFiles Examples.world appsFromFile tags cps = Return importedApps
    /\ snd (run (importTaskFromFile Globals.isNumeric
                   Lookups.getTaskColumnPosFromHeaderRow Examples.world
                   (Examples.excelOptions "Tasks" true)))
       = before
         ++ [ AppImportStarted appsFromFile;
              AppImportDone importedApps;
              TasksInit (Some importedApps) ] ++ later
    /\ existsb isTaskCall before = false
    /\ (forall tasksFromFile,
           In (TaskModelStarted tasksFromFile)
              (snd (run (importTaskFromFile Globals.isNumeric
                           Lookups.getTaskColumnPosFromHeaderRow Examples.world
                           (Examples.excelOptions "Tasks" true)))) ->
           exists later', later = TaskModelStarted tasksFromFile :: later').
Proof.
  apply (apps_imported_before_tasks
           Globals.isNumeric Lookups.getTaskColumnPosFromHeaderRow
           Examples.world (Examples.excelOptions "Tasks" true)
           (fst (run (importTaskFromFile Globals.isNumeric
                        Lookups.getTaskColumnPosFromHeaderRow Examples.world
                        (Examples.excelOptions "Tasks" true))))
           (snd (run (importTaskFromFile Globals.isNumeric
                        Lookups.getTaskColumnPosFromHeaderRow Examples.world
                        (Examples.excelOptions "Tasks" true))))
           (TaskModelStarted (Some Examples.taskSheet))).
  - reflexivity.
  - reflexivity.
  - vm_compute. tauto.
  - reflexivity.
Defined.

(** C9, as stated, fails: when a sub tree cannot be obtained, a request
    for the tree as a CSV file ends by returning false after an entry at
    level error in the log; the process is not ended, and nothing is
    written. *)
Lemma tree_without_sub_tree_returns_false :
  run (GetTask.parseTree Examples.treeWorld (Examples.treeOptions "csv") None)
  = (Return false, [GetTask.SubTreeFailed]).
Proof.
  reflexivity.
Qed.

(** C9, as amended, on a request for the task tree as a CSV file. *)
Lemma tree_to_file_needs_json_witness :
  let outcomeAndTrace :=
    run (GetTask.parseTree Examples.treeWorld (Examples.treeOptions "csv")
                           (Some Examples.taskTree)) in
  ((exists fileName tree, In (GetTask.WriteFile fileName tree) (snd outcomeAndTrace)) ->
   "csv" = "json")
  /\ ("csv" <> "json" ->
      fst outcomeAndTrace = Exit 1
      /\ forall fileName tree,
          ~ In (GetTask.WriteFile fileName tree) (snd outcomeAndTrace)).
Proof.
  apply (tree_to_file_needs_json Examples.treeWorld (Examples.treeOptions "csv")
           Examples.taskTree).
  - reflexivity.
  - reflexivity.
Defined.

(** C10 on the example tree. *)
Lemma cleanup_leaves_text_and_children_witness :
  exists cleaned,
    GetTask.cleanupTaskTree (Js.VArr Examples.taskTree) = Some cleaned
    /\ GetTask.onlyTextAndChildren cleaned.
Proof.
  apply (cleanup_leaves_text_and_children (Js.VArr Examples.taskTree)).
  vm_compute.
  repeat match goal with
         | |- _ /\ _ => split
         | |- True => exact I
         | |- _ \/ _ -> _ =>
             let H := fresh "H" in intros [H|H]; try discriminate H
         | |- _ = _ -> False => discriminate
         end.
Defined.

(** The tree of the example as it is written to a JSON file. *)
Lemma cleanup_example :
  GetTask.cleanupTaskTree (Js.VArr Examples.taskTree)
  = Some (Js.VArr
            [ Js.VObj
                [ ("text", Js.VPrim (Js.PStr "--==| Scheduled tasks |==--"));
                  ("children",
                   Js.VArr
                     [ Js.VObj [ ("text", Js.VPrim (Js.PStr "Task 1"));
                                 ("children", Js.VArr []) ] ]) ];
              Js.VObj [ ("text", Js.VPrim (Js.PStr "Task 2")) ] ]).
Proof. reflexivity. Qed.

(** The header row written by the exporter holds every column that the
    import reads at a position of its own. *)
Lemma exported_header_has_import_columns :
  let colHeaders :=
    Lookups.getTaskColumnPosFromHeaderRow Examples.exportedHeaderRow in
  Forall (fun p => 0 <= p) (booleanColumns colHeaders ++ integerColumns colHeaders)
  /\ NoDup (booleanColumns colHeaders ++ integerColumns colHeaders).
Proof.
  vm_compute. split.
  - repeat constructor; discriminate.
  - repeat (constructor; [cbn; intuition discriminate|]). constructor.
Qed.

End OnExamples.

(* ===================================================================== *)
(** * Part III: further properties of the code                            *)
(* ===================================================================== *)

(** ** More on the type coercion of cells *)

Section MoreCoercion.
Import Proc Lookups ImportTask.

Variable isNumeric : string -> bool.

Lemma castNonNegative_result (value : string) :
  castNonNegative isNumeric value
  = Some (if String.eqb (Js.trim value) "" then Return (Js.PStr "")
          else if isNumeric value && Js.ge (Js.parseIntStr value) (Js.PNum 0)
               then Return (Js.parseIntStr value)
          else Exit 1).
Proof.
  unfold castNonNegative.
  destruct (String.eqb_spec (Js.trim value) "") as [E|E].
  - rewrite E. cbn. rewrite orb_true_r. reflexivity.
  - assert (L : (0 <? Z.of_nat (String.length (Js.trim value))) = true).
    { apply Z.ltb_lt. destruct (Js.trim value); [congruence|cbn; lia]. }
    rewrite L.
    destruct (isNumeric value), (Js.ge (Js.parseIntStr value) (Js.PNum 0));
      reflexivity.
Qed.

(** The chain of [if]s at a column whose only blocks are
    [castNonNegative]. *)
Lemma runBlocks_nonNegative (colHeaders : ColHeaders) (column : Z) (value : string) :
  In column (nonNegativeColumns colHeaders) ->
  column <> pos (taskCounter colHeaders) ->
  ~ In column (booleanColumns colHeaders) ->
  ~ In column (positiveColumns colHeaders) ->
  runBlocks (castBlocks isNumeric colHeaders) column value
  = if String.eqb (Js.trim value) "" then Return (Js.PStr "")
    else if isNumeric value && Js.ge (Js.parseIntStr value) (Js.PNum 0)
         then Return (Js.parseIntStr value)
    else Exit 1.
Proof.
  intros Hn Hc Hb Hp.
  assert (Hf : forall p, p = pos (taskCounter colHeaders)
                         \/ In p (booleanColumns colHeaders)
                         \/ In p (positiveColumns colHeaders) ->
                         (column =? p) = false).
  { intros p Hin. apply Z.eqb_neq. intros ->. tauto. }
  unfold castBlocks. cbn [runBlocks].
  rewrite !castNonNegative_result.
  rewrite (Hf (pos (taskCounter colHeaders))) by tauto.
  rewrite (Hf (pos (taskEnabled colHeaders))) by (cbn; tauto).
  rewrite (Hf (pos (taskSessionTimeout colHeaders))) by (cbn; tauto).
  rewrite (Hf (pos (isPartialReload colHeaders))) by (cbn; tauto).
  rewrite (Hf (pos (isManuallyTriggered colHeaders))) by (cbn; tauto).
  rewrite (Hf (pos (eventCounter colHeaders))) by (cbn; tauto).
  rewrite (Hf (pos (eventEnabled colHeaders))) by (cbn; tauto).
  rewrite (Hf (pos (ruleCounter colHeaders))) by (cbn; tauto).
  destruct Hn as [<-|[<-|[<-|[<-|[<-|[]]]]]]; rewrite ?Z.eqb_refl;
    repeat match goal with
           | |- context [?a =? ?b] => destruct (a =? b)
           end; reflexivity.
Qed.

(** X1: a cell of "Task retries" or of a "Time contstraint" column is
    accepted when it is blank, and then stays empty, or when it is numeric
    with an integer value of 0 or more; a numeric cell with a negative
    value ends the import with exit code 1. *)
Theorem non_negative_cell_coercion
        (colHeaders : ColHeaders) (value : string)
        (context : CsvParse.Context.t) :
  CsvParse.Context.lines context <> 1 ->
  In (CsvParse.Context.column context) (nonNegativeColumns colHeaders) ->
  CsvParse.Context.column context <> pos (taskCounter colHeaders) ->
  ~ In (CsvParse.Context.column context) (booleanColumns colHeaders) ->
  ~ In (CsvParse.Context.column context) (positiveColumns colHeaders) ->
  (Js.trim value = "" ->
   cast isNumeric colHeaders value context = Return (Js.PStr ""))
  /\ (forall n, isNumeric value = true -> Js.parseIntStr value = Js.PNum n ->
                0 <= n ->
                cast isNumeric colHeaders value context = Return (Js.PNum n))
  /\ (forall n, Js.parseIntStr value = Js.PNum n -> n < 0 ->
                cast isNumeric colHeaders value context = Exit 1)
  /\ (forall v, cast isNumeric colHeaders value context = Return v ->
                (v = Js.PStr "" /\ Js.trim value = "")
                \/ (exists n, v = Js.PNum n /\ 0 <= n /\ isNumeric value = true)).
Proof.
  intros Hl Hn Hc Hb Hp. unfold cast.
  destruct (Z.eqb_spec (CsvParse.Context.lines context) 1) as [|_]; [contradiction|].
  rewrite (runBlocks_nonNegative _ _ _ Hn Hc Hb Hp).
  split; [|split; [|split]].
  - intros Et. rewrite Et. reflexivity.
  - intros n En Ep Hge.
    destruct (String.eqb_spec (Js.trim value) "") as [Et|Et].
    + exfalso. exact (parseIntStr_number_not_blank _ _ Ep Et).
    + rewrite En, Ep. cbn. destruct (Z.leb_spec 0 n); [reflexivity|lia].
  - intros n Ep Hlt.
    destruct (String.eqb_spec (Js.trim value) "") as [Et|Et].
    + exfalso. exact (parseIntStr_number_not_blank _ _ Ep Et).
    + rewrite Ep. cbn. destruct (Z.leb_spec 0 n); [lia|].
      now rewrite andb_false_r.
  - intros v. destruct (String.eqb_spec (Js.trim value) "") as [Et|Et].
    + intros Hv. inversion Hv. left. split; [reflexivity|assumption].
    + destruct (isNumeric value) eqn:En; cbn [andb]; [|discriminate].
      destruct (parseIntStr_cases value) as [Ep|[n Ep]]; rewrite Ep; cbn;
        [discriminate|].
      destruct (Z.leb_spec 0 n) as [Hn0|Hn0]; [|discriminate].
      intros Hv. inversion Hv. right. exists n. repeat split; assumption.
Qed.

(** X2: a cell of the column "Task counter" is accepted exactly when
    [isNumeric] accepts it, and is then replaced by [parseInt] of it;
    every other cell ends the import with exit code 1, and a blank cell
    gets no treatment of its own as in the other integer columns.  No
    other column can take the place of this block: it is the first of
    the chain. *)
Theorem task_counter_cell_coercion
        (colHeaders : ColHeaders) (value : string)
        (context : CsvParse.Context.t) :
  CsvParse.Context.lines context <> 1 ->
  CsvParse.Context.column context = pos (taskCounter colHeaders) ->
  (isNumeric value = true ->
   cast isNumeric colHeaders value context = Return (Js.parseIntStr value))
  /\ (isNumeric value = false ->
      cast isNumeric colHeaders value context = Exit 1).
Proof.
  intros Hl Hc. unfold cast, castBlocks. cbn [runBlocks].
  destruct (Z.eqb_spec (CsvParse.Context.lines context) 1); [contradiction|].
  destruct (Z.eqb_spec (CsvParse.Context.column context)
                       (pos (taskCounter colHeaders))); [|contradiction].
  unfold castTaskCounter. split; intros ->; reflexivity.
Qed.

Lemma runBlocks_other_column
      (blocks : list (Z * (string -> option (outcome Js.prim))))
      (column : Z) (value : string) :
  ~ In column (map fst blocks) ->
  runBlocks blocks column value = Return (Js.PStr value).
Proof.
  induction blocks as [|[p b] rest IH]; cbn [runBlocks map In fst]; [reflexivity|].
  intros H. destruct (Z.eqb_spec column p) as [->|_]; [tauto|].
  apply IH. tauto.
Qed.

(** X3: the cells of the header line, and the cells of every column that
    is none of the thirteen typed columns, are returned as the strings
    they are. *)
Theorem untyped_cell_is_unchanged
        (colHeaders : ColHeaders) (value : string)
        (context : CsvParse.Context.t) :
  CsvParse.Context.lines context = 1
  \/ (CsvParse.Context.column context <> pos (taskCounter colHeaders)
      /\ ~ In (CsvParse.Context.column context) (booleanColumns colHeaders)
      /\ ~ In (CsvParse.Context.column context) (positiveColumns colHeaders)
      /\ ~ In (CsvParse.Context.column context) (nonNegativeColumns colHeaders)) ->
  cast isNumeric colHeaders value context = Return (Js.PStr value).
Proof.
  intros [Hl|(Hc & Hb & Hp & Hn)]; unfold cast.
  - rewrite Hl. reflexivity.
  - destruct (CsvParse.Context.lines context =? 1); [reflexivity|].
    apply runBlocks_other_column. unfold castBlocks. cbn [map fst In].
    unfold booleanColumns, positiveColumns, nonNegativeColumns in *.
    cbn [In] in *. intuition.
Qed.

Lemma block_result (colHeaders : ColHeaders)
      (p : Z) (block : string -> option (outcome Js.prim)) (value : string)
      (r : outcome Js.prim) :
  In (p, block) (castBlocks isNumeric colHeaders) ->
  block value = Some r ->
  r = Exit 1 \/ exists v, r = Return v /\ castValue value v.
Proof.
  unfold castBlocks. cbn [In]. intros Hin Hr.
  assert (Hcases : block = castTaskCounter isNumeric \/ block = castBoolean
                   \/ block = castPositive isNumeric
                   \/ block = castNonNegative isNumeric).
  { repeat (destruct Hin as [Hin|Hin]; [inversion Hin; tauto|]). contradiction. }
  unfold castValue.
  destruct Hcases as [ -> | [ -> | [ -> | -> ] ] ].
  - unfold castTaskCounter in Hr. destruct (isNumeric value); cbn in Hr;
      inversion Hr; eauto 10.
  - rewrite castBoolean_result in Hr. inversion Hr.
    destruct (String.eqb value "1"); [eauto 10|].
    destruct (String.eqb value "0" || String.eqb (Js.trim value) ""); eauto 10.
  - rewrite castPositive_result in Hr. inversion Hr.
    destruct (String.eqb (Js.trim value) ""); [eauto 10|].
    destruct (isNumeric value && _); eauto 10.
  - rewrite castNonNegative_result in Hr. inversion Hr.
    destruct (String.eqb (Js.trim value) ""); [eauto 10|].
    destruct (isNumeric value && _); eauto 10.
Qed.

(** The results of the chain of blocks. *)
Lemma cast_outcome (colHeaders : ColHeaders) (value : string)
      (context : CsvParse.Context.t) :
  cast isNumeric colHeaders value context = Exit 1
  \/ exists v, cast isNumeric colHeaders value context = Return v
               /\ castValue value v.
Proof.
  unfold cast.
  destruct (CsvParse.Context.lines context =? 1).
  { right. eexists. split; [reflexivity|]. now left. }
  assert (H : forall blocks,
             (forall p b, In (p, b) blocks ->
                          In (p, b) (castBlocks isNumeric colHeaders)) ->
             runBlocks blocks (CsvParse.Context.column context) value = Exit 1
             \/ exists v, runBlocks blocks (CsvParse.Context.column context) value
                          = Return v /\ castValue value v).
  { induction blocks as [|[p b] rest IH]; intros Hsub; cbn [runBlocks].
    - right. eexists. split; [reflexivity|]. now left.
    - assert (IH' := IH (fun p' b' Hin => Hsub p' b' (or_intror Hin))).
      destruct (CsvParse.Context.column context =? p); [|exact IH'].
      destruct (b value) as [r|] eqn:Hr; [|exact IH'].
      destruct (block_result colHeaders p b value r (Hsub p b (or_introl eq_refl)) Hr)
        as [Hx|[v [Hx Hv]]]; subst r; eauto. }
  apply H. auto.
Qed.

(** X4: whatever the cell, its column and the positions of the columns,
    the callback either ends the process with exit code 1 or returns one
    of: the cell itself, the empty string, a boolean, [parseInt] of the
    cell.  It never throws. *)
Theorem cast_returns_or_exits_with_1
        (colHeaders : ColHeaders) (value : string)
        (context : CsvParse.Context.t) :
  cast isNumeric colHeaders value context = Exit 1
  \/ exists v, cast isNumeric colHeaders value context = Return v
               /\ castValue value v.
Proof.
  apply cast_outcome.
Qed.

End MoreCoercion.

(** ** More on reading a CSV file *)

Section MoreCsvFile.
Import Proc Lookups ImportTask.

Variable isNumeric : string -> bool.
Variable getTaskColumnPosFromHeaderRow : list Js.prim -> ColHeaders.





(** Without a callback the parser does not end the process. *)
Lemma parseLines_noCast_no_exit (input : list string) (line : Z)
      (expected : option nat) (code : Z) :
  CsvParse.parseLines CsvParse.noCast line expected input <> Exit code.
Proof.
  revert line expected.
  induction input as [|l rest IH]; intros line expected; cbn [CsvParse.parseLines].
  - discriminate.
  - destruct (String.eqb l ""); [apply IH|].
    rewrite castFields_noCast. cbn.
    destruct expected as [n|].
    + destruct (Nat.eqb _ n); [|discriminate].
      specialize (IH (line + 1) (Some n)).
      destruct (CsvParse.parseLines CsvParse.noCast (line + 1) (Some n) rest);
        cbn; congruence.
    + match goal with
      | |- context [CsvParse.parseLines ?c ?l ?e ?r] =>
          specialize (IH l e); destruct (CsvParse.parseLines c l e r)
      end; cbn; congruence.
Qed.


Lemma parseLines_width (cast : string -> CsvParse.Context.t -> outcome Js.prim)
      (input : list string) (line : Z) (n : nat) (rows : list CsvParse.Row) :
  CsvParse.parseLines cast line (Some n) input = Return rows ->
  Forall (fun r => List.length (CsvParse.record r) = n) rows.
Proof.
  revert line rows.
  induction input as [|l rest IH]; intros line rows; cbn [CsvParse.parseLines].
  - intros H. inversion H. constructor.
  - destruct (String.eqb l ""); [apply IH|].
    intros H. apply bind_Return in H. destruct H as [fields [_ H]].
    destruct (Nat.eqb_spec (List.length fields) n) as [E|E]; [|discriminate].
    apply bind_Return in H. destruct H as [rows' [Hr H]]. inversion H.
    constructor; [exact E|]. now apply IH in Hr.
Qed.

Lemma parseLines_width_first (cast : string -> CsvParse.Context.t -> outcome Js.prim)
      (input : list string) (line : Z) (first : CsvParse.Row)
      (rows : list CsvParse.Row) :
  CsvParse.parseLines cast line None input = Return (first :: rows) ->
  Forall (fun r => List.length (CsvParse.record r)
                   = List.length (CsvParse.record first)) rows.
Proof.
  revert line.
  induction input as [|l rest IH]; intros line; cbn [CsvParse.parseLines].
  - discriminate.
  - destruct (String.eqb l ""); [apply IH|].
    intros H. apply bind_Return in H. destruct H as [fields [_ H]].
    apply bind_Return in H. destruct H as [rows' [Hr H]]. inversion H. subst.
    cbn. now apply parseLines_width in Hr.
Qed.

(** X6: the rows that [processCsvFile] returns all have as many cells as
    the first of them, the header row. *)
Theorem processCsvFile_rows_have_header_width
        (options : Options) (text : string)
        (headerRow : list Js.prim) (rows : list (list Js.prim)) :
  processCsvFile isNumeric getTaskColumnPosFromHeaderRow options text
  = Return (headerRow :: rows) ->
  Forall (fun row => List.length row = List.length headerRow) rows.
Proof.
  intros H. unfold processCsvFile in H.
  apply bind_Return in H. destruct H as [headers [Hh H]].
  destruct (split_cons CsvParse.LF text) as (first & rest & Hs).
  rewrite (getHeaders_first_line _ _ _ _ Hs Hh) in H.
  destruct (String.eqb_spec first "") as [E|E]; [discriminate|].
  cbn zeta in H.
  apply bind_Return in H. destruct H as [parser [Hp H]].
  destruct (parse_first_line _ _ _ _ _ Hs Hp)
    as [[E' _]|[_ (fields & later & Hf & -> & Hl)]]; [contradiction|].
  apply parseLines_width_first in Hp. cbn [CsvParse.record] in Hp.
  inversion H as [Hrecs]. rewrite keptRecords_filter in Hrecs.
  cbn [app filter CsvParse.info CsvParse.Info.lines Z.eqb Pos.eqb map
       CsvParse.record] in Hrecs.
  inversion Hrecs. subst headerRow.
  apply Forall_forall. intros row Hin.
  apply in_map_iff in Hin. destruct Hin as [r [<- Hin]].
  apply filter_In in Hin. destruct Hin as [Hin _].
  rewrite Forall_forall in Hp. now apply Hp.
Qed.



(** X8: a file whose first line is empty, the empty file included, makes
    [processCsvFile] throw; it neither returns rows nor ends the
    process. *)
Theorem processCsvFile_throws_after_empty_first_line
        (options : Options) (text : string) (rest : list string) :
  CsvParse.split CsvParse.LF text = "" :: rest ->
  exists err,
    processCsvFile isNumeric getTaskColumnPosFromHeaderRow options text = Throw err.
Proof.
  intros Hs. unfold processCsvFile.
  destruct (getHeaders text) as [headers|code|err] eqn:Hh; cbn.
  - rewrite (getHeaders_first_line _ _ _ _ Hs Hh). cbn. eauto.
  - exfalso. unfold getHeaders, CsvParse.parse in Hh.
    destruct (CsvParse.parseLines CsvParse.noCast 1 None
                (CsvParse.split CsvParse.LF text)) eqn:Hp; cbn in Hh;
      try discriminate.
    inversion Hh. subst. exact (parseLines_noCast_no_exit _ _ _ _ Hp).
  - eauto.
Qed.

End MoreCsvFile.

(** ** More on the run of [importTaskFromFile] *)

Section MoreImportRun.
Import Proc Lookups ImportTask.

Variable isNumeric : string -> bool.
Variable getTaskColumnPosFromHeaderRow : list Js.prim -> ColHeaders.
Variable world : World.

Ltac run_cases Hrun :=
  unfold run, importTaskFromFile, loadDefinitions, importApps, catchLog in Hrun;
  unfold tryCatch, bindT, call, invoke, invokeThen, emit, ret, exit, throw in Hrun;
  cbn [app] in Hrun;
  repeat match type of Hrun with
         | context [match ?x with _ => _ end] =>
             lazymatch x with
             | context [match _ with _ => _ end] => fail
             | _ => destruct x eqn:?
             end; cbn [app fst snd negb] in Hrun
         end;
  inversion Hrun; subst; clear Hrun.

(** X9: [importTaskFromFile] does not throw: whatever its collaborators
    do, the run ends by returning or by ending the process; an exception
    of a collaborator ends in the log and in the result undefined. *)
Theorem importTaskFromFile_does_not_throw
        (options : Options) (result : outcome Result) (trace : list Event) :
  run (importTaskFromFile isNumeric getTaskColumnPosFromHeaderRow world options)
  = (result, trace) ->
  (exists code, result = Exit code)
  \/ (exists tasks, result = Return (TaskListResult tasks))
  \/ result = Return FalseResult
  \/ (result = Return UndefinedResult
      /\ exists err, last trace (TasksInit None)
                     = LogError (String.append "IMPORT TASK 2: " err)).
Proof.
  intros Hrun. run_cases Hrun; eauto;
    right; right; right; (split; [reflexivity|]); eexists;
    repeat rewrite last_last; cbn; reflexivity.
Qed.


(** X11: without the option to import apps no app is imported in any
    run, and the task object is initialised without a mapping of apps. *)
Theorem no_app_import_without_option
        (options : Options) (result : outcome Result) (trace : list Event)
        (e : Event) :
  importApp options = false ->
  run (importTaskFromFile isNumeric getTaskColumnPosFromHeaderRow world options)
  = (result, trace) ->
  In e trace ->
  match e with
  | AppImportStarted _ | AppImportDone _ => False
  | TasksInit importedApps => importedApps = None
  | _ => True
  end.
Proof.
  intros Hia Hrun Hin.
  unfold run, importTaskFromFile, loadDefinitions, importApps, catchLog in Hrun.
  rewrite Hia in Hrun.
  run_cases Hrun; cbn [In] in Hin;
    repeat (destruct Hin as [Hin|Hin]; [subst e; try exact I; reflexivity|]);
    contradiction.
Qed.


(** X13: with a CSV file the app import, when requested, is called
    without an app sheet. *)
Theorem csv_import_has_no_app_sheet
        (options : Options) (result : outcome Result) (trace : list Event)
        (appsFromFile : option Sheet) :
  fileType options = "csv" ->
  run (importTaskFromFile isNumeric getTaskColumnPosFromHeaderRow world options)
  = (result, trace) ->
  In (AppImportStarted appsFromFile) trace ->
  appsFromFile = None.
Proof.
  intros Hc Hrun Hin.
  unfold run, importTaskFromFile, loadDefinitions, importApps, catchLog in Hrun.
  rewrite Hc in Hrun. cbn [String.eqb Ascii.eqb Bool.eqb] in Hrun.
  run_cases Hrun; cbn [In] in Hin;
    repeat (destruct Hin as [Hin|Hin]; [try discriminate Hin; now inversion Hin|]);
    contradiction.
Qed.

(** The limit leaves the name of the sheet as it is. *)
Lemma limitSheet_name (options : Options) (tasksFromFile limited : Sheet) :
  limitSheet getTaskColumnPosFromHeaderRow options tasksFromFile = Return limited ->
  name limited = name tasksFromFile.
Proof.
  unfold limitSheet.
  destruct (Js.gt _ _); [destruct (data tasksFromFile)|];
    intros H; inversion H; reflexivity.
Qed.

(** A sheet that the workbook does not have is not found after the task
    sheet has been limited in place either. *)
Lemma findSheet_limitedInPlace_none (sheetName other : string)
      (limited : Sheet) (sheets : list Sheet) :
  name limited = sheetName ->
  findSheet other sheets = None ->
  findSheet other (limitedInPlace sheetName limited sheets) = None.
Proof.
  intros Hn. unfold findSheet.
  induction sheets as [|item rest IH]; cbn; [reflexivity|].
  destruct (String.eqb_spec (name item) other) as [E|E]; [discriminate|].
  intros Hrest.
  destruct (String.eqb_spec (name item) sheetName) as [F|F]; cbn.
  - rewrite Hn, <- F.
    destruct (String.eqb_spec (name item) other); [contradiction|assumption].
  - destruct (String.eqb_spec (name item) other); [contradiction|auto].
Qed.

(** X14: a workbook that has the task sheet but not the app sheet: with
    the option to import apps the run stops before any app is imported
    and any task is created; the error is written to the log and the
    function returns undefined. *)
Theorem missing_app_sheet_run (options : Options)
      (tags : Tags) (cps : CustomProperties) (sheets : list Sheet)
      (tasksFromFile limited : Sheet) :
  fileType options = "excel" ->
  importApp options = true ->
  getTagsFromQseow world options = Return tags ->
  getCustomPropertiesFromQseow world options = Return cps ->
  verifyFileSystemExists world (fileName options) = Return true ->
  xlsxParse world (fileName options) = Return sheets ->
  findSheet (sheetName options) sheets = Some tasksFromFile ->
  limitSheet getTaskColumnPosFromHeaderRow options tasksFromFile = Return limited ->
  findSheet (importAppSheetName options) sheets = None ->
  run (importTaskFromFile isNumeric getTaskColumnPosFromHeaderRow world options)
  = (Return UndefinedResult,
     [LogInfo (importStartMessage options);
      TagsRequested;
      CustomPropertiesRequested;
      LogInfo (customPropertiesMessage cps);
      FileChecked (fileName options);
      WorkbookRead (fileName options);
      LogError (String.append "IMPORT TASK 2: "
                  (cantFindSheet (importAppSheetName options) (fileName options)))]).
Proof.
  intros Hft Hia Ht Hc Hv Hx Hf Hl Ha.
  assert (Hn : name limited = sheetName options).
  { rewrite (limitSheet_name _ _ _ Hl).
    apply find_some in Hf. now apply String.eqb_eq. }
  unfold run, importTaskFromFile, loadDefinitions, catchLog.
  unfold tryCatch, bindT, call, invoke, invokeThen, emit, ret, exit, throw.
  rewrite Ht, Hc, Hv, Hft. cbn. rewrite Hx, Hf, Hl, Hia.
  rewrite (findSheet_limitedInPlace_none _ _ _ _ Hn Ha). reflexivity.
Qed.

End MoreImportRun.

(** ** De-duplication by [filter] and [findIndex] *)

Section KeepFirst.

Variables (A K : Type) (key : A -> K) (same : A -> A -> bool).

(** The idiom [arr.filter((x, index, self) => self.findIndex((y) =>
    same(x, y)) === index)], where on the elements of the array [same]
    decides the equality of keys. *)
Lemma keep_first_from (rest pre : list A) :
  (forall x y, In x (pre ++ rest) -> In y (pre ++ rest) ->
               (same x y = true <-> key y = key x)) ->
  let kept :=
    Js.filterFrom (fun x index self => Js.findIndex (same x) self =? index)
                  (pre ++ rest) (Z.of_nat (List.length pre)) rest in
  NoDup (map key kept)
  /\ (forall c, In c kept ->
                ~ In (key c) (map key pre)
                /\ exists r1 r2, rest = r1 ++ c :: r2
                                 /\ ~ In (key c) (map key r1))
  /\ (forall c, In c rest ->
                In (key c) (map key pre) \/ In (key c) (map key kept)).
Proof.
  revert pre. induction rest as [|x r IH]; intros pre Hsame; cbn zeta.
  - cbn. split; [constructor|]. split; intros c [].
  - cbn [Js.filterFrom].
    assert (Hxx : same x x = true).
    { apply Hsame; [apply in_or_app; right; now left ..|reflexivity]. }
    rewrite findIndex_app_here by exact Hxx.
    assert (Hex : existsb (same x) pre = true <-> In (key x) (map key pre)).
    { rewrite existsb_exists, in_map_iff. split.
      - intros [y [Hy Hs]]. exists y. split; [|assumption].
        apply Hsame in Hs; [assumption| |];
          apply in_or_app; [right; now left | now left].
      - intros [y [Hk Hy]]. exists y. split; [assumption|].
        apply Hsame; [| |assumption];
          apply in_or_app; [right; now left | now left]. }
    specialize (IH (pre ++ [x])). cbn zeta in IH.
    rewrite <- app_assoc in IH. cbn [app] in IH.
    rewrite length_app in IH. cbn [List.length] in IH.
    replace (Z.of_nat (List.length pre + 1))
      with (Z.of_nat (List.length pre) + 1) in IH by lia.
    destruct (IH Hsame) as (Hnd & Hin & Hcov).
    assert (Hpre : forall k, In k (map key (pre ++ [x]))
                             <-> In k (map key pre) \/ k = key x).
    { intros k. rewrite map_app, in_app_iff. cbn. intuition. }
    assert (Hlater : forall c, In c (Js.filterFrom
                                      (fun x0 index self =>
                                         Js.findIndex (same x0) self =? index)
                                      (pre ++ x :: r)
                                      (Z.of_nat (List.length pre) + 1) r) ->
                     ~ In (key c) (map key pre)
                     /\ exists r1 r2, x :: r = r1 ++ c :: r2
                                      /\ ~ In (key c) (map key r1)).
    { intros c Hc. destruct (Hin c Hc) as [Hn (r1 & r2 & -> & Hr1)]. split.
      - intros Hk. apply Hn, Hpre. now left.
      - exists (x :: r1), r2. split; [reflexivity|]. cbn.
        intros [Hk|Hk]; [|contradiction]. apply Hn, Hpre. now right. }
    destruct (existsb (same x) pre) eqn:Eex; cbn [negb].
    + split; [assumption|]. split; [exact Hlater|].
      intros c [<-|Hc]; [left; now apply Hex|].
      destruct (Hcov c Hc) as [Hc'|Hc']; [|now right].
      apply Hpre in Hc'. destruct Hc' as [Hc'|Hc']; [now left|].
      left. rewrite Hc'. now apply Hex.
    + assert (Hnew : ~ In (key x) (map key pre)).
      { intros Hk. apply Hex in Hk. congruence. }
      split; [|split].
      * cbn [map]. constructor; [|assumption].
        intros Hk. apply in_map_iff in Hk. destruct Hk as [c [Hk Hc]].
        apply (proj1 (Hin c Hc)), Hpre. now right.
      * intros c [<-|Hc]; [|now apply Hlater].
        split; [assumption|]. exists [], r. split; [reflexivity|]. cbn. tauto.
      * intros c [<-|Hc]; [right; now left|].
        destruct (Hcov c Hc) as [Hc'|Hc']; [|right; now right].
        apply Hpre in Hc'. destruct Hc' as [Hc'|Hc']; [now left|].
        right. left. now symmetry.
Qed.

(** An array without two elements of the same key passes unchanged. *)
Lemma keep_first_unchanged (rest pre : list A) :
  (forall x y, In x (pre ++ rest) -> In y (pre ++ rest) ->
               (same x y = true <-> key y = key x)) ->
  NoDup (map key (pre ++ rest)) ->
  Js.filterFrom (fun x index self => Js.findIndex (same x) self =? index)
                (pre ++ rest) (Z.of_nat (List.length pre)) rest
  = rest.
Proof.
  revert pre. induction rest as [|x r IH]; intros pre Hsame Hnd; [reflexivity|].
  cbn [Js.filterFrom].
  assert (Hxx : same x x = true).
  { apply Hsame; [apply in_or_app; right; now left ..|reflexivity]. }
  rewrite findIndex_app_here by exact Hxx.
  assert (Hex : existsb (same x) pre = false).
  { destruct (existsb (same x) pre) eqn:E; [|reflexivity]. exfalso.
    apply existsb_exists in E. destruct E as [y [Hy Hs]].
    apply Hsame in Hs; [| apply in_or_app; right; now left
                        | apply in_or_app; now left].
    rewrite map_app in Hnd. cbn [map] in Hnd.
    apply NoDup_remove_2 in Hnd. apply Hnd, in_or_app. left.
    rewrite <- Hs. now apply in_map. }
  rewrite Hex. cbn [negb]. f_equal.
  specialize (IH (pre ++ [x])).
  rewrite <- app_assoc in IH. cbn [app] in IH.
  rewrite length_app in IH. cbn [List.length] in IH.
  replace (Z.of_nat (List.length pre + 1))
    with (Z.of_nat (List.length pre) + 1) in IH by lia.
  now apply IH.
Qed.

End KeepFirst.

Section MoreVisTask.
Import VisTask.

Lemma sameEdge_key (edge e : DuplicateEdge) :
  ruleState edge <> Js.PNaN ->
  (sameEdge edge e = true <-> edgeKey e = edgeKey edge).
Proof.
  intros Hnan. unfold sameEdge, edgeKey.
  rewrite !andb_true_iff, !String.eqb_eq. split.
  - intros [[-> ->] Hs]. f_equal.
    destruct (ruleState e), (ruleState edge); cbn in Hs; try discriminate;
      try reflexivity.
    + f_equal. now apply Bool.eqb_prop.
    + f_equal. now apply Z.eqb_eq.
    + f_equal. now apply String.eqb_eq.
  - intros H. injection H as H1 H2 H3. rewrite H3.
    split; [split; assumption|].
    destruct (ruleState edge) as [| |b|n| |s]; cbn; try reflexivity.
    + apply Bool.eqb_reflx.
    + apply Z.eqb_refl.
    + contradiction.
    + apply String.eqb_refl.
Qed.

(** X15: the reported duplicate triggers hold no two edges with the same
    parent id, downstream id and rule state; every reported edge is the
    first of its kind among the detected ones, and every detected edge
    has a reported edge of its kind. *)
Theorem duplicate_edges_are_reported_once (duplicateEdges : list DuplicateEdge) :
  Forall (fun e => ruleState e <> Js.PNaN) duplicateEdges ->
  let reported := deduplicatedDuplicateEdges duplicateEdges in
  NoDup (map edgeKey reported)
  /\ (forall e, In e reported ->
                exists before after,
                  duplicateEdges = before ++ e :: after
                  /\ ~ In (edgeKey e) (map edgeKey before))
  /\ (forall e, In e duplicateEdges ->
                In (edgeKey e) (map edgeKey reported)).
Proof.
  intros Hnan. cbn zeta. unfold deduplicatedDuplicateEdges, Js.filterIndexed.
  destruct (keep_first_from _ _ edgeKey sameEdge duplicateEdges [])
    as (Hnd & Hin & Hcov).
  { cbn [app]. intros x y Hx _. apply sameEdge_key.
    rewrite Forall_forall in Hnan. now apply Hnan. }
  cbn [app List.length Z.of_nat map] in *.
  split; [assumption|]. split.
  - intros e He. now apply Hin.
  - intros e He. destruct (Hcov e He) as [[]|H]. assumption.
Qed.

(** X16: of the circular chains with the same ordered endpoints the one
    detected first is reported; a list without two such chains is
    reported unchanged, and de-duplicating twice changes nothing more. *)
Theorem circular_chain_dedup_keeps_first (circularTaskChains : list Chain) :
  (forall c, In c (deduplicatedCircularTaskChain circularTaskChains) ->
             exists before after,
               circularTaskChains = before ++ c :: after
               /\ ~ In (endpoints c) (map endpoints before))
  /\ (NoDup (map endpoints circularTaskChains) ->
      deduplicatedCircularTaskChain circularTaskChains = circularTaskChains)
  /\ deduplicatedCircularTaskChain (deduplicatedCircularTaskChain circularTaskChains)
     = deduplicatedCircularTaskChain circularTaskChains.
Proof.
  assert (Hsame : forall l (x y : Chain), In x l -> In y l ->
                    (sameChain x y = true <-> endpoints y = endpoints x)).
  { intros l x y _ _. apply sameChain_endpoints. }
  assert (Hid : forall l, NoDup (map endpoints l) ->
                          deduplicatedCircularTaskChain l = l).
  { intros l Hnd. unfold deduplicatedCircularTaskChain, Js.filterIndexed.
    apply (keep_first_unchanged _ _ endpoints sameChain l []);
      [apply Hsame|exact Hnd]. }
  destruct (keep_first_from _ _ endpoints sameChain circularTaskChains []
                            (Hsame _)) as (Hnd & Hin & _).
  split; [|split].
  - intros c Hc. now apply Hin.
  - apply Hid.
  - apply Hid. exact Hnd.
Qed.

End MoreVisTask.

(** ** More on the task tree *)

Section MoreTaskTree.
Import Proc GetTask.

Lemma forEach_fixed (f : Js.value -> option Js.value) (l l' : list Js.value) :
  Forall (fun x => forall x', f x = Some x' -> f x' = Some x') l ->
  forEach f l = Some l' -> forEach f l' = Some l'.
Proof.
  intros H. revert l'. induction H as [|x r Hx _ IH]; intros l'; cbn.
  - intros E. inversion E. reflexivity.
  - destruct (f x) as [x'|] eqn:Ex; [|discriminate].
    destruct (forEach f r) as [r'|]; [|discriminate].
    cbn. intros E. inversion E. cbn.
    rewrite (Hx _ eq_refl), (IH _ eq_refl). reflexivity.
Qed.

Lemma cleanup_gives_array (v v' : Js.value) :
  cleanupTaskTree v = Some v' -> exists l, v' = Js.VArr l.
Proof.
  destruct v as [p|elems|props]; cbn; try discriminate.
  destruct (forEach _ elems); cbn; [|discriminate].
  intros E. inversion E. eauto.
Qed.

Lemma forIn_fixed (props props' : list (string * Js.value)) :
  Forall (fun kv => forall v', cleanupTaskTree (snd kv) = Some v' ->
                               cleanupTaskTree v' = Some v') props ->
  forIn cleanupTaskTree props = Some props' ->
  forIn cleanupTaskTree props' = Some props'.
Proof.
  intros H. revert props'.
  induction H as [|[prop v] more Hv _ IH]; intros props'; cbn [forIn].
  - intros E. inversion E. reflexivity.
  - cbn [snd] in Hv.
    destruct (negb (String.eqb prop "text") && negb (String.eqb prop "children"))
      eqn:Ek; [now apply IH|].
    destruct (Js.typeofObject v) eqn:Ety.
    + destruct (cleanupTaskTree v) as [v'|] eqn:Ecl; [|discriminate].
      destruct (forIn cleanupTaskTree more) as [more'|]; [|discriminate].
      cbn. intros E. inversion E. cbn [forIn]. rewrite Ek.
      destruct (cleanup_gives_array _ _ Ecl) as [l ->]. cbn [Js.typeofObject].
      rewrite (Hv _ eq_refl), (IH _ eq_refl). reflexivity.
    + destruct (forIn cleanupTaskTree more) as [more'|]; [|discriminate].
      cbn. intros E. inversion E. cbn [forIn]. rewrite Ek, Ety.
      rewrite (IH _ eq_refl). reflexivity.
Qed.

Lemma cleanup_fixed (v : Js.value) :
  (forall v', cleanupTaskTree v = Some v' -> cleanupTaskTree v' = Some v')
  /\ (forall v', cleanupElement cleanupTaskTree v = Some v' ->
                 cleanupElement cleanupTaskTree v' = Some v').
Proof.
  induction v as [p|elems IH|props IH] using value_induction.
  - split; [discriminate|].
    intros v'. cbn. destruct p; try (intros E; inversion E; reflexivity).
    destruct (String.eqb s "") eqn:Es; [|discriminate].
    intros E. inversion E. cbn. now rewrite Es.
  - split.
    + intros v'. cbn [cleanupTaskTree].
      destruct (forEach (cleanupElement cleanupTaskTree) elems) as [l'|] eqn:E;
        [|discriminate].
      cbn. intros E'. inversion E'. cbn [cleanupTaskTree].
      rewrite (forEach_fixed _ _ _ (Forall_impl _ (fun x Hx => proj2 Hx) IH) E).
      reflexivity.
    + intros v'. cbn. intros E. inversion E. cbn. now rewrite map_map.
  - split; [discriminate|].
    intros v'. cbn [cleanupElement].
    destruct (forIn cleanupTaskTree props) as [props'|] eqn:E; [|discriminate].
    cbn. intros E'. inversion E'. cbn [cleanupElement].
    rewrite (forIn_fixed _ _ (Forall_impl _ (fun kv Hkv => proj1 Hkv) IH) E).
    reflexivity.
Qed.

(** X17: cleaning a cleaned tree changes nothing: a second call of
    [cleanupTaskTree] succeeds and returns the tree it was given. *)
Theorem cleanup_twice_is_cleanup_once (taskTree cleaned : Js.value) :
  cleanupTaskTree taskTree = Some cleaned ->
  cleanupTaskTree cleaned = Some cleaned.
Proof.
  apply (proj1 (cleanup_fixed taskTree)).
Qed.

Lemma forEach_flat_map {B} (f : Js.value -> option Js.value)
      (g : Js.value -> list B) (l l' : list Js.value) :
  Forall (fun x => forall x', f x = Some x' -> g x' = g x) l ->
  forEach f l = Some l' -> flat_map g l' = flat_map g l.
Proof.
  intros H. revert l'. induction H as [|x r Hx _ IH]; intros l'; cbn.
  - intros E. inversion E. reflexivity.
  - destruct (f x) as [x'|] eqn:Ex; [|discriminate].
    destruct (forEach f r) as [r'|]; [|discriminate].
    cbn. intros E. inversion E. cbn.
    rewrite (Hx _ eq_refl), (IH _ eq_refl). reflexivity.
Qed.

Lemma cleanup_texts (v : Js.value) :
  (forall v', cleanupTaskTree v = Some v' -> nodeTexts v' = nodeTexts v)
  /\ (forall v', cleanupElement cleanupTaskTree v = Some v' ->
                 nodeTexts (Js.VArr [v']) = nodeTexts (Js.VArr [v])).
Proof.
  induction v as [p|elems IH|props IH] using value_induction.
  - split; [discriminate|].
    intros v'. cbn [cleanupElement]. destruct p; try (intros E; inversion E; reflexivity).
    destruct (String.eqb s ""); [|discriminate]. intros E. inversion E. reflexivity.
  - split.
    + intros v'. cbn [cleanupTaskTree].
      destruct (forEach (cleanupElement cleanupTaskTree) elems) as [l'|] eqn:E;
        [|discriminate].
      cbn. intros E'. inversion E'. cbn [nodeTexts].
      refine (forEach_flat_map _ _ _ _ _ E).
      eapply Forall_impl; [|exact IH]. cbn beta. intros x [_ Hx] x' Hx'.
      specialize (Hx x' Hx'). cbn [nodeTexts flat_map] in Hx.
      now rewrite !app_nil_r in Hx.
    + intros v'. cbn. intros E. inversion E. reflexivity.
  - split; [discriminate|].
    intros v'. cbn [cleanupElement].
    destruct (forIn cleanupTaskTree props) as [props'|] eqn:E; [|discriminate].
    cbn. intros E'. inversion E'. cbn [nodeTexts flat_map]. f_equal.
    clear E' H0 v'. revert props' E.
    induction IH as [|[prop w] more [Hw _] _ IHm]; intros props'; cbn [forIn].
    * intros E. inversion E. reflexivity.
    * cbn [snd] in Hw. cbn [flat_map fst snd].
      destruct (String.eqb_spec prop "text") as [Et|Et];
        destruct (String.eqb_spec prop "children") as [Ec|Ec]; cbn [negb andb];
        try (subst prop; discriminate).
      -- subst prop.
         destruct (Js.typeofObject w) eqn:Ety.
         ++ destruct (cleanupTaskTree w) as [w'|] eqn:Ecl; [|discriminate].
            destruct (forIn cleanupTaskTree more) as [more'|] eqn:Em; [|discriminate].
            cbn. intros E. inversion E. cbn [flat_map fst snd String.eqb Ascii.eqb Bool.eqb].
            rewrite (IHm _ eq_refl).
            destruct (cleanup_gives_array _ _ Ecl) as [l ->].
            destruct w as [q| |]; try reflexivity.
            destruct q; discriminate.
         ++ destruct (forIn cleanupTaskTree more) as [more'|] eqn:Em; [|discriminate].
            cbn. intros E. inversion E. cbn [flat_map fst snd String.eqb Ascii.eqb Bool.eqb].
            now rewrite (IHm _ eq_refl).
      -- subst prop.
         destruct (Js.typeofObject w) eqn:Ety.
         ++ destruct (cleanupTaskTree w) as [w'|] eqn:Ecl; [|discriminate].
            destruct (forIn cleanupTaskTree more) as [more'|] eqn:Em; [|discriminate].
            cbn. intros E. inversion E. cbn [flat_map fst snd String.eqb Ascii.eqb Bool.eqb].
            rewrite (IHm _ eq_refl), (Hw _ eq_refl). reflexivity.
         ++ destruct (forIn cleanupTaskTree more) as [more'|] eqn:Em; [|discriminate].
            cbn. intros E. inversion E. cbn [flat_map fst snd String.eqb Ascii.eqb Bool.eqb].
            now rewrite (IHm _ eq_refl).
      -- intros E. now apply IHm.
Qed.

(** X18: [cleanupTaskTree] keeps the text of every node and the order of
    the nodes: the texts of the cleaned tree, read in the order of the
    tree, are those of the tree it was given. *)
Theorem cleanup_keeps_node_texts (taskTree cleaned : Js.value) :
  cleanupTaskTree taskTree = Some cleaned ->
  nodeTexts cleaned = nodeTexts taskTree.
Proof.
  apply (proj1 (cleanup_texts taskTree)).
Qed.

Variable world : World.

(** X19: an output file that exists is replaced by the task tree only
    when overwriting was requested or the user, asked, has agreed. *)
Theorem existing_tree_file_needs_consent
        (options : Options) (built : option (list Js.value))
        (result : outcome bool) (trace : list Event)
        (fileName : string) (tree : Js.value) :
  run (parseTree world options built) = (result, trace) ->
  In (WriteFile fileName tree) trace ->
  verifyFileSystemExists world (outputFileName options) = Return true ->
  outputFileOverwrite options = false ->
  yesno world = Return true /\ In Asked trace.
Proof.
  intros Hrun Hin Hex Hov.
  unfold run, parseTree, confirmOverwrite in Hrun.
  unfold bindT, call, invoke, invokeThen, emit, ret, exit, throw in Hrun.
  rewrite Hex, Hov in Hrun. cbn [negb] in Hrun.
  repeat match type of Hrun with
         | context [match ?x with _ => _ end] =>
             lazymatch x with
             | context [match _ with _ => _ end] => fail
             | _ => destruct x eqn:?
             end; cbn [app fst snd negb] in Hrun
         end;
    inversion Hrun; subst; clear Hrun;
    cbn [In] in Hin;
    repeat (destruct Hin as [Hin|Hin]; try discriminate Hin);
    try contradiction;
    (split; [| cbn; tauto]);
    match goal with
    | Hno : negb ?ok = false |- _ =>
        destruct ok; [reflexivity | discriminate Hno]
    end.
Qed.

End MoreTaskTree.

(** ** Deleting master dimensions *)

Section MoreDeleteDim.
Import Proc DeleteDim.

Variable world : World.

Lemma destroyedIds_app (tr tr' : list Event) :
  destroyedIds (tr ++ tr') = destroyedIds tr ++ destroyedIds tr'.
Proof. apply flat_map_app. Qed.

(** The selection calls nothing, and with a valid id type it returns the
    requested dimensions after those it was given. *)
Lemma selectLoop_run (options : Options) (qItems : list Item)
      (masterItems : list string) (acc : list Item) (tr : list Event) :
  destroyedIds (snd (selectLoop options qItems masterItems acc tr)) = destroyedIds tr
  /\ match fst (selectLoop options qItems masterItems acc tr) with
     | Return items =>
         (idType options = "name"
          /\ items = acc ++ requestedItems true masterItems qItems)
         \/ (idType options = "id"
             /\ items = acc ++ requestedItems false masterItems qItems)
         \/ (masterItems = [] /\ items = acc)
     | Exit _ => False
     | Throw err => err = "Invalid --id-type value"
                    /\ idType options <> "name" /\ idType options <> "id"
     end.
Proof.
  revert acc tr. induction masterItems as [|m rest IH]; intros acc tr.
  - cbn. split; [reflexivity|]. right. right. split; reflexivity.
  - cbn [selectLoop].
    destruct (String.eqb_spec (idType options) "name") as [En|En].
    + cbn zeta.
      assert (Hrest : forall acc' tr',
                 match fst (selectLoop options qItems rest acc' tr') with
                 | Return items => items = acc' ++ requestedItems true rest qItems
                 | Exit _ => False
                 | Throw _ => False
                 end).
      { intros acc' tr'. destruct (IH acc' tr') as [_ H].
        destruct (fst (selectLoop options qItems rest acc' tr')).
        - destruct H as [[_ H]|[[E _]|[-> ->]]]; [assumption| |].
          + rewrite En in E. discriminate.
          + cbn. now rewrite app_nil_r.
        - assumption.
        - destruct H as (_ & H & _). contradiction. }
      destruct (filter _ qItems) as [|i items] eqn:Ef.
      * cbn [List.length Z.of_nat Z.ltb Z.compare]. unfold bindT, emit.
        destruct (IH acc (tr ++ [WarnNotFound m])) as [Ht _].
        rewrite Ht, destroyedIds_app. cbn. rewrite app_nil_r.
        split; [reflexivity|].
        specialize (Hrest acc (tr ++ [WarnNotFound m])).
        destruct (fst (selectLoop options qItems rest acc (tr ++ [WarnNotFound m])));
          try contradiction.
        left. split; [assumption|]. cbn [requestedItems flat_map].
        cbn in Ef. rewrite Ef. exact Hrest.
      * assert (L : (0 <? Z.of_nat (List.length (i :: items))) = true).
        { apply Z.ltb_lt. cbn [List.length]. lia. }
        rewrite L.
        destruct (IH (acc ++ i :: items) tr) as [Ht _].
        split; [exact Ht|].
        specialize (Hrest (acc ++ i :: items) tr).
        destruct (fst (selectLoop options qItems rest (acc ++ i :: items) tr));
          try contradiction.
        left. split; [assumption|]. cbn [requestedItems flat_map].
        cbn in Ef. rewrite Ef, Hrest, <- app_assoc. reflexivity.
    + destruct (String.eqb_spec (idType options) "id") as [Ei|Ei].
      * cbn zeta.
        assert (Hrest : forall acc' tr',
                   match fst (selectLoop options qItems rest acc' tr') with
                   | Return items => items = acc' ++ requestedItems false rest qItems
                   | Exit _ => False
                   | Throw _ => False
                   end).
        { intros acc' tr'. destruct (IH acc' tr') as [_ H].
          destruct (fst (selectLoop options qItems rest acc' tr')).
          - destruct H as [[E _]|[[_ H]|[-> ->]]]; [contradiction|assumption|].
            cbn. now rewrite app_nil_r.
          - assumption.
          - destruct H as (_ & _ & H). contradiction. }
        destruct (filter _ qItems) as [|i items] eqn:Ef.
        -- cbn [List.length Z.of_nat Z.ltb Z.compare]. unfold bindT, emit.
           destruct (IH acc (tr ++ [WarnNotFound m])) as [Ht _].
           rewrite Ht, destroyedIds_app. cbn. rewrite app_nil_r.
           split; [reflexivity|].
           specialize (Hrest acc (tr ++ [WarnNotFound m])).
           destruct (fst (selectLoop options qItems rest acc (tr ++ [WarnNotFound m])));
             try contradiction.
           right. left. split; [assumption|]. cbn [requestedItems flat_map].
           cbn in Ef. rewrite Ef. exact Hrest.
        -- assert (L : (0 <? Z.of_nat (List.length (i :: items))) = true).
           { apply Z.ltb_lt. cbn [List.length]. lia. }
           rewrite L.
           destruct (IH (acc ++ i :: items) tr) as [Ht _].
           split; [exact Ht|].
           specialize (Hrest (acc ++ i :: items) tr).
           destruct (fst (selectLoop options qItems rest (acc ++ i :: items) tr));
             try contradiction.
           right. left. split; [assumption|]. cbn [requestedItems flat_map].
           cbn in Ef. rewrite Ef, Hrest, <- app_assoc. reflexivity.
      * cbn. split; [reflexivity|]. repeat split; assumption.
Qed.


Lemma requestedItems_In (byName : bool) (masterItems : list string)
      (qItems : list Item) (item : Item) :
  In item (requestedItems byName masterItems qItems) ->
  In item qItems
  /\ In (if byName then title item else qId item) masterItems.
Proof.
  unfold requestedItems. rewrite in_flat_map. intros [m [Hm Hi]].
  apply filter_In in Hi. destruct Hi as [Hi He].
  apply String.eqb_eq in He. subst m. split; assumption.
Qed.

Lemma selectItems_run (options : Options) (qItems : list Item) (tr : list Event) :
  destroyedIds (snd (selectItems options qItems tr)) = destroyedIds tr
  /\ match fst (selectItems options qItems tr) with
     | Return items =>
         items = selection options qItems
         /\ (deleteAll options = false ->
             forall masterItems, masterItem options = Some masterItems ->
             items <> [] -> idType options = "name" \/ idType options = "id")
     | Exit _ => False
     | Throw err =>
         err = "Invalid --id-type value"
         /\ idType options <> "name" /\ idType options <> "id"
     end.
Proof.
  unfold selectItems, selection.
  destruct (deleteAll options); [cbn; split; [reflexivity|]; split; [reflexivity|discriminate]|].
  destruct (masterItem options) as [masterItems|];
    [|cbn; split; [reflexivity|]; split; [reflexivity|discriminate]].
  destruct (selectLoop_run options qItems masterItems [] tr) as [Ht Hr].
  split; [exact Ht|].
  destruct (fst (selectLoop options qItems masterItems [] tr)); [|assumption..].
  cbn [app] in Hr.
  destruct Hr as [[E ->]|[[E ->]|[-> ->]]].
  - rewrite E. cbn. split; [reflexivity|]. intros _ ? _ _. now left.
  - destruct (String.eqb_spec (idType options) "name") as [En|_].
    + rewrite E in En. discriminate.
    + split; [reflexivity|]. intros _ ? _ _. now right.
  - cbn. split; [reflexivity|]. intros _ ? _ H. now contradiction H.
Qed.

Lemma deleteLoop_ids (options : Options) (items : list Item) (tr : list Event)
      (id : string) :
  In id (destroyedIds (snd (deleteLoop world options items tr))) ->
  In id (destroyedIds tr) \/ (dryRun options <> Some true /\ In id (map qId items)).
Proof.
  revert tr. induction items as [|item rest IH]; intros tr; cbn [deleteLoop].
  - cbn. tauto.
  - unfold bindT, emit, invokeAt.
    assert (Hreal : dryRun options <> Some true ->
                    forall e, destroyedIds [e] = [] ->
                              In id (destroyedIds
                                       (snd (deleteLoop world options rest
                                               ((tr ++ [DestroyDimension (qId item)])
                                                  ++ [e])))) ->
                    In id (destroyedIds tr)
                    \/ (dryRun options <> Some true /\ In id (map qId (item :: rest)))).
    { intros Hd e He H. apply IH in H. rewrite !destroyedIds_app, He in H.
      cbn in H. rewrite !in_app_iff in H. cbn in H. cbn [map In]. intuition. }
    assert (Hother : forall e, destroyedIds [e] = [] ->
                     In id (destroyedIds
                              (snd (deleteLoop world options rest (tr ++ [e])))) ->
                     In id (destroyedIds tr)
                     \/ (dryRun options <> Some true /\ In id (map qId (item :: rest)))).
    { intros e He H. apply IH in H. rewrite destroyedIds_app, He, app_nil_r in H.
      cbn [map In]. intuition. }
    destruct (dryRun options) as [[|]|] eqn:Ed.
    + apply Hother. reflexivity.
    + destruct (destroyDimension world _ (qId item)) as [[|]| |]; cbn [negb snd];
        try (apply Hreal; [discriminate|reflexivity]);
        rewrite destroyedIds_app; cbn; rewrite in_app_iff; cbn;
        (intros [H|[H|[]]]; [now left|right; split; [discriminate|now left]]).
    + destruct (destroyDimension world _ (qId item)) as [[|]| |]; cbn [negb snd];
        try (apply Hreal; [discriminate|reflexivity]);
        rewrite destroyedIds_app; cbn; rewrite in_app_iff; cbn;
        (intros [H|[H|[]]]; [now left|right; split; [discriminate|now left]]).
Qed.

Lemma deleteLoop_all (options : Options) (items : list Item) (tr : list Event) :
  dryRun options <> Some true ->
  (forall tr id, exists res, destroyDimension world tr id = Return res) ->
  fst (deleteLoop world options items tr) = Return tt
  /\ destroyedIds (snd (deleteLoop world options items tr))
     = destroyedIds tr ++ map qId items.
Proof.
  intros Hd Hw. revert tr. induction items as [|item rest IH]; intros tr;
    cbn [deleteLoop].
  - cbn. now rewrite app_nil_r.
  - unfold bindT, emit, invokeAt.
    assert (Hreal : forall e, destroyedIds [e] = [] ->
              fst (deleteLoop world options rest
                     ((tr ++ [DestroyDimension (qId item)]) ++ [e])) = Return tt
              /\ destroyedIds (snd (deleteLoop world options rest
                                      ((tr ++ [DestroyDimension (qId item)]) ++ [e])))
                 = destroyedIds tr ++ map qId (item :: rest)).
    { intros e He. destruct (IH ((tr ++ [DestroyDimension (qId item)]) ++ [e]))
        as [H1 H2]. split; [exact H1|]. rewrite H2, !destroyedIds_app, He.
      cbn. now rewrite app_nil_r, <- app_assoc. }
    destruct (dryRun options) as [[|]|] eqn:Ed; [congruence| |];
      destruct (Hw (tr ++ [DestroyDimension (qId item)]) (qId item)) as [res ->];
      destruct res; cbn [negb]; apply Hreal; reflexivity.
Qed.


Lemma deleteSelected_ids (options : Options) (qItems : list Item)
      (tr : list Event) (id : string) :
  In id (destroyedIds (snd (deleteSelected world options qItems tr))) ->
  In id (destroyedIds tr)
  \/ (dryRun options <> Some true
      /\ In id (map qId (selection options qItems))
      /\ (deleteAll options = false ->
          forall masterItems, masterItem options = Some masterItems ->
          idType options = "name" \/ idType options = "id")).
Proof.
  unfold deleteSelected, bindT.
  destruct (selectItems_run options qItems tr) as [Ht Hr].
  destruct (selectItems options qItems tr) as [[items| |] tr1];
    cbn [fst snd] in Ht, Hr; cbn [snd]; rewrite <- Ht; try tauto.
  destruct Hr as [-> Hv].
  destruct (selection options qItems) as [|item items] eqn:Es.
  - cbn. rewrite destroyedIds_app. cbn. rewrite app_nil_r. tauto.
  - replace (Z.of_nat (List.length (item :: items)) =? 0) with false
      by (symmetry; apply Z.eqb_neq; cbn [List.length]; lia).
    intros H. apply deleteLoop_ids in H. destruct H as [H|[Hd H]]; [now left|].
    right. split; [assumption|]. split; [assumption|].
    intros Ha masterItems Hm. apply (Hv Ha masterItems Hm). discriminate.
Qed.

Lemma deleteSelected_all (options : Options) (qItems : list Item)
      (tr : list Event) :
  dryRun options <> Some true ->
  (forall tr id, exists res, destroyDimension world tr id = Return res) ->
  idType options = "name" \/ idType options = "id" ->
  fst (deleteSelected world options qItems tr) = Return tt
  /\ destroyedIds (snd (deleteSelected world options qItems tr))
     = destroyedIds tr ++ map qId (selection options qItems).
Proof.
  intros Hd Hw Hv. unfold deleteSelected, bindT.
  destruct (selectItems_run options qItems tr) as [Ht Hr].
  destruct (selectItems options qItems tr) as [[items| |] tr1];
    cbn [fst snd] in Ht, Hr; [|contradiction|exfalso; tauto].
  destruct Hr as [-> _]. rewrite <- Ht.
  destruct (selection options qItems) as [|item items] eqn:Es.
  - cbn. rewrite destroyedIds_app. cbn. now rewrite !app_nil_r.
  - replace (Z.of_nat (List.length (item :: items)) =? 0) with false
      by (symmetry; apply Z.eqb_neq; cbn [List.length]; lia).
    now apply deleteLoop_all.
Qed.

Lemma deleteSelected_invalid (options : Options) (qItems : list Item)
      (tr : list Event) (masterItem1 : string) (more : list string) :
  deleteAll options = false ->
  masterItem options = Some (masterItem1 :: more) ->
  idType options <> "name" ->
  idType options <> "id" ->
  deleteSelected world options qItems tr = (Throw "Invalid --id-type value", tr).
Proof.
  intros Ha Hm Hn Hi. unfold deleteSelected, selectItems, bindT.
  rewrite Ha, Hm. cbn [selectLoop].
  destruct (String.eqb_spec (idType options) "name"); [contradiction|].
  destruct (String.eqb_spec (idType options) "id"); [contradiction|].
  reflexivity.
Qed.

Ltac session_cases :=
  unfold run, deleteMasterDimension, catchLog;
  unfold tryCatch, bindT, call, invoke, invokeThen, emit, ret, exit, throw;
  repeat match goal with
         | |- context [match createSession world with _ => _ end] =>
             destruct (createSession world)
         | |- context [match addTrafficLogging world with _ => _ end] =>
             destruct (addTrafficLogging world)
         | |- context [match openSession world with _ => _ end] =>
             destruct (openSession world)
         | |- context [match engineVersion world with _ => _ end] =>
             destruct (engineVersion world)
         | |- context [match openDoc world ?a with _ => _ end] =>
             destruct (openDoc world a)
         | |- context [match getDimensionList world with _ => _ end] =>
             destruct (getDimensionList world) as [qItems| |]
         end; cbn [app snd fst].

(** X20: in a dry run [app.destroyDimension] is not called. *)
Theorem dry_run_destroys_nothing (options : Options) :
  dryRun options = Some true ->
  destroyedIds (snd (run (deleteMasterDimension world options))) = [].
Proof.
  intros Hd.
  assert (Hsel : forall qItems, destroyedIds
                                  (snd (deleteSelected world options qItems
                                        [LogInfo "Delete master dimensions"])) = []).
  { intros qItems.
    destruct (destroyedIds (snd (deleteSelected world options qItems
                                        [LogInfo "Delete master dimensions"])))
      as [|id ids] eqn:E; [reflexivity|].
    destruct (deleteSelected_ids options qItems [LogInfo "Delete master dimensions"] id) as [[]|[H _]].
    - rewrite E. now left.
    - contradiction. }
  session_cases; try reflexivity.
  specialize (Hsel qItems).
  destruct (deleteSelected world options qItems
                                        [LogInfo "Delete master dimensions"]) as [[[]| |] tr1];
    cbn [snd] in Hsel; cbn [snd fst];
    repeat (match goal with
            | |- context [destroySessionObject world] =>
                destruct (destroySessionObject world) as [[|]| |]
            | |- context [closeSession world] =>
                destruct (closeSession world) as [[|]| |]
            end; cbn [snd fst app]);
    rewrite ?destroyedIds_app, Hsel; reflexivity.
Qed.

(** X21: every dimension for which [app.destroyDimension] is called is a
    dimension of the app, and when names or ids were given (and not
    the option to delete all) it is one whose name, or id, was given. *)
Theorem destroyed_dimensions_were_requested (options : Options) (id : string) :
  In id (destroyedIds (snd (run (deleteMasterDimension world options)))) ->
  exists qItems item,
    getDimensionList world = Return qItems
    /\ In item qItems
    /\ qId item = id
    /\ (deleteAll options = false ->
        forall masterItems, masterItem options = Some masterItems ->
        (idType options = "name" /\ In (title item) masterItems)
        \/ (idType options = "id" /\ In (qId item) masterItems)).
Proof.
  assert (Hsel : forall qItems,
             In id (destroyedIds (snd (deleteSelected world options qItems
                                        [LogInfo "Delete master dimensions"]))) ->
             exists item,
               In item qItems /\ qId item = id
               /\ (deleteAll options = false ->
                   forall masterItems, masterItem options = Some masterItems ->
                   (idType options = "name" /\ In (title item) masterItems)
                   \/ (idType options = "id" /\ In (qId item) masterItems))).
  { intros qItems H. apply deleteSelected_ids in H.
    destruct H as [[]|(_ & H & Hv)].
    apply in_map_iff in H. destruct H as [item [Hid Hin]]. exists item.
    unfold selection in Hin.
    destruct (deleteAll options) eqn:Ea.
    { split; [assumption|]. split; [assumption|]. discriminate. }
    destruct (masterItem options) as [masterItems|] eqn:Em.
    2:{ split; [assumption|]. split; [assumption|]. discriminate. }
    apply requestedItems_In in Hin. destruct Hin as [Hin Hreq].
    split; [assumption|]. split; [assumption|].
    intros _ ? [= <-].
    destruct (Hv eq_refl _ eq_refl) as [E|E]; rewrite E in Hreq |- *; cbn in Hreq.
    - left. now split.
    - right. now split. }
  session_cases; try contradiction.
  specialize (Hsel qItems).
  destruct (deleteSelected world options qItems
                                        [LogInfo "Delete master dimensions"]) as [[[]| |] tr1];
    cbn [snd] in Hsel; cbn [snd fst];
    repeat (match goal with
            | |- context [destroySessionObject world] =>
                destruct (destroySessionObject world) as [[|]| |]
            | |- context [closeSession world] =>
                destruct (closeSession world) as [[|]| |]
            end; cbn [snd fst app]);
    rewrite ?destroyedIds_app; cbn; rewrite ?app_nil_r;
    intros H; exists qItems; destruct (Hsel H) as [item Hitem]; exists item;
    (split; [reflexivity|exact Hitem]).
Qed.

(** X22: when the engine answers every call and the run is no dry run,
    [app.destroyDimension] is called once for every selected dimension,
    in the order of the selection: for all dimensions of the app, or for
    each given name or id in turn for the dimensions it matches, so that a
    name given twice has its dimensions destroyed twice. *)
Theorem selected_dimensions_are_destroyed_in_order
        (options : Options) (qItems : list Item) (destroyed closed : bool) :
  createSession world = Return tt ->
  addTrafficLogging world = Return tt ->
  openSession world = Return tt ->
  engineVersion world = Return tt ->
  openDoc world (appId options) = Return tt ->
  getDimensionList world = Return qItems ->
  (forall tr id, exists res, destroyDimension world tr id = Return res) ->
  destroySessionObject world = Return destroyed ->
  closeSession world = Return closed ->
  dryRun options <> Some true ->
  idType options = "name" \/ idType options = "id" ->
  fst (run (deleteMasterDimension world options)) = Return tt
  /\ destroyedIds (snd (run (deleteMasterDimension world options)))
     = map qId (selection options qItems).
Proof.
  intros H1 H2 H3 H4 H5 H6 Hw H7 H8 Hd Hv.
  unfold run, deleteMasterDimension, catchLog.
  unfold tryCatch, bindT, call, invoke, invokeThen, emit, ret, exit, throw.
  rewrite H1, H2, H3, H4, H5, H6. cbn [app].
  destruct (deleteSelected_all options qItems
              [LogInfo "Delete master dimensions"] Hd Hw Hv) as [Hr Ht].
  cbn [destroyedIds flat_map app] in Ht.
  destruct (deleteSelected world options qItems
                                        [LogInfo "Delete master dimensions"]) as [r tr1].
  cbn [fst snd] in Hr, Ht. subst r. rewrite H7, H8.
  destruct destroyed, closed; cbn [fst snd]; rewrite ?destroyedIds_app, Ht;
    cbn; rewrite ?app_nil_r; split; reflexivity.
Qed.

(** X23: with names or ids given and an id type that is neither 'name'
    nor 'id', the run deletes nothing: after the entry 'Delete master
    dimensions' that every run writes at level info, the log gets the
    exception as an entry at level error, and the function returns. *)
Theorem invalid_id_type_deletes_nothing
        (options : Options) (qItems : list Item)
        (masterItem1 : string) (more : list string) :
  createSession world = Return tt ->
  addTrafficLogging world = Return tt ->
  openSession world = Return tt ->
  engineVersion world = Return tt ->
  openDoc world (appId options) = Return tt ->
  getDimensionList world = Return qItems ->
  deleteAll options = false ->
  masterItem options = Some (masterItem1 :: more) ->
  idType options <> "name" ->
  idType options <> "id" ->
  run (deleteMasterDimension world options)
  = (Return tt,
     [LogInfo "Delete master dimensions";
      LogError "Error in deleteMasterDimension: Invalid --id-type value"]).
Proof.
  intros H1 H2 H3 H4 H5 H6 Ha Hm Hn Hi.
  unfold run, deleteMasterDimension, catchLog.
  unfold tryCatch, bindT, call, invoke, invokeThen, emit, ret, exit, throw.
  rewrite H1, H2, H3, H4, H5, H6. cbn [app].
  rewrite (deleteSelected_invalid options qItems [LogInfo "Delete master dimensions"]
             masterItem1 more Ha Hm Hn Hi).
  reflexivity.
Qed.

End MoreDeleteDim.

(** ** Sorting *)

Section Sorting.

Variables (A : Type) (compare : A -> A -> Z) (le : A -> A -> Prop).

Lemma insertSorted_filter_length (p : A -> bool) (x : A) (l : list A) :
  List.length (filter p (Js.insertSorted compare x l))
  = List.length (filter p (x :: l)).
Proof.
  induction l as [|y r IH]; cbn [Js.insertSorted]; [reflexivity|].
  destruct (compare x y <=? 0); [reflexivity|].
  cbn [filter] in *. destruct (p y), (p x); cbn [List.length] in *; lia.
Qed.

Lemma sort_filter_length (p : A -> bool) (l : list A) :
  List.length (filter p (Js.sort compare l)) = List.length (filter p l).
Proof.
  induction l as [|x r IH]; [reflexivity|].
  unfold Js.sort in *. cbn [fold_right]. rewrite insertSorted_filter_length.
  cbn [filter]. destruct (p x); cbn [List.length]; now rewrite IH.
Qed.

Lemma insertSorted_Forall (P : A -> Prop) (x : A) (l : list A) :
  P x -> Forall P l -> Forall P (Js.insertSorted compare x l).
Proof.
  intros Hx Hl. induction Hl as [|y r Hy Hr IH]; cbn [Js.insertSorted].
  - now repeat constructor.
  - destruct (compare x y <=? 0); now repeat constructor.
Qed.

Hypothesis compare_le : forall x y, (compare x y <=? 0) = true <-> le x y.
Hypothesis le_total : forall x y, le x y \/ le y x.
Hypothesis le_trans : forall x y z, le x y -> le y z -> le x z.

Lemma insertSorted_sorted (x : A) (l : list A) :
  StronglySorted le l -> StronglySorted le (Js.insertSorted compare x l).
Proof.
  intros Hl. induction Hl as [|y r Hr IH Hy]; cbn [Js.insertSorted].
  - repeat constructor.
  - destruct (compare x y <=? 0) eqn:E.
    + apply compare_le in E. constructor; [now constructor|].
      constructor; [assumption|].
      eapply Forall_impl; [|exact Hy]. intros z Hz. now apply (le_trans x y z).
    + constructor; [assumption|].
      apply insertSorted_Forall; [|assumption].
      destruct (le_total x y) as [H|H]; [|assumption].
      apply compare_le in H. congruence.
Qed.

Lemma sort_sorted (l : list A) : StronglySorted le (Js.sort compare l).
Proof.
  induction l as [|x r IH]; [constructor|].
  unfold Js.sort in *. cbn [fold_right]. now apply insertSorted_sorted.
Qed.

Lemma filter_sorted (p : A -> bool) (l : list A) :
  StronglySorted le l -> StronglySorted le (filter p l).
Proof.
  intros Hl. induction Hl as [|y r Hr IH Hy]; cbn [filter]; [constructor|].
  destruct (p y); [|assumption]. constructor; [assumption|].
  apply Forall_forall. intros z Hz. apply filter_In in Hz.
  rewrite Forall_forall in Hy. now apply Hy.
Qed.

End Sorting.

(** ** The order of strings *)

Section StringOrder.

Lemma ascii_compare_lt_trans (a b c : ascii) :
  Ascii.compare a b = Lt -> Ascii.compare b c = Lt -> Ascii.compare a c = Lt.
Proof.
  unfold Ascii.compare. rewrite !N.compare_lt_iff. apply N.lt_trans.
Qed.

Lemma string_compare_lt_trans (s1 s2 s3 : string) :
  String.compare s1 s2 = Lt -> String.compare s2 s3 = Lt ->
  String.compare s1 s3 = Lt.
Proof.
  revert s2 s3. induction s1 as [|a s1 IH]; intros [|b s2] [|c s3]; cbn;
    try discriminate; try reflexivity.
  destruct (Ascii.compare a b) eqn:Eab; try discriminate;
    destruct (Ascii.compare b c) eqn:Ebc; try discriminate.
  - apply Ascii.compare_eq_iff in Eab, Ebc. subst.
    replace (Ascii.compare c c) with Eq; [apply IH|].
    symmetry. unfold Ascii.compare. apply N.compare_refl.
  - apply Ascii.compare_eq_iff in Eab. subst. now rewrite Ebc.
  - apply Ascii.compare_eq_iff in Ebc. subst. now rewrite Eab.
  - now rewrite (ascii_compare_lt_trans a b c Eab Ebc).
Qed.

Lemma string_leb_trans (s1 s2 s3 : string) :
  String.leb s1 s2 = true -> String.leb s2 s3 = true -> String.leb s1 s3 = true.
Proof.
  unfold String.leb.
  destruct (String.compare s1 s2) eqn:E12; try discriminate;
    destruct (String.compare s2 s3) eqn:E23; try discriminate; intros _ _.
  - apply String.compare_eq_iff in E12. subst. now rewrite E23.
  - apply String.compare_eq_iff in E12. subst. now rewrite E23.
  - apply String.compare_eq_iff in E23. subst. now rewrite E12.
  - now rewrite (string_compare_lt_trans s1 s2 s3 E12 E23).
Qed.



End StringOrder.

(** ** The task table *)

Section MoreTaskTable.
Import GetTask TaskTable.

Variables mapEventType mapIncrementOption mapDaylightSavingTime mapRuleState
  : Js.prim -> Js.prim.

Ltac show_cases show :=
  destruct show as [[|] [|] [|] [|] [|] [|]]; cbn; try reflexivity; try discriminate.

Lemma selected_schemaPath (options : Options) (task : Task) :
  selected options task = true ->
  schemaPath task = Js.PStr "ReloadTask"
  \/ schemaPath task = Js.PStr "ExternalProgramTask".
Proof.
  unfold selected. rewrite orb_true_iff, !andb_true_iff.
  intros [[_ H]|[_ H]]; destruct (schemaPath task) as [| | | | |s]; cbn in H;
    try discriminate; apply String.eqb_eq in H; subst s; tauto.
Qed.

Lemma taskRow_width (options : Options) (show : ColumnBlockShow)
      (taskCount : Z) (task : Task) :
  (completeDetails options = true -> schematrigger show = true) ->
  selected options task = true ->
  List.length (taskRow options show taskCount task) = List.length (headerRow show).
Proof.
  intros Hc Hs. unfold taskRow.
  destruct (selected_schemaPath _ _ Hs) as [-> | ->]; cbn [Js.strictEq String.eqb Ascii.eqb Bool.eqb];
    destruct (completeDetails options);
    try (specialize (Hc eq_refl)); show_cases show.
Qed.

Lemma schemaEventRow_width (show : ColumnBlockShow) (taskCount eventCount : Z)
      (event : SchemaEvent.t) :
  schematrigger show = true ->
  List.length (schemaEventRow mapEventType mapIncrementOption
                 mapDaylightSavingTime show taskCount eventCount event)
  = List.length (headerRow show).
Proof. unfold schemaEventRow. show_cases show. Qed.

Lemma compositeEventRow_width (show : ColumnBlockShow) (taskCount eventCount : Z)
      (event : CompositeEvent.t) :
  compositetrigger show = true ->
  List.length (compositeEventRow mapEventType show taskCount eventCount event)
  = List.length (headerRow show).
Proof. unfold compositeEventRow. show_cases show. Qed.

Lemma ruleRow_width (show : ColumnBlockShow) (taskCount eventCount ruleCount : Z)
      (rule : CompositeRule.t) :
  compositetrigger show = true ->
  refersToTask rule ->
  List.length (ruleRow mapRuleState show taskCount eventCount ruleCount rule)
  = List.length (headerRow show).
Proof.
  intros Hk [Hr|Hr]; unfold ruleRow;
    destruct (CompositeRule.reloadTask rule), (CompositeRule.externalProgramTask rule);
    try congruence; revert Hk; show_cases show.
Qed.


Lemma schemaEventRows_width (show : ColumnBlockShow) (taskCount eventCount : Z)
      (events : list SchemaEvent.t) :
  schematrigger show = true ->
  Forall (fun row => List.length row = List.length (headerRow show))
         (fst (schemaEventRows mapEventType mapIncrementOption
                 mapDaylightSavingTime show taskCount eventCount events)).
Proof.
  intros Hs. revert eventCount.
  induction events as [|event rest IH]; intros eventCount; cbn [schemaEventRows].
  - constructor.
  - specialize (IH (eventCount + 1)).
    destruct (schemaEventRows _ _ _ show taskCount (eventCount + 1) rest).
    cbn [fst] in *. constructor; [now apply schemaEventRow_width|assumption].
Qed.

Lemma ruleRows_width (show : ColumnBlockShow) (taskCount eventCount ruleCount : Z)
      (rules : list CompositeRule.t) :
  compositetrigger show = true ->
  Forall refersToTask rules ->
  Forall (fun row => List.length row = List.length (headerRow show))
         (ruleRows mapRuleState show taskCount eventCount ruleCount rules).
Proof.
  intros Hk Hr. revert ruleCount.
  induction Hr as [|rule rest Hrule _ IH]; intros ruleCount; cbn [ruleRows];
    constructor; [now apply ruleRow_width|apply IH].
Qed.

Lemma compositeEventRows_width (show : ColumnBlockShow) (taskCount eventCount : Z)
      (events : list CompositeEvent.t) :
  compositetrigger show = true ->
  Forall (fun event => Forall refersToTask (CompositeEvent.compositeRules event))
         events ->
  Forall (fun row => List.length row = List.length (headerRow show))
         (compositeEventRows mapEventType mapRuleState show taskCount eventCount
                             events).
Proof.
  intros Hk Hr. revert eventCount.
  induction Hr as [|event rest Hrules _ IH]; intros eventCount;
    cbn [compositeEventRows]; constructor.
  - now apply compositeEventRow_width.
  - apply Forall_app. split; [now apply ruleRows_width|apply IH].
Qed.

Lemma filter_Forall {A : Type} (P : A -> Prop) (f : A -> bool) (l : list A) :
  Forall P l -> Forall P (filter f l).
Proof.
  intros H. apply Forall_forall. intros x Hx. apply filter_In in Hx.
  rewrite Forall_forall in H. now apply H.
Qed.

Lemma taskRows_width (options : Options) (show : ColumnBlockShow)
      (schemaEventList : list SchemaEvent.t)
      (compositeEventList : list CompositeEvent.t)
      (tasks : list Task) (taskCount : Z) :
  (completeDetails options = true -> schematrigger show = true) ->
  Forall (fun event => Forall refersToTask (CompositeEvent.compositeRules event))
         compositeEventList ->
  Forall (fun row => List.length row = List.length (headerRow show))
         (taskRows mapEventType mapIncrementOption mapDaylightSavingTime
                   mapRuleState options show schemaEventList compositeEventList
                   tasks taskCount).
Proof.
  intros Hc Hr. revert taskCount.
  induction tasks as [|task rest IH]; intros taskCount; cbn [taskRows].
  - constructor.
  - destruct (selected options task) eqn:Hs; [|apply IH].
    assert (H1 : Forall (fun row => List.length row = List.length (headerRow show))
                   (fst (if schematrigger show
                         then schemaEventRows mapEventType mapIncrementOption
                                mapDaylightSavingTime show taskCount 1
                                (schemaEventsForThisTask schemaEventList task)
                         else ([], 1)))).
    { destruct (schematrigger show) eqn:Es; [|constructor].
      now apply schemaEventRows_width. }
    destruct (if schematrigger show then _ else _) as [schemaRows eventCount].
    cbn [fst] in H1. constructor; [now apply taskRow_width|].
    apply Forall_app. split; [exact H1|]. apply Forall_app. split; [|apply IH].
    destruct (compositetrigger show) eqn:Ek; [|constructor].
    apply compositeEventRows_width; [assumption|].
    now apply filter_Forall.
Qed.

(** X24: the task table is rectangular: when every rule of the composite
    events refers to a reload task or to an external program task, every
    row of the table, for a task, an event or a rule, has as many cells
    as the header row, whatever column blocks were requested. *)
Theorem task_table_rows_have_header_width
        (options : Options) (tasks : list Task)
        (schemaEventList : list SchemaEvent.t)
        (compositeEventList : list CompositeEvent.t) :
  Forall (fun event => Forall refersToTask (CompositeEvent.compositeRules event))
         compositeEventList ->
  Forall (fun row =>
            List.length row
            = List.length (headerRow (columnBlockShow (tableDetails options))))
         (taskTable mapEventType mapIncrementOption mapDaylightSavingTime
                    mapRuleState options tasks schemaEventList compositeEventList).
Proof.
  intros Hr. unfold taskTable. cbn zeta. constructor.
  - apply length_map.
  - apply taskRows_width; [|assumption].
    unfold completeDetails, columnBlockShow.
    destruct (tableDetails options); cbn; congruence.
Qed.


(** [compareTable] puts [a] before [b], or leaves them as they are,
    exactly when the key of [a] is not after the key of [b]. *)
Lemma compareTable_leb (a b : Task) :
  (compareTable a b <=? 0) = true <-> Js.leStr (sortKey a) (sortKey b) = true.
Proof.
  unfold compareTable, Js.ltStr, Js.leStr, String.ltb, String.leb.
  rewrite (String.compare_antisym (Js.codeUnitKey (sortKey b))
                                  (Js.codeUnitKey (sortKey a))).
  destruct (String.compare (Js.codeUnitKey (sortKey a))
                           (Js.codeUnitKey (sortKey b)));
    cbn; split; congruence.
Qed.

Lemma sorted_tasks (tasks : list Task) :
  StronglySorted (fun a b => Js.leStr (sortKey a) (sortKey b) = true)
                 (Js.sort compareTable tasks).
Proof.
  apply sort_sorted.
  - apply compareTable_leb.
  - intros a b. apply String.leb_total.
  - intros a b c. apply string_leb_trans.
Qed.


Lemma hasType_of_event_row (type : string) (c : Z) (cells : list Js.prim) :
  type <> "" ->
  hasType type (Js.PNum c :: Js.PStr "" :: cells) = false.
Proof.
  intros Ht. unfold hasType, Js.index.
  change (1 <? 0) with false. change (Z.to_nat 1) with 1%nat.
  cbn [nth Js.strictEq].
  destruct (String.eqb_spec "" type); [congruence|reflexivity].
Qed.

Lemma schemaEventRows_no_task_row (show : ColumnBlockShow)
      (taskCount eventCount : Z) (events : list SchemaEvent.t) (type : string) :
  type <> "" ->
  filter (hasType type)
         (fst (schemaEventRows mapEventType mapIncrementOption
                 mapDaylightSavingTime show taskCount eventCount events)) = [].
Proof.
  intros Ht. revert eventCount.
  induction events as [|event rest IH]; intros eventCount; cbn [schemaEventRows].
  - reflexivity.
  - specialize (IH (eventCount + 1)).
    destruct (schemaEventRows _ _ _ show taskCount (eventCount + 1) rest).
    cbn [fst filter] in *. unfold schemaEventRow. cbn [app].
    now rewrite hasType_of_event_row.
Qed.

Lemma ruleRows_no_task_row (show : ColumnBlockShow)
      (taskCount eventCount ruleCount : Z) (rules : list CompositeRule.t)
      (type : string) :
  type <> "" ->
  filter (hasType type)
         (ruleRows mapRuleState show taskCount eventCount ruleCount rules) = [].
Proof.
  intros Ht. revert ruleCount.
  induction rules as [|rule rest IH]; intros ruleCount; cbn [ruleRows filter].
  - reflexivity.
  - unfold ruleRow. cbn [app]. rewrite hasType_of_event_row by assumption.
    apply IH.
Qed.

Lemma compositeEventRows_no_task_row (show : ColumnBlockShow)
      (taskCount eventCount : Z) (events : list CompositeEvent.t) (type : string) :
  type <> "" ->
  filter (hasType type)
         (compositeEventRows mapEventType mapRuleState show taskCount eventCount
                             events) = [].
Proof.
  intros Ht. revert eventCount.
  induction events as [|event rest IH]; intros eventCount;
    cbn [compositeEventRows filter].
  - reflexivity.
  - unfold compositeEventRow. cbn [app].
    rewrite hasType_of_event_row by assumption.
    rewrite filter_app, ruleRows_no_task_row by assumption. apply IH.
Qed.

Lemma taskRow_hasType (options : Options) (show : ColumnBlockShow)
      (taskCount : Z) (task : Task) (type schema : string) :
  selected options task = true ->
  (type = "Reload" /\ schema = "ReloadTask")
  \/ (type = "External program" /\ schema = "ExternalProgramTask") ->
  hasType type (taskRow options show taskCount task)
  = Js.strictEq (schemaPath task) (Js.PStr schema).
Proof.
  intros Hs Ht. unfold hasType, taskRow.
  destruct (selected_schemaPath _ _ Hs) as [-> | ->];
    destruct Ht as [[-> ->]|[-> ->]]; reflexivity.
Qed.

Lemma taskRows_of_type (options : Options) (show : ColumnBlockShow)
      (schemaEventList : list SchemaEvent.t)
      (compositeEventList : list CompositeEvent.t)
      (tasks : list Task) (taskCount : Z) (type schema : string) :
  (type = "Reload" /\ schema = "ReloadTask")
  \/ (type = "External program" /\ schema = "ExternalProgramTask") ->
  List.length
    (filter (hasType type)
            (taskRows mapEventType mapIncrementOption mapDaylightSavingTime
                      mapRuleState options show schemaEventList
                      compositeEventList tasks taskCount))
  = List.length
      (filter (fun task => selected options task
                           && Js.strictEq (schemaPath task) (Js.PStr schema))
              tasks).
Proof.
  intros Ht.
  assert (Hne : type <> "") by (destruct Ht as [[-> _]|[-> _]]; discriminate).
  revert taskCount.
  induction tasks as [|task rest IH]; intros taskCount; cbn [taskRows filter].
  - reflexivity.
  - destruct (selected options task) eqn:Hs; cbn [andb]; [|apply IH].
    pose proof (schemaEventRows_no_task_row show taskCount 1
                  (schemaEventsForThisTask schemaEventList task) type Hne) as H1.
    destruct (schematrigger show);
      [destruct (schemaEventRows _ _ _ show taskCount 1 _) as [schemaRows eventCount]
      |]; cbn [fst] in H1; cbn [filter];
      rewrite (taskRow_hasType _ _ _ _ _ _ Hs Ht), !filter_app;
      [rewrite H1|]; cbn [app filter];
      (replace (filter (hasType type) (if compositetrigger show then _ else _))
         with (@nil (list Js.prim))
        by (destruct (compositetrigger show);
            [now rewrite compositeEventRows_no_task_row|reflexivity]));
      cbn [app]; destruct (Js.strictEq (schemaPath task) (Js.PStr schema));
      cbn [List.length]; now rewrite IH.
Qed.

Lemma taskRows_task_rows (options : Options) (show : ColumnBlockShow)
      (schemaEventList : list SchemaEvent.t)
      (compositeEventList : list CompositeEvent.t)
      (tasks : list Task) (taskCount : Z) :
  filter isTaskRow
         (taskRows mapEventType mapIncrementOption mapDaylightSavingTime
                   mapRuleState options show schemaEventList compositeEventList
                   tasks taskCount)
  = numbered options show taskCount (filter (selected options) tasks).
Proof.
  assert (Hno : forall rows,
             filter (hasType "Reload") rows = [] ->
             filter (hasType "External program") rows = [] ->
             filter isTaskRow rows = []).
  { induction rows as [|row rows IH]; cbn [filter]; [reflexivity|].
    unfold isTaskRow at 1.
    destruct (hasType "Reload" row); [discriminate|].
    destruct (hasType "External program" row); [discriminate|]. exact IH. }
  revert taskCount.
  induction tasks as [|task rest IH]; intros taskCount; cbn [taskRows filter].
  - reflexivity.
  - destruct (selected options task) eqn:Hs; [|apply IH].
    cbn [numbered].
    assert (H1 : filter isTaskRow
                   (fst (if schematrigger show
                         then schemaEventRows mapEventType mapIncrementOption
                                mapDaylightSavingTime show taskCount 1
                                (schemaEventsForThisTask schemaEventList task)
                         else ([], 1))) = []).
    { destruct (schematrigger show); [|reflexivity].
      apply Hno; apply schemaEventRows_no_task_row; discriminate. }
    destruct (if schematrigger show then _ else _) as [schemaRows eventCount].
    cbn [fst] in H1. cbn [filter].
    replace (isTaskRow (taskRow options show taskCount task)) with true.
    2:{ unfold isTaskRow.
        rewrite (taskRow_hasType options show taskCount task "Reload" "ReloadTask"),
          (taskRow_hasType options show taskCount task "External program"
             "ExternalProgramTask") by tauto.
        destruct (selected_schemaPath _ _ Hs) as [-> | ->]; reflexivity. }
    rewrite !filter_app, H1. cbn [app].
    replace (filter isTaskRow (if compositetrigger show then _ else _))
      with (@nil (list Js.prim)).
    2:{ destruct (compositetrigger show); [|reflexivity]. symmetry.
        apply Hno; apply compositeEventRows_no_task_row; discriminate. }
    cbn [app]. now rewrite IH.
Qed.

Lemma header_is_no_task_row (show : ColumnBlockShow) (type : string) :
  type <> "Task type" ->
  hasType type (map Js.PStr (headerRow show)) = false.
Proof.
  intros Ht. unfold hasType, Js.index, headerRow.
  change (1 <? 0) with false. change (Z.to_nat 1) with 1%nat.
  cbn [app map nth Js.strictEq].
  destruct (String.eqb_spec "Task type" type); [congruence|reflexivity].
Qed.

Lemma numbered_counters (options : Options) (show : ColumnBlockShow)
      (taskCount : Z) (tasks : list Task) :
  Forall (fun task => selected options task = true) tasks ->
  map (fun row => Js.index row 0) (numbered options show taskCount tasks)
  = map Js.PNum (countFrom taskCount (List.length tasks)).
Proof.
  intros H. revert taskCount.
  induction H as [|task rest Hs _ IH]; intros taskCount; cbn [numbered map
    List.length countFrom]; [reflexivity|].
  rewrite IH. f_equal. unfold taskRow.
  destruct (selected_schemaPath _ _ Hs) as [-> | ->]; reflexivity.
Qed.

(** X25: the task counter numbers the exported tasks: the rows of the
    tasks, which are the rows whose type cell is filled in, carry the
    counters 1, 2, ... up to the number of tasks of a requested type, in
    the order of the table. *)
Theorem task_counter_numbers_the_exported_tasks
        (options : Options) (tasks : list Task)
        (schemaEventList : list SchemaEvent.t)
        (compositeEventList : list CompositeEvent.t) :
  map (fun row => Js.index row 0)
      (filter isTaskRow
              (taskTable mapEventType mapIncrementOption mapDaylightSavingTime
                         mapRuleState options tasks schemaEventList
                         compositeEventList))
  = map Js.PNum
        (countFrom 1 (List.length (filter (selected options) tasks))).
Proof.
  unfold taskTable. cbn zeta. cbn [filter].
  unfold isTaskRow at 1. rewrite !header_is_no_task_row by discriminate.
  cbn [orb]. rewrite taskRows_task_rows, numbered_counters.
  - now rewrite sort_filter_length.
  - apply Forall_forall. intros task H. now apply filter_In in H.
Qed.


Lemma numbered_types (options : Options) (show : ColumnBlockShow)
      (taskCount : Z) (tasks : list Task) :
  Forall (fun task => selected options task = true) tasks ->
  map (fun row => Js.index row 1) (numbered options show taskCount tasks)
  = map (fun task =>
           if Js.strictEq (schemaPath task) (Js.PStr "ReloadTask")
           then Js.PStr "Reload" else Js.PStr "External program")
        tasks.
Proof.
  intros H. revert taskCount.
  induction H as [|task rest Hs _ IH]; intros taskCount; cbn [numbered map];
    [reflexivity|].
  rewrite IH. f_equal. unfold taskRow.
  destruct (selected_schemaPath _ _ Hs) as [-> | ->]; reflexivity.
Qed.

(** A reload task is not sorted before an external program task. *)
Lemma reload_after_external (a b : Task) :
  schemaPath a = Js.PStr "ReloadTask" ->
  schemaPath b = Js.PStr "ExternalProgramTask" ->
  Js.leStr (sortKey a) (sortKey b) = false.
Proof.
  intros Ha Hb. unfold sortKey. rewrite Ha, Hb. reflexivity.
Qed.

Lemma sorted_tasks_grouped (options : Options) (tasks : list Task) :
  StronglySorted (fun a b => Js.leStr (sortKey a) (sortKey b) = true) tasks ->
  Forall (fun task => selected options task = true) tasks ->
  map (fun task =>
         if Js.strictEq (schemaPath task) (Js.PStr "ReloadTask")
         then Js.PStr "Reload" else Js.PStr "External program")
      tasks
  = repeat (Js.PStr "External program")
           (List.length
              (filter (fun task => Js.strictEq (schemaPath task)
                                               (Js.PStr "ExternalProgramTask"))
                      tasks))
    ++ repeat (Js.PStr "Reload")
              (List.length
                 (filter (fun task => Js.strictEq (schemaPath task)
                                                  (Js.PStr "ReloadTask"))
                         tasks)).
Proof.
  intros Hsorted. induction Hsorted as [|a r Hr IH Ha]; intros Hsel.
  - reflexivity.
  - inversion Hsel as [|? ? Hsa Hsr]; subst. specialize (IH Hsr).
    cbn [map filter].
    destruct (selected_schemaPath _ _ Hsa) as [Ea|Ea]; rewrite Ea;
      cbn [Js.strictEq String.eqb Ascii.eqb Bool.eqb List.length repeat app].
    + assert (Hnone : filter (fun task => Js.strictEq (schemaPath task)
                                            (Js.PStr "ExternalProgramTask")) r = []).
      { assert (Hall : forall b, In b r ->
                         Js.strictEq (schemaPath b)
                                     (Js.PStr "ExternalProgramTask") = false).
        { intros b Hb. rewrite Forall_forall in Ha, Hsr.
          destruct (selected_schemaPath _ _ (Hsr b Hb)) as [Eb|Eb].
          - rewrite Eb. reflexivity.
          - specialize (Ha b Hb). cbn beta in Ha.
            rewrite (reload_after_external a b Ea Eb) in Ha. discriminate. }
        clear - Hall. induction r as [|b r IHr]; [reflexivity|]. cbn [filter].
        rewrite (Hall b (or_introl eq_refl)). apply IHr.
        intros c Hc. apply Hall. now right. }
      rewrite Hnone in IH |- *. cbn [List.length repeat app] in *.
      now rewrite IH.
    + now rewrite IH.
Qed.

Lemma filter_filter_selected (options : Options) (schema : string)
      (tasks : list Task) :
  filter (fun task => Js.strictEq (schemaPath task) (Js.PStr schema))
         (filter (selected options) tasks)
  = filter (fun task => selected options task
                        && Js.strictEq (schemaPath task) (Js.PStr schema))
           tasks.
Proof.
  induction tasks as [|task rest IH]; [reflexivity|]. cbn [filter].
  destruct (selected options task); cbn [filter andb]; now rewrite IH.
Qed.

(** X26: the tasks are exported grouped by type: in the order of the
    table the type cells of the task rows read 'External program' for
    every external program task of a requested type and then 'Reload' for
    every such reload task; the two tallies in the header of the table
    are the numbers of these tasks. *)
Theorem exported_tasks_are_grouped_by_type
        (options : Options) (tasks : list Task)
        (schemaEventList : list SchemaEvent.t)
        (compositeEventList : list CompositeEvent.t) :
  let table :=
    taskTable mapEventType mapIncrementOption mapDaylightSavingTime
              mapRuleState options tasks schemaEventList compositeEventList in
  let externalProgramTasks :=
    filter (fun task => selected options task
                        && Js.strictEq (schemaPath task)
                                       (Js.PStr "ExternalProgramTask"))
           tasks in
  let reloadTasks :=
    filter (fun task => selected options task
                        && Js.strictEq (schemaPath task) (Js.PStr "ReloadTask"))
           tasks in
  map (fun row => Js.index row 1) (filter isTaskRow table)
  = repeat (Js.PStr "External program") (List.length externalProgramTasks)
    ++ repeat (Js.PStr "Reload") (List.length reloadTasks)
  /\ List.length (filter (hasType "Reload") table) = List.length reloadTasks
  /\ List.length (filter (hasType "External program") table)
     = List.length externalProgramTasks.
Proof.
  cbn zeta. unfold taskTable. cbn zeta. cbn [filter].
  unfold isTaskRow at 1. rewrite !header_is_no_task_row by discriminate.
  cbn [orb]. split; [|split].
  - rewrite taskRows_task_rows, numbered_types.
    2:{ apply Forall_forall. intros task H. now apply filter_In in H. }
    rewrite (sorted_tasks_grouped options).
    + rewrite !filter_filter_selected, !sort_filter_length. reflexivity.
    + apply filter_sorted, sorted_tasks.
    + apply Forall_forall. intros task H. now apply filter_In in H.
  - rewrite (taskRows_of_type _ _ _ _ _ _ "Reload" "ReloadTask") by tauto.
    apply sort_filter_length.
  - rewrite (taskRows_of_type _ _ _ _ _ _ "External program"
               "ExternalProgramTask") by tauto.
    apply sort_filter_length.
Qed.






Variable world : World.

(** X28: an output file that exists is replaced by the task table only
    when overwriting was requested or the user, asked, has agreed; and
    when the table goes to the screen no file is written. *)
Theorem existing_table_file_needs_consent
        (options : Options) (tasks : list Task)
        (schemaEventList : list SchemaEvent.t)
        (compositeEventList : list CompositeEvent.t)
        (result : Proc.outcome bool) (trace : list Event)
        (fileName : string) (buffer : option Buffer) :
  Proc.run (parseTable mapEventType mapIncrementOption mapDaylightSavingTime
                       mapRuleState world options tasks schemaEventList
                       compositeEventList)
  = (result, trace) ->
  In (WriteFile fileName buffer) trace ->
  outputDest options = "file"
  /\ (verifyFileSystemExists world (outputFileName options) = Proc.Return true ->
      outputFileOverwrite options = false ->
      yesno world = Proc.Return true /\ In Asked trace).
Proof.
  intros Hrun Hin.
  unfold Proc.run, parseTable in Hrun. cbn zeta in Hrun.
  unfold Proc.bindT, Proc.call, Proc.invoke, Proc.emit, Proc.ret, Proc.exit in Hrun.
  destruct (String.eqb_spec (outputDest options) "screen") as [Es|Es].
  { inversion Hrun; subst. cbn in Hin. destruct Hin as [Hin|[]]. discriminate. }
  destruct (String.eqb_spec (outputDest options) "file") as [Ef|Ef].
  2:{ inversion Hrun; subst. destruct Hin. }
  split; [assumption|]. intros Hex Hov.
  rewrite Hex, Hov in Hrun. cbn [negb app] in Hrun.
  destruct (yesno world) as [[|]| |]; cbn [negb app] in Hrun.
  - split; [reflexivity|].
    destruct (writeFile world _ _); inversion Hrun; subst; cbn; tauto.
  - inversion Hrun; subst. cbn in Hin. destruct Hin as [Hin|[]]. discriminate.
  - inversion Hrun; subst. cbn in Hin. destruct Hin as [Hin|[]]. discriminate.
  - inversion Hrun; subst. cbn in Hin. destruct Hin as [Hin|[]]. discriminate.
Qed.

End MoreTaskTable.

(** ** The further properties on the examples *)

Section MoreOnExamples.
Import Proc Lookups ImportTask.

(** X1 on a cell "3" of the column "Task retries" of an exported file. *)
Lemma non_negative_cell_coercion_witness :
  let context := {| CsvParse.Context.lines := 2; CsvParse.Context.column := 6 |} in
  (Js.trim "3" = "" ->
   cast Globals.isNumeric MoreExamples.exportedColHeaders "3" context
   = Return (Js.PStr ""))
  /\ (forall n, Globals.isNumeric "3" = true -> Js.parseIntStr "3" = Js.PNum n ->
                0 <= n ->
                cast Globals.isNumeric MoreExamples.exportedColHeaders "3" context
                = Return (Js.PNum n))
  /\ (forall n, Js.parseIntStr "3" = Js.PNum n -> n < 0 ->
                cast Globals.isNumeric MoreExamples.exportedColHeaders "3" context
                = Exit 1)
  /\ (forall v, cast Globals.isNumeric MoreExamples.exportedColHeaders "3" context
                = Return v ->
                (v = Js.PStr "" /\ Js.trim "3" = "")
                \/ (exists n, v = Js.PNum n /\ 0 <= n
                              /\ Globals.isNumeric "3" = true)).
Proof.
  apply (non_negative_cell_coercion Globals.isNumeric
           MoreExamples.exportedColHeaders "3"
           {| CsvParse.Context.lines := 2; CsvParse.Context.column := 6 |}).
  - discriminate.
  - vm_compute. tauto.
  - discriminate.
  - vm_compute. intuition discriminate.
  - vm_compute. intuition discriminate.
Defined.

(** X2 on a cell "7" of the column "Task counter". *)
Lemma task_counter_cell_coercion_witness :
  let context := {| CsvParse.Context.lines := 2; CsvParse.Context.column := 0 |} in
  (Globals.isNumeric "7" = true ->
   cast Globals.isNumeric Examples.csvColHeaders "7" context
   = Return (Js.parseIntStr "7"))
  /\ (Globals.isNumeric "7" = false ->
      cast Globals.isNumeric Examples.csvColHeaders "7" context = Exit 1).
Proof.
  apply (task_counter_cell_coercion Globals.isNumeric Examples.csvColHeaders "7"
           {| CsvParse.Context.lines := 2; CsvParse.Context.column := 0 |}).
  - discriminate.
  - reflexivity.
Defined.

(** X3 on a cell of the column "Task type", which has no type. *)
Lemma untyped_cell_is_unchanged_witness :
  cast Globals.isNumeric MoreExamples.exportedColHeaders "Reload"
       {| CsvParse.Context.lines := 2; CsvParse.Context.column := 1 |}
  = Return (Js.PStr "Reload").
Proof.
  apply (untyped_cell_is_unchanged Globals.isNumeric
           MoreExamples.exportedColHeaders "Reload"
           {| CsvParse.Context.lines := 2; CsvParse.Context.column := 1 |}).
  right. vm_compute. intuition discriminate.
Defined.

(** X6 on the example file. *)
Lemma processCsvFile_rows_have_header_width_witness :
  Forall (fun row => List.length row = List.length Examples.csvHeaderRow)
         (tl Examples.csvKeptWithLimit1).
Proof.
  apply (processCsvFile_rows_have_header_width
           Globals.isNumeric Lookups.getTaskColumnPosFromHeaderRow
           (Examples.csvOptions "1") Examples.csvText
           Examples.csvHeaderRow (tl Examples.csvKeptWithLimit1)).
  reflexivity.
Defined.



(** X8 on the example file after an empty first line. *)
Lemma processCsvFile_throws_after_empty_first_line_witness :
  exists err,
    processCsvFile Globals.isNumeric Lookups.getTaskColumnPosFromHeaderRow
                   (Examples.csvOptions "0") Examples.csvTextAfterEmptyLine
    = Throw err.
Proof.
  apply (processCsvFile_throws_after_empty_first_line
           Globals.isNumeric Lookups.getTaskColumnPosFromHeaderRow
           (Examples.csvOptions "0") Examples.csvTextAfterEmptyLine
           (CsvParse.split CsvParse.LF Examples.csvText)).
  reflexivity.
Defined.

(** X9 on the import of the example workbook. *)
Lemma importTaskFromFile_does_not_throw_witness :
  let outcomeAndTrace :=
    run (importTaskFromFile Globals.isNumeric
           Lookups.getTaskColumnPosFromHeaderRow Examples.world
           (Examples.excelOptions "Tasks" true)) in
  (exists code, fst outcomeAndTrace = Exit code)
  \/ (exists tasks, fst outcomeAndTrace = Return (TaskListResult tasks))
  \/ fst outcomeAndTrace = Return FalseResult
  \/ (fst outcomeAndTrace = Return UndefinedResult
      /\ exists err, last (snd outcomeAndTrace) (TasksInit None)
                     = LogError (String.append "IMPORT TASK 2: " err)).
Proof.
  apply (importTaskFromFile_does_not_throw
           Globals.isNumeric Lookups.getTaskColumnPosFromHeaderRow
           Examples.world (Examples.excelOptions "Tasks" true)).
  reflexivity.
Defined.


(** X11 on the import of the example file without apps: the task object
    is initialised without a mapping of apps. *)
Lemma no_app_import_without_option_witness :
  In (TasksInit None)
     (snd (run (importTaskFromFile Globals.isNumeric
                  Lookups.getTaskColumnPosFromHeaderRow Examples.world
                  (Examples.csvOptions "0"))))
  /\ @None ImportedApps = None.
Proof.
  split; [vm_compute; tauto|].
  apply (no_app_import_without_option
           Globals.isNumeric Lookups.getTaskColumnPosFromHeaderRow
           Examples.world (Examples.csvOptions "0")
           (fst (run (importTaskFromFile Globals.isNumeric
                        Lookups.getTaskColumnPosFromHeaderRow Examples.world
                        (Examples.csvOptions "0"))))
           (snd (run (importTaskFromFile Globals.isNumeric
                        Lookups.getTaskColumnPosFromHeaderRow Examples.world
                        (Examples.csvOptions "0"))))
           (TasksInit None)).
  - reflexivity.
  - reflexivity.
  - vm_compute. tauto.
Defined.


(** X13 on the import of the apps and tasks of a CSV file. *)
Lemma csv_import_has_no_app_sheet_witness :
  In (AppImportStarted None)
     (snd (run (importTaskFromFile Globals.isNumeric
                  Lookups.getTaskColumnPosFromHeaderRow Examples.world
                  MoreExamples.csvOptionsWithApps)))
  /\ @None Sheet = None.
Proof.
  split; [vm_compute; tauto|].
  apply (csv_import_has_no_app_sheet
           Globals.isNumeric Lookups.getTaskColumnPosFromHeaderRow
           Examples.world MoreExamples.csvOptionsWithApps
           (fst (run (importTaskFromFile Globals.isNumeric
                        Lookups.getTaskColumnPosFromHeaderRow Examples.world
                        MoreExamples.csvOptionsWithApps)))
           (snd (run (importTaskFromFile Globals.isNumeric
                        Lookups.getTaskColumnPosFromHeaderRow Examples.world
                        MoreExamples.csvOptionsWithApps)))
           None).
  - reflexivity.
  - reflexivity.
  - vm_compute. tauto.
Defined.

(** X14 on a workbook without the app sheet. *)
Lemma missing_app_sheet_run_witness :
  run (importTaskFromFile Globals.isNumeric Lookups.getTaskColumnPosFromHeaderRow
                          MoreExamples.worldWithoutAppSheet
                          (Examples.excelOptions "Tasks" true))
  = (Return UndefinedResult,
     [LogInfo (String.append "Import tasks from definitions in file "
                             (Js.quoted "tasks.xlsx"));
      TagsRequested;
      CustomPropertiesRequested;
      LogInfo "Successfully retrieved 0 custom properties from QSEoW";
      FileChecked "tasks.xlsx";
      WorkbookRead "tasks.xlsx";
      LogError (String.append "IMPORT TASK 2: "
                  (cantFindSheet "Apps" "tasks.xlsx"))]).
Proof.
  apply (missing_app_sheet_run
           Globals.isNumeric Lookups.getTaskColumnPosFromHeaderRow
           MoreExamples.worldWithoutAppSheet (Examples.excelOptions "Tasks" true)
           ["tag1"] [] [Examples.taskSheet] Examples.taskSheet Examples.taskSheet);
    reflexivity.
Defined.


(** X15 on three detected duplicate triggers. *)
Lemma duplicate_edges_are_reported_once_witness :
  let reported := VisTask.deduplicatedDuplicateEdges MoreExamples.duplicateEdges in
  NoDup (map VisTask.edgeKey reported)
  /\ (forall e, In e reported ->
                exists before after,
                  MoreExamples.duplicateEdges = before ++ e :: after
                  /\ ~ In (VisTask.edgeKey e) (map VisTask.edgeKey before))
  /\ (forall e, In e MoreExamples.duplicateEdges ->
                In (VisTask.edgeKey e) (map VisTask.edgeKey reported)).
Proof.
  apply (duplicate_edges_are_reported_once MoreExamples.duplicateEdges).
  repeat constructor; discriminate.
Defined.

(** X17 and X18 on the example tree. *)
Lemma cleanup_twice_is_cleanup_once_witness :
  GetTask.cleanupTaskTree
    (Js.VArr
       [ Js.VObj
           [ ("text", Js.VPrim (Js.PStr "--==| Scheduled tasks |==--"));
             ("children",
              Js.VArr
                [ Js.VObj [ ("text", Js.VPrim (Js.PStr "Task 1"));
                            ("children", Js.VArr []) ] ]) ];
         Js.VObj [ ("text", Js.VPrim (Js.PStr "Task 2")) ] ])
  = Some (Js.VArr
            [ Js.VObj
                [ ("text", Js.VPrim (Js.PStr "--==| Scheduled tasks |==--"));
                  ("children",
                   Js.VArr
                     [ Js.VObj [ ("text", Js.VPrim (Js.PStr "Task 1"));
                                 ("children", Js.VArr []) ] ]) ];
              Js.VObj [ ("text", Js.VPrim (Js.PStr "Task 2")) ] ]).
Proof.
  apply (cleanup_twice_is_cleanup_once (Js.VArr Examples.taskTree)).
  reflexivity.
Defined.

Lemma cleanup_keeps_node_texts_witness :
  GetTask.nodeTexts
    (Js.VArr
       [ Js.VObj
           [ ("text", Js.VPrim (Js.PStr "--==| Scheduled tasks |==--"));
             ("children",
              Js.VArr
                [ Js.VObj [ ("text", Js.VPrim (Js.PStr "Task 1"));
                            ("children", Js.VArr []) ] ]) ];
         Js.VObj [ ("text", Js.VPrim (Js.PStr "Task 2")) ] ])
  = GetTask.nodeTexts (Js.VArr Examples.taskTree).
Proof.
  apply (cleanup_keeps_node_texts (Js.VArr Examples.taskTree)).
  reflexivity.
Defined.

(** X19 on a task tree written over an existing file. *)
Lemma existing_tree_file_needs_consent_witness :
  GetTask.yesno MoreExamples.treeWorldWithFile = Return true
  /\ In GetTask.Asked
        (snd (run (GetTask.parseTree MoreExamples.treeWorldWithFile
                     (Examples.treeOptions "json") (Some Examples.taskTree)))).
Proof.
  apply (existing_tree_file_needs_consent
           MoreExamples.treeWorldWithFile (Examples.treeOptions "json")
           (Some Examples.taskTree)
           (fst (run (GetTask.parseTree MoreExamples.treeWorldWithFile
                        (Examples.treeOptions "json") (Some Examples.taskTree))))
           (snd (run (GetTask.parseTree MoreExamples.treeWorldWithFile
                        (Examples.treeOptions "json") (Some Examples.taskTree))))
           "tree.out"
           (Js.VArr
              [ Js.VObj
                  [ ("text", Js.VPrim (Js.PStr "--==| Scheduled tasks |==--"));
                    ("children",
                     Js.VArr
                       [ Js.VObj [ ("text", Js.VPrim (Js.PStr "Task 1"));
                                   ("children", Js.VArr []) ] ]) ];
                Js.VObj [ ("text", Js.VPrim (Js.PStr "Task 2")) ] ])).
  - reflexivity.
  - vm_compute. tauto.
  - reflexivity.
  - reflexivity.
Defined.

(** X20 on a dry run for the dimensions of the name "Country". *)
Lemma dry_run_destroys_nothing_witness :
  DeleteDim.destroyedIds
    (snd (run (DeleteDim.deleteMasterDimension MoreExamples.engine
                 (MoreExamples.deleteOptions "name" ["Country"] (Some true)))))
  = [].
Proof.
  apply (dry_run_destroys_nothing MoreExamples.engine
           (MoreExamples.deleteOptions "name" ["Country"] (Some true))).
  reflexivity.
Defined.

(** X21 on the deletion of the dimensions of the name "Country": the
    dimension with the id "dim-3" is destroyed. *)
Lemma destroyed_dimensions_were_requested_witness :
  exists qItems item,
    DeleteDim.getDimensionList MoreExamples.engine = Return qItems
    /\ In item qItems
    /\ DeleteDim.qId item = "dim-3"
    /\ (false = false ->
        forall masterItems, Some ["Country"] = Some masterItems ->
        ("name" = "name" /\ In (DeleteDim.title item) masterItems)
        \/ ("name" = "id" /\ In (DeleteDim.qId item) masterItems)).
Proof.
  apply (destroyed_dimensions_were_requested MoreExamples.engine
           (MoreExamples.deleteOptions "name" ["Country"] None) "dim-3").
  vm_compute. tauto.
Defined.

(** X22 on the same deletion, and on a name given twice. *)
Lemma selected_dimensions_are_destroyed_in_order_witness :
  fst (run (DeleteDim.deleteMasterDimension MoreExamples.engine
              (MoreExamples.deleteOptions "name" ["Country"; "Year"; "Country"]
                                          None)))
  = Return tt
  /\ DeleteDim.destroyedIds
       (snd (run (DeleteDim.deleteMasterDimension MoreExamples.engine
                    (MoreExamples.deleteOptions "name"
                       ["Country"; "Year"; "Country"] None))))
     = map DeleteDim.qId
           (DeleteDim.selection
              (MoreExamples.deleteOptions "name" ["Country"; "Year"; "Country"]
                                          None)
              MoreExamples.dimensions).
Proof.
  apply (selected_dimensions_are_destroyed_in_order MoreExamples.engine
           (MoreExamples.deleteOptions "name" ["Country"; "Year"; "Country"] None)
           MoreExamples.dimensions true true);
    try reflexivity.
  - intros tr id. eexists. reflexivity.
  - discriminate.
  - left. reflexivity.
Defined.

(** X23 on a request by 'title'. *)
Lemma invalid_id_type_deletes_nothing_witness :
  run (DeleteDim.deleteMasterDimension MoreExamples.engine
         (MoreExamples.deleteOptions "title" ["Country"] None))
  = (Return tt,
     [DeleteDim.LogInfo "Delete master dimensions";
      DeleteDim.LogError "Error in deleteMasterDimension: Invalid --id-type value"]).
Proof.
  apply (invalid_id_type_deletes_nothing MoreExamples.engine
           (MoreExamples.deleteOptions "title" ["Country"] None)
           MoreExamples.dimensions "Country" []);
    try reflexivity; discriminate.
Defined.

(** X24 on the table of the two example tasks. *)
Lemma task_table_rows_have_header_width_witness :
  Forall (fun row =>
            List.length row
            = List.length (GetTask.headerRow
                             (GetTask.columnBlockShow GetTask.DetailsTrue)))
         (TaskTable.taskTable MoreExamples.lookupMap MoreExamples.lookupMap
                              MoreExamples.lookupMap MoreExamples.lookupMap
                              MoreExamples.tableOptions MoreExamples.exportedTasks
                              MoreExamples.schemaEvents
                              MoreExamples.compositeEvents).
Proof.
  apply (task_table_rows_have_header_width
           MoreExamples.lookupMap MoreExamples.lookupMap
           MoreExamples.lookupMap MoreExamples.lookupMap
           MoreExamples.tableOptions MoreExamples.exportedTasks
           MoreExamples.schemaEvents MoreExamples.compositeEvents).
  repeat (apply Forall_cons || apply Forall_nil). right. discriminate.
Defined.


(** X28 on the example table written over an existing file. *)
Lemma existing_table_file_needs_consent_witness :
  let outcomeAndTrace :=
    run (TaskTable.parseTable MoreExamples.lookupMap MoreExamples.lookupMap
           MoreExamples.lookupMap MoreExamples.lookupMap
           MoreExamples.tableWorldWithFile MoreExamples.tableOptions
           MoreExamples.exportedTasks MoreExamples.schemaEvents
           MoreExamples.compositeEvents) in
  "file" = "file"
  /\ (TaskTable.verifyFileSystemExists MoreExamples.tableWorldWithFile "tasks.csv"
      = Return true ->
      false = false ->
      TaskTable.yesno MoreExamples.tableWorldWithFile = Return true
      /\ In TaskTable.Asked (snd outcomeAndTrace)).
Proof.
  apply (existing_table_file_needs_consent
           MoreExamples.lookupMap MoreExamples.lookupMap
           MoreExamples.lookupMap MoreExamples.lookupMap
           MoreExamples.tableWorldWithFile MoreExamples.tableOptions
           MoreExamples.exportedTasks MoreExamples.schemaEvents
           MoreExamples.compositeEvents
           (Return true)
           (snd (run (TaskTable.parseTable MoreExamples.lookupMap
                        MoreExamples.lookupMap MoreExamples.lookupMap
                        MoreExamples.lookupMap MoreExamples.tableWorldWithFile
                        MoreExamples.tableOptions MoreExamples.exportedTasks
                        MoreExamples.schemaEvents MoreExamples.compositeEvents)))
           "tasks.csv"
           (TaskTable.tableBuffer MoreExamples.tableOptions
              (TaskTable.taskTable MoreExamples.lookupMap MoreExamples.lookupMap
                 MoreExamples.lookupMap MoreExamples.lookupMap
                 MoreExamples.tableOptions MoreExamples.exportedTasks
                 MoreExamples.schemaEvents MoreExamples.compositeEvents))).
  - reflexivity.
  - vm_compute. tauto.
Defined.

End MoreOnExamples.
